(** * Flight-booking assistant: dialog transaction engine

    A shallow embedding of the Python sources

      - [main.py]                      (FlightBookingChatbot, the session controller)
      - [transactions/transaction.py]  (BaseTransaction)
      - [transactions/auth_flow.py]    (AuthFlow)
      - [transactions/booking.py]      (BookingTransaction)
      - [transactions/status.py]       (StatusTransaction)
      - [transactions/factory.py]      (TransactionFactory)
      - [services/auth.py]             (Auth)
      - [services/flight.py]           (Rates, FlightInfo, Trip)
      - [services/booking.py]          (BookingService)
      - [intent_classifier.py]         (IntentClassifier.predict)

    followed by the properties of the specification that are checked
    against it.

    Conventions of the embedding.
      - A Python [str] is a [string] of bytes (UTF-8); [lower]/[upper]
        act on ASCII letters only.
      - A method that mutates [self] or a shared collaborator is a
        function in the state-and-exception monad [M]: it takes the
        state and returns a result ([Ok v] or [Raise e]) together with
        the state reached, which on [Raise] is the state at the point
        where the exception left the method.
      - A [dict] whose keys come and go is a [gmap string PyVal].
      - [print] calls (debug output) are not modelled. *)

From Stdlib Require Import ZArith QArith Qround Qpower Qfield String Ascii List Lia Floats.
From stdpp Require Import base strings gmap list pretty sorting.

Set Default Proof Using "Type".
Open Scope Z_scope.

(* ===================================================================== *)
(** * 1. The Python layer: exceptions, results, state *)
(* ===================================================================== *)

Module Py.

(** The exception classes the sources raise or can run into.  All of
    them derive from [Exception]. *)
Inductive Exn : Type :=
| ValueError (msg : string)
| KeyError (key : string)
| TypeError (msg : string)
| AttributeError (msg : string)
| IndexError (msg : string)
| DatabaseError (msg : string).

Definition is_ValueError (e : Exn) : bool :=
  match e with ValueError _ => true | _ => false end.

(** [str(e)] *)
Definition exn_str (e : Exn) : string :=
  match e with
  | ValueError m | TypeError m | AttributeError m
  | IndexError m | DatabaseError m => m
  | KeyError k => "'" ++ k ++ "'"
  end.

Inductive Res (A : Type) : Type :=
| Ok (a : A)
| Raise (e : Exn).
Arguments Ok {A} a.
Arguments Raise {A} e.

Definition is_Ok {A} (r : Res A) : bool :=
  match r with Ok _ => true | Raise _ => false end.

(** State and exceptions: the state survives a [Raise]. *)
Definition M (S A : Type) : Type := S -> Res A * S.

Definition ret {S A} (a : A) : M S A := fun s => (Ok a, s).
Definition raise {S A} (e : Exn) : M S A := fun s => (Raise e, s).
Definition bind {S A B} (c : M S A) (k : A -> M S B) : M S B :=
  fun s => match c s with
           | (Ok a, s') => k a s'
           | (Raise e, s') => (Raise e, s')
           end.
Definition get {S} : M S S := fun s => (Ok s, s).
Definition gets {S A} (f : S -> A) : M S A := fun s => (Ok (f s), s).
Definition put {S} (s : S) : M S unit := fun _ => (Ok tt, s).
Definition modify {S} (f : S -> S) : M S unit := fun s => (Ok tt, f s).
Definition lift_res {S A} (r : Res A) : M S A := fun s => (r, s).

(** [try: body  except <class>: handler], where [catches] says which
    exceptions the clause takes. *)
Definition try_except {S A} (body : M S A) (catches : Exn -> bool)
    (handler : Exn -> M S A) : M S A :=
  fun s => match body s with
           | (Ok a, s') => (Ok a, s')
           | (Raise e, s') => if catches e then handler e s' else (Raise e, s')
           end.

Definition except_Exception : Exn -> bool := fun _ => true.
Definition except_ValueError : Exn -> bool := is_ValueError.

(** A run of turns: each message is handed to [step] in the state the
    turn before left, whether it returned or raised. *)
Fixpoint run_all {S A} (step : string -> M S A) (messages : list string) (s : S)
    : list (Res A) * S :=
  match messages with
  | [] => ([], s)
  | message :: rest =>
      let '(r, s') := step message s in
      let '(rs, s'') := run_all step rest s' in
      (r :: rs, s'')
  end.

End Py.
Export Py.

(** Sequencing: [let* x := c in k] runs [c], binds its value and goes on
    with [k] unless [c] raised; [do* c in k] drops the value. *)
Notation "'let*' x := c 'in' k" := (bind c (fun x => k))
  (at level 10, x name, c at level 100, k at level 200, only parsing).
Notation "'do*' c 'in' k" := (bind c (fun _ => k))
  (at level 10, c at level 100, k at level 200, only parsing).

(* ===================================================================== *)
(** * 2. Strings, integers and dates as Python reads and prints them *)
(* ===================================================================== *)

Module PyStr.

Definition code (c : ascii) : Z := Z.of_N (N_of_ascii c).

Definition is_digit (c : ascii) : bool := (48 <=? code c) && (code c <=? 57).
Definition digit_val (c : ascii) : Z := code c - 48.
Definition in_range (lo hi : Z) (c : ascii) : bool :=
  (lo <=? digit_val c) && (digit_val c <=? hi) && is_digit c.

(** ASCII white space as [str.strip] and [int] see it. *)
Definition is_space (c : ascii) : bool :=
  ((9 <=? code c) && (code c <=? 13)) || ((28 <=? code c) && (code c <=? 32)).

Definition lower_char (c : ascii) : ascii :=
  if (65 <=? code c) && (code c <=? 90)
  then ascii_of_N (N_of_ascii c + 32) else c.
Definition upper_char (c : ascii) : ascii :=
  if (97 <=? code c) && (code c <=? 122)
  then ascii_of_N (N_of_ascii c - 32) else c.

Fixpoint map_string (f : ascii -> ascii) (s : string) : string :=
  match s with
  | EmptyString => EmptyString
  | String c r => String (f c) (map_string f r)
  end.

(** [s.lower()] and [s.upper()] *)
Definition lower : string -> string := map_string lower_char.
Definition upper : string -> string := map_string upper_char.

Fixpoint starts_with (p s : string) : bool :=
  match p, s with
  | EmptyString, _ => true
  | String a p', String b s' => if Ascii.eqb a b then starts_with p' s' else false
  | String _ _, EmptyString => false
  end.

(** [needle in hay] *)
Fixpoint contains (needle hay : string) : bool :=
  starts_with needle hay ||
  match hay with
  | EmptyString => false
  | String _ r => contains needle r
  end.

Fixpoint repeat_char (c : ascii) (n : nat) : string :=
  match n with O => EmptyString | S k => String c (repeat_char c k) end.

Definition slen (s : string) : Z := Z.of_nat (String.length s).

(** ["{:w}".format(s)] for a string: left-aligned, padded with spaces,
    never truncated. *)
Definition pad_right (w : Z) (s : string) : string :=
  s ++ repeat_char " " (Z.to_nat (w - slen s)).
(** The same for a number: right-aligned. *)
Definition pad_left (w : Z) (s : string) : string :=
  repeat_char " " (Z.to_nat (w - slen s)) ++ s.
(** ["%02d"]-style zero padding of a non-negative number. *)
Definition zero_pad (w : Z) (n : Z) : string :=
  let d := pretty (Z.to_N n) in
  repeat_char "0" (Z.to_nat (w - slen d)) ++ d.

(** [sep.join(parts)] *)
Fixpoint join (sep : string) (parts : list string) : string :=
  match parts with
  | [] => EmptyString
  | [p] => p
  | p :: rest => p ++ sep ++ join sep rest
  end.

Definition nl : string := String (ascii_of_N 10) EmptyString.

(** ** [int(s)] on a string

    Surrounding white space is dropped, one sign is allowed, then
    decimal digits, where single underscores may separate digits. *)
Fixpoint drop_spaces (l : list ascii) : list ascii :=
  match l with
  | c :: r => if is_space c then drop_spaces r else l
  | [] => []
  end.

Definition strip_list (l : list ascii) : list ascii :=
  rev (drop_spaces (rev (drop_spaces l))).

Fixpoint parse_digits (acc : Z) (after_digit : bool) (l : list ascii) : option Z :=
  match l with
  | [] => if after_digit then Some acc else None
  | c :: r =>
      if is_digit c then parse_digits (10 * acc + digit_val c) true r
      else if Ascii.eqb c "_" && after_digit then parse_digits acc false r
      else None
  end.

Definition parse_int (s : string) : option Z :=
  match strip_list (list_ascii_of_string s) with
  | c :: r =>
      if Ascii.eqb c "-" then Z.opp <$> parse_digits 0 false r
      else if Ascii.eqb c "+" then parse_digits 0 false r
      else parse_digits 0 false (c :: r)
  | [] => None
  end.

Definition py_int (s : string) : Res Z :=
  match parse_int s with
  | Some n => Ok n
  | None => Raise (ValueError ("invalid literal for int() with base 10: '" ++ s ++ "'"))
  end.

(** [s.strip()]: ASCII white space dropped at both ends. *)
Definition strip (s : string) : string :=
  string_of_list_ascii (strip_list (list_ascii_of_string s)).

End PyStr.
Export PyStr.

Module DateTime.

(** [datetime.date]: a proleptic Gregorian calendar day. *)
Record date : Type := mkdate { year : Z; month : Z; day : Z }.

(** [datetime.time], as far as the engine prints it. *)
Record time : Type := mktime { hour : Z; minute : Z }.

#[global] Instance date_eq_dec : EqDecision date.
Proof. solve_decision. Defined.
#[global] Instance time_eq_dec : EqDecision time.
Proof. solve_decision. Defined.

(** [a < b] on dates *)
Definition date_ltb (a b : date) : bool :=
  (year a <? year b) ||
  ((year a =? year b) &&
   ((month a <? month b) || ((month a =? month b) && (day a <? day b)))).

Definition is_leap (y : Z) : bool :=
  (y mod 4 =? 0) && (negb (y mod 100 =? 0) || (y mod 400 =? 0)).

Definition days_in_month (y m : Z) : Z :=
  if m =? 2 then (if is_leap y then 29 else 28)
  else if (m =? 4) || (m =? 6) || (m =? 9) || (m =? 11) then 30
  else 31.

(** What the [date] constructor accepts. *)
Definition date_ok (y m d : Z) : bool :=
  (1 <=? y) && (y <=? 9999) && (1 <=? m) && (m <=? 12) &&
  (1 <=? d) && (d <=? days_in_month y m).

(** [str(d)], [d.isoformat()] and [d.strftime("%Y-%m-%d")] *)
Definition isoformat (d : date) : string :=
  zero_pad 4 (year d) ++ "-" ++ zero_pad 2 (month d) ++ "-" ++ zero_pad 2 (day d).

(** [t.strftime("%H:%M")] *)
Definition strftime_HM (t : time) : string :=
  zero_pad 2 (hour t) ++ ":" ++ zero_pad 2 (minute t).

(** ** [datetime.strptime(s, "%Y-%m-%d").date()]

    CPython turns the format into the regular expression
    [(\d\d\d\d)-(1[0-2]|0[1-9]|[1-9])-(3[01]|[12]\d|0[1-9]|[1-9]| [1-9])],
    matches it at the start of the string, refuses text left over, and
    then builds the date.  Each alternative is tried in the order
    written; the functions below list the ways one field can match, in
    that order, with what is left of the input. *)

Definition year_matches (l : list ascii) : list (Z * list ascii) :=
  match l with
  | a :: b :: c :: d :: r =>
      if is_digit a && is_digit b && is_digit c && is_digit d
      then [(1000 * digit_val a + 100 * digit_val b + 10 * digit_val c + digit_val d, r)]
      else []
  | _ => []
  end.

Definition month_matches (l : list ascii) : list (Z * list ascii) :=
  (match l with
   | a :: b :: r => if Ascii.eqb a "1" && in_range 0 2 b then [(10 + digit_val b, r)] else []
   | _ => []
   end) ++
  (match l with
   | a :: b :: r => if Ascii.eqb a "0" && in_range 1 9 b then [(digit_val b, r)] else []
   | _ => []
   end) ++
  (match l with
   | a :: r => if in_range 1 9 a then [(digit_val a, r)] else []
   | _ => []
   end).

Definition day_matches (l : list ascii) : list (Z * list ascii) :=
  (match l with
   | a :: b :: r => if Ascii.eqb a "3" && in_range 0 1 b then [(30 + digit_val b, r)] else []
   | _ => []
   end) ++
  (match l with
   | a :: b :: r => if in_range 1 2 a && is_digit b then [(10 * digit_val a + digit_val b, r)] else []
   | _ => []
   end) ++
  (match l with
   | a :: b :: r => if Ascii.eqb a "0" && in_range 1 9 b then [(digit_val b, r)] else []
   | _ => []
   end) ++
  (match l with
   | a :: r => if in_range 1 9 a then [(digit_val a, r)] else []
   | _ => []
   end) ++
  (match l with
   | a :: b :: r => if Ascii.eqb a " " && in_range 1 9 b then [(digit_val b, r)] else []
   | _ => []
   end).

Definition expect_dash (l : list ascii) : list (list ascii) :=
  match l with
  | c :: r => if Ascii.eqb c "-" then [r] else []
  | [] => []
  end.

(** All matches of the whole expression, first choice first. *)
Definition ymd_matches (l : list ascii) : list (Z * Z * Z * list ascii) :=
  '(y, r1) ← year_matches l;
  r2 ← expect_dash r1;
  '(m, r3) ← month_matches r2;
  r4 ← expect_dash r3;
  '(d, r5) ← day_matches r4;
  [(y, m, d, r5)].

Definition strptime_ymd (s : string) : Res date :=
  match ymd_matches (list_ascii_of_string s) with
  | [] => Raise (ValueError ("time data '" ++ s ++ "' does not match format '%Y-%m-%d'"))
  | (y, m, d, rest) :: _ =>
      match rest with
      | _ :: _ => Raise (ValueError ("unconverted data remains: " ++ string_of_list_ascii rest))
      | [] =>
          if date_ok y m d then Ok (mkdate y m d)
          else Raise (ValueError "day is out of range for month")
      end
  end.

(** [a < b] on times of day and on [datetime] values *)
Definition time_ltb (a b : time) : bool :=
  (hour a <? hour b) || ((hour a =? hour b) && (minute a <? minute b)).

Definition datetime_ltb (a b : date * time) : bool :=
  date_ltb a.1 b.1 || (bool_decide (a.1 = b.1) && time_ltb a.2 b.2).

End DateTime.
Export DateTime.

(* ===================================================================== *)
(** * 3. [decimal.Decimal] *)
(* ===================================================================== *)

(** A finite [Decimal] is a signed coefficient and an exponent; its
    value is [coefficient * 10^exponent].  Sums and products are the
    exact ones: the default context keeps 28 significant digits, far more
    than any price here has, and below that bound [+] and [*] do not
    round.  The sign of a zero is not kept. *)
Module Decimal.

Record Decimal : Type := mkDec { coefficient : Z; exponent : Z }.

#[global] Instance Decimal_eq_dec : EqDecision Decimal.
Proof. solve_decision. Defined.

(** [Decimal("2.5")] is [mkDec 25 (-1)]. *)

(** [a + b]: the exponent is the smaller one. *)
Definition add (a b : Decimal) : Decimal :=
  let e := Z.min (exponent a) (exponent b) in
  mkDec (coefficient a * 10 ^ (exponent a - e) + coefficient b * 10 ^ (exponent b - e)) e.

(** [a * b]: coefficients multiply, exponents add. *)
Definition mul (a b : Decimal) : Decimal :=
  mkDec (coefficient a * coefficient b) (exponent a + exponent b).

(** [n / d] for [n >= 0] and [d > 0], rounded to the nearest integer,
    a tie going to the even neighbour ([ROUND_HALF_EVEN], the rounding
    of the default context). *)
Definition div_half_even (n d : Z) : Z :=
  let q := n / d in
  let r := n mod d in
  if 2 * r <? d then q
  else if d <? 2 * r then q + 1
  else if Z.even q then q else q + 1.

(** [x.quantize(Decimal(1).scaleb(e))]: the same value at exponent [e],
    rounded half-even when digits are dropped. *)
Definition quantize (x : Decimal) (e : Z) : Decimal :=
  if e <=? exponent x
  then mkDec (coefficient x * 10 ^ (exponent x - e)) e
  else mkDec (Z.sgn (coefficient x) *
              div_half_even (Z.abs (coefficient x)) (10 ^ (e - exponent x))) e.

(** [round(x, n)] *)
Definition round (x : Decimal) (n : Z) : Decimal := quantize x (- n).

(** The value, as a rational. *)
Definition to_Q (x : Decimal) : Q :=
  (inject_Z (coefficient x) * inject_Z 10 ^ exponent x)%Q.

(** [str(x)] *)
Definition digits (x : Decimal) : string := pretty (Z.abs_N (coefficient x)).

Definition str (x : Decimal) : string :=
  let sign : string := if coefficient x <? 0 then "-" else EmptyString in
  let ds := digits x in
  let len := slen ds in
  let leftdigits := exponent x + len in
  let dotplace :=
    if (exponent x <=? 0) && (-6 <? leftdigits) then leftdigits else 1 in
  let number : string :=
    if dotplace <=? 0 then
      ("0." +:+ repeat_char "0" (Z.to_nat (- dotplace)) +:+ ds)
    else if len <=? dotplace then
      (ds +:+ repeat_char "0" (Z.to_nat (dotplace - len)))
    else
      (String.substring 0 (Z.to_nat dotplace) ds +:+ "." +:+
       String.substring (Z.to_nat dotplace) (Z.to_nat (len - dotplace)) ds) in
  let exp : string :=
    if leftdigits =? dotplace then EmptyString
    else ("E" +:+ (if 0 <=? leftdigits - dotplace then "+" else EmptyString) +:+
          pretty (leftdigits - dotplace)) in
  (sign +:+ number +:+ exp).

(** ["{:9}".format(x)]: [str(x)], right-aligned in nine columns *)
Definition format9 (x : Decimal) : string := pad_left 9 (str x).

End Decimal.
Abbreviation Decimal := Decimal.Decimal.

(* ===================================================================== *)
(** * 4. [services/flight.py]: rates and trips *)
(* ===================================================================== *)

Module Rates.

(** [Decimal(str(rate))] of each table entry: [str(0.9)] is ["0.9"],
    [str(1.0)] is ["1.0"], and so on. *)
Definition TRIP_TYPE_RATES : gmap string Decimal :=
  <["ONEWAY" := Decimal.mkDec 10 (-1)]> (<["ROUNDTRIP" := Decimal.mkDec 9 (-1)]> ∅).

Definition CLASS_RATES : gmap string Decimal :=
  <["FIRST" := Decimal.mkDec 25 (-1)]>
    (<["BUSINESS" := Decimal.mkDec 18 (-1)]>
       (<["ECONOMY" := Decimal.mkDec 10 (-1)]> ∅)).

End Rates.

(** [d[k]] on a dictionary *)
Definition getitem {V} (d : gmap string V) (k : string) : Res V :=
  match d !! k with
  | Some v => Ok v
  | None => Raise (KeyError k)
  end.

Record FlightInfo : Type := mkFlightInfo {
  id : Z;
  origin_base : string;
  origin_location : string;
  origin_code : string;
  departure_date : date;
  departure_time : time;
  destination_base : string;
  destination_location : string;
  destination_code : string;
  status : string;
  base_price : Decimal
}.

Record Trip : Type := mkTrip {
  trip_type : string;
  outbound_flight : FlightInfo;
  return_flight : option FlightInfo
}.

#[global] Instance FlightInfo_eq_dec : EqDecision FlightInfo.
Proof. solve_decision. Defined.
#[global] Instance Trip_eq_dec : EqDecision Trip.
Proof. solve_decision. Defined.

Module TripM.

Definition _calculate_base_trip_price (self : Trip) : Res Decimal :=
  let total_base := base_price (outbound_flight self) in
  let total_base :=
    match return_flight self with
    | Some rf =>
        if String.eqb (trip_type self) "ROUNDTRIP"
        then Decimal.add total_base (base_price rf) else total_base
    | None => total_base
    end in
  match getitem Rates.TRIP_TYPE_RATES (trip_type self) with
  | Ok rate => Ok (Decimal.mul total_base rate)
  | Raise e => Raise e
  end.

Definition class_price (self : Trip) (cls : string) : Res Decimal :=
  match _calculate_base_trip_price self with
  | Ok base =>
      match getitem Rates.CLASS_RATES cls with
      | Ok rate => Ok (Decimal.round (Decimal.mul base rate) 2)
      | Raise e => Raise e
      end
  | Raise e => Raise e
  end.

Definition get_first_class_price (self : Trip) : Res Decimal := class_price self "FIRST".
Definition get_business_class_price (self : Trip) : Res Decimal := class_price self "BUSINESS".
Definition get_economy_class_price (self : Trip) : Res Decimal := class_price self "ECONOMY".

Definition get_all_class_prices (self : Trip) : Res (gmap string Decimal) :=
  match get_first_class_price self with
  | Raise e => Raise e
  | Ok f =>
      match get_business_class_price self with
      | Raise e => Raise e
      | Ok b =>
          match get_economy_class_price self with
          | Raise e => Raise e
          | Ok ec => Ok (<["FIRST" := f]> (<["BUSINESS" := b]> (<["ECONOMY" := ec]> ∅)))
          end
      end
  end.

End TripM.

(* ===================================================================== *)
(** * 5. [intent_classifier.py] *)
(* ===================================================================== *)

Module IntentClassifier.

(** The fitted scikit-learn pipeline, as far as [predict] uses it: the
    class labels, [predict_proba([text])[0]] and [predict([text])[0]].
    Probabilities are binary64 floats. *)
Record Pipeline : Type := mkPipeline {
  classes_ : list string;
  predict_proba : string -> list float;
  pipeline_predict : string -> string
}.

(** The classifier object: [pipeline] is [None] when the attribute was
    never set ([hasattr(self, 'pipeline')] is false). *)
Record t : Type := mk { pipeline : option Pipeline }.

(** [np.max] of a one-dimensional array: a NaN wins, an empty array is
    an error. *)
Definition fmax (a b : float) : float :=
  if PrimFloat.is_nan a then a
  else if PrimFloat.is_nan b then b
  else if PrimFloat.ltb a b then b else a.

Definition np_max (l : list float) : Res float :=
  match l with
  | [] => Raise (ValueError "zero-size array to reduction operation maximum which has no identity")
  | x :: r => Ok (fold_left fmax r x)
  end.

(** The confidence threshold, the float literal [0.4]. *)
Definition threshold : float := 0x1.999999999999ap-2%float.

Definition predict (self : t) (text : string) : Res string :=
  match pipeline self with
  | None =>
      Raise (ValueError "No model available for prediction. Please train or load a model first.")
  | Some p =>
      match np_max (predict_proba p text) with
      | Raise e => Raise e
      | Ok max_confidence =>
          if PrimFloat.ltb threshold max_confidence
          then Ok (pipeline_predict p text)
          else Ok "unknown"
      end
  end.

(** [IntentClassifier()]: the constructor loads the saved model or
    trains one; [source] is what that yields.  When it fails the
    exception leaves the constructor. *)
Definition __init__ (source : Res Pipeline) : Res t :=
  match source with
  | Ok p => Ok (mk (Some p))
  | Raise e => Raise e
  end.

End IntentClassifier.

(* ===================================================================== *)
(** * 6. Values kept in a transaction's context, and the world around
        the engine *)
(* ===================================================================== *)

Inductive PyVal : Type :=
| VNone
| VStr (s : string)
| VDate (d : date)
| VDecimal (d : Decimal)
| VTrip (t : Trip)
| VList (l : list Trip).

#[global] Instance PyVal_eq_dec : EqDecision PyVal.
Proof. solve_decision. Defined.

Module PyValM.

(** [bool(v)] *)
Definition truthy (v : PyVal) : bool :=
  match v with
  | VNone => false
  | VStr s => negb (String.eqb s EmptyString)
  | VDate _ => true
  | VDecimal d => negb (Decimal.coefficient d =? 0)
  | VTrip _ => true
  | VList l => match l with [] => false | _ => true end
  end.

(** [repr(s)] of a string, for ASCII text: single quotes unless the
    text has a single quote and no double quote; backslash, the quote
    and control characters are escaped. *)
Definition hex_digit (n : Z) : ascii :=
  if n <? 10 then ascii_of_N (Z.to_N (48 + n)) else ascii_of_N (Z.to_N (87 + n)).

Fixpoint repr_chars (q : ascii) (s : string) : string :=
  match s with
  | EmptyString => EmptyString
  | String c r =>
      let rest := repr_chars q r in
      if Ascii.eqb c q || Ascii.eqb c "\" then String "\" (String c rest)
      else if code c =? 10 then String "\" (String "n" rest)
      else if code c =? 13 then String "\" (String "r" rest)
      else if code c =? 9 then String "\" (String "t" rest)
      else if (code c <? 32) || (code c =? 127)
      then String "\" (String "x" (String (hex_digit (code c / 16))
                                      (String (hex_digit (code c mod 16)) rest)))
      else String c rest
  end.

Definition repr_str (s : string) : string :=
  let q : ascii :=
    if contains "'" s && negb (contains (String (ascii_of_N 34) EmptyString) s)
    then ascii_of_N 34 else "'"%char in
  String q (repr_chars q s +:+ String q EmptyString).

Definition repr_date (d : date) : string :=
  "datetime.date(" +:+ pretty (year d) +:+ ", " +:+ pretty (month d) +:+ ", " +:+
  pretty (day d) +:+ ")".
Definition repr_time (t : time) : string :=
  "datetime.time(" +:+ pretty (hour t) +:+ ", " +:+ pretty (minute t) +:+ ")".
Definition repr_decimal (d : Decimal) : string := "Decimal('" +:+ Decimal.str d +:+ "')".

(** The generated [__repr__] of the two data classes. *)
Definition repr_flight (f : FlightInfo) : string :=
  "FlightInfo(id=" +:+ pretty (id f) +:+
  ", origin_base=" +:+ repr_str (origin_base f) +:+
  ", origin_location=" +:+ repr_str (origin_location f) +:+
  ", origin_code=" +:+ repr_str (origin_code f) +:+
  ", departure_date=" +:+ repr_date (departure_date f) +:+
  ", departure_time=" +:+ repr_time (departure_time f) +:+
  ", destination_base=" +:+ repr_str (destination_base f) +:+
  ", destination_location=" +:+ repr_str (destination_location f) +:+
  ", destination_code=" +:+ repr_str (destination_code f) +:+
  ", status=" +:+ repr_str (status f) +:+
  ", base_price=" +:+ repr_decimal (base_price f) +:+ ")".

Definition repr_trip (t : Trip) : string :=
  "Trip(trip_type=" +:+ repr_str (trip_type t) +:+
  ", outbound_flight=" +:+ repr_flight (outbound_flight t) +:+
  ", return_flight=" +:+
  match return_flight t with Some f => repr_flight f | None => "None" end +:+ ")".

(** [str(v)], what an f-string puts for [{v}] *)
Definition str (v : PyVal) : string :=
  match v with
  | VNone => "None"
  | VStr s => s
  | VDate d => isoformat d
  | VDecimal d => Decimal.str d
  | VTrip t => repr_trip t
  | VList l => "[" +:+ join ", " (map repr_trip l) +:+ "]"
  end.

End PyValM.

(** A row of the [User] table. *)
Record User : Type := mkUser {
  user_id : Z;
  user_name : string;
  user_email : string;
  user_password : string;
  user_preferred_class : option string
}.

(** [BookingInfo], the booking as [create_booking] hands it back. *)
Record BookingInfo : Type := mkBookingInfo {
  booking_id : Z;
  reference : string;
  booking_trip_type : string;
  outbound_flight_id : Z;
  return_flight_id : option Z;
  booking_travel_class : string;
  created_at : date * time;
  booking_user_id : Z;
  total_amount : float
}.

(** The [Auth] object made by the chatbot and shared, by reference,
    with every transaction and every authentication flow. *)
Record AuthService : Type := mkAuth { _current_user : option User }.

(** Everything outside the transaction objects that a turn can read or
    change: the user and booking tables, the shared [Auth] object, the
    clock, and the collaborators that stand outside the engine
      - [sha256_hex]: [hashlib.sha256(s.encode()).hexdigest()];
      - [flight_query]: [FlightService.search_flights], a database
        query over the flight table (origin, destination, outbound date,
        return date, limit);
      - [booking_insert]: the reference drawn at random, the row
        inserted by [Booking.create] and read back by
        [BookingInfo.from_orm] (trip type, outbound flight id, return
        flight id, travel class, user id, total amount);
      - [model_source]: what loading or training the classifier model
        yields when an [IntentClassifier] is constructed. *)
Record World : Type := mkWorld {
  users : list User;
  bookings : list BookingInfo;
  auth_service : AuthService;
  today : date;
  sha256_hex : string -> string;
  flight_query : PyVal -> PyVal -> PyVal -> PyVal -> Z -> Res (list Trip);
  booking_insert : list BookingInfo -> string -> Z -> option Z -> string -> Z -> Decimal
                   -> Res BookingInfo;
  model_source : Res IntentClassifier.Pipeline
}.

Definition set_users (us : list User) (w : World) : World :=
  mkWorld us (bookings w) (auth_service w) (today w) (sha256_hex w)
          (flight_query w) (booking_insert w) (model_source w).
Definition set_bookings (bs : list BookingInfo) (w : World) : World :=
  mkWorld (users w) bs (auth_service w) (today w) (sha256_hex w)
          (flight_query w) (booking_insert w) (model_source w).
Definition set_auth_service (a : AuthService) (w : World) : World :=
  mkWorld (users w) (bookings w) a (today w) (sha256_hex w)
          (flight_query w) (booking_insert w) (model_source w).

(* ===================================================================== *)
(** * 7. [services/auth.py] *)
(* ===================================================================== *)

Module Auth.

(** [User.get(User.email == email)]: the first row with that address. *)
Fixpoint find_user (email : string) (us : list User) : option User :=
  match us with
  | [] => None
  | u :: r => if String.eqb (user_email u) email then Some u else find_user email r
  end.

(** The key an [AutoField] gives the next row. *)
Definition next_id (us : list User) : Z :=
  1 + fold_right (fun u m => Z.max (user_id u) m) 0 us.

Definition is_authenticated (w : World) : bool :=
  match _current_user (auth_service w) with Some _ => true | None => false end.

Definition current_user (w : World) : option User := _current_user (auth_service w).

Definition _hash_password (w : World) (password : string) : string := sha256_hex w password.

(** [login(email, password)].  The address is whatever the flow holds
    ([None] matches no row); the password is a string. *)
Definition login (email : option string) (password : string) (w : World)
    : (bool * string) * World :=
  match email with
  | None => ((false, "Invalid email or password"), w)
  | Some em =>
      match find_user em (users w) with
      | None => ((false, "Invalid email or password"), w)
      | Some user =>
          if String.eqb (user_password user) (_hash_password w password)
          then ((true, "Login successful"), set_auth_service (mkAuth (Some user)) w)
          else ((false, "Invalid email or password"), w)
      end
  end.

(** [register(name, email, password)].  The whole body sits in
    [try ... except Exception], so each failure is a [(False, message)]:
    a missing password fails in [encode] while the arguments of
    [User.create] are evaluated, a missing address fails the [NOT NULL]
    constraint of the insert. *)
Definition register (name : string) (email password : option string) (w : World)
    : (bool * string) * World :=
  match email, password with
  | Some em, Some pw =>
      match find_user em (users w) with
      | Some _ => ((false, "Email already registered"), w)
      | None =>
          let user := mkUser (next_id (users w)) name em (_hash_password w pw) None in
          ((true, "Registration successful"),
           set_auth_service (mkAuth (Some user)) (set_users (users w ++ [user]) w))
      end
  | Some em, None =>
      match find_user em (users w) with
      | Some _ => ((false, "Email already registered"), w)
      | None => ((false, "Registration failed: 'NoneType' object has no attribute 'encode'"), w)
      end
  | None, None =>
      ((false, "Registration failed: 'NoneType' object has no attribute 'encode'"), w)
  | None, Some _ =>
      ((false, "Registration failed: NOT NULL constraint failed: user.email"), w)
  end.

(** [logout()] *)
Definition logout (w : World) : (bool * string) * World :=
  ((true, "Logged out successfully"), set_auth_service (mkAuth None) w).

(** [User.update(...).where(User.id == key).execute()]: the change is
    applied to every row with that key. *)
Definition update_rows (key : Z) (change : User -> User) (us : list User) : list User :=
  map (fun u => if user_id u =? key then change u else u) us.

Definition set_user_name (new_name : string) (u : User) : User :=
  mkUser (user_id u) new_name (user_email u) (user_password u) (user_preferred_class u).
Definition set_user_preferred_class (new_class : option string) (u : User) : User :=
  mkUser (user_id u) (user_name u) (user_email u) (user_password u) new_class.

(** [update_name(new_name)]: the row is changed by a query, the object
    held in [_current_user] by an assignment of its own. *)
Definition update_name (new_name : string) (w : World) : (bool * string) * World :=
  match _current_user (auth_service w) with
  | None => ((false, "User not authenticated"), w)
  | Some user =>
      ((true, "Name updated successfully"),
       set_auth_service (mkAuth (Some (set_user_name new_name user)))
         (set_users (update_rows (user_id user) (set_user_name new_name) (users w)) w))
  end.

Definition valid_classes : list (option string) :=
  [Some "ECONOMY"; Some "BUSINESS"; Some "FIRST"; None].

(** [update_preferred_class(new_class)] *)
Definition update_preferred_class (new_class : option string) (w : World)
    : (bool * string) * World :=
  match _current_user (auth_service w) with
  | None => ((false, "User not authenticated"), w)
  | Some user =>
      if bool_decide (new_class ∈ valid_classes) then
        ((true, "Preferred class updated successfully"),
         set_auth_service (mkAuth (Some (set_user_preferred_class new_class user)))
           (set_users (update_rows (user_id user) (set_user_preferred_class new_class)
                         (users w)) w))
      else ((false, "Invalid class. Must be one of: ECONOMY, BUSINESS, FIRST"), w)
  end.

End Auth.

(* ===================================================================== *)
(** * 8. [transactions/auth_flow.py] *)
(* ===================================================================== *)

Module AuthFlowStates.
Definition INIT : string := "INIT".
Definition AWAITING_EMAIL : string := "AWAITING_EMAIL".
Definition AWAITING_PASSWORD : string := "AWAITING_PASSWORD".
Definition AWAITING_NAME : string := "AWAITING_NAME".
Definition COMPLETE : string := "COMPLETE".
End AuthFlowStates.

Module AuthFlow.

(** The flow's [context] is a dictionary with four fixed keys that are
    only ever reassigned, each bound to [None] or to a string. *)
Record Context : Type := mkContext {
  action : option string;
  email : option string;
  password : option string;
  name : option string
}.

Record t : Type := mk { state : string; context : Context }.

Definition set_state (s : string) (self : t) : t := mk s (context self).
Definition set_action (v : option string) (self : t) : t :=
  mk (state self) (mkContext v (email (context self)) (password (context self)) (name (context self))).
Definition set_email (v : option string) (self : t) : t :=
  mk (state self) (mkContext (action (context self)) v (password (context self)) (name (context self))).
Definition set_password (v : option string) (self : t) : t :=
  mk (state self) (mkContext (action (context self)) (email (context self)) v (name (context self))).
Definition set_name (v : option string) (self : t) : t :=
  mk (state self) (mkContext (action (context self)) (email (context self)) (password (context self)) v).

Definition __init__ : t := mk AuthFlowStates.INIT (mkContext None None None None).

(** The methods run on the shared world and the flow object. *)
Definition St : Type := World * t.

Definition update (f : t -> t) : M St unit := modify (fun '(w, self) => (w, f self)).
Definition self_ : M St t := gets snd.

(** Calls into the shared [Auth] object. *)
Definition auth_login (em : option string) (pw : string) : M St (bool * string) :=
  fun '(w, self) => let '(r, w') := Auth.login em pw w in (Ok r, (w', self)).
Definition auth_register (nm : string) (em pw : option string) : M St (bool * string) :=
  fun '(w, self) => let '(r, w') := Auth.register nm em pw w in (Ok r, (w', self)).

Definition _handle_init (message : string) : M St string :=
  let message := lower message in
  if contains "register" message || contains "sign up" message then
    do* update (set_action (Some "register")) in
    do* update (set_state AuthFlowStates.AWAITING_EMAIL) in
    ret "Let's create an account. Please enter your email:"
  else
    do* update (set_action (Some "login")) in
    do* update (set_state AuthFlowStates.AWAITING_EMAIL) in
    ret "Please enter your email to login:".

Definition _handle_email (message : string) : M St string :=
  do* update (set_email (Some message)) in
  do* update (set_state AuthFlowStates.AWAITING_PASSWORD) in
  ret "Please enter your password:".

Definition _handle_password (message : string) : M St string :=
  do* update (set_password (Some message)) in
  let* self := self_ in
  if decide (action (context self) = Some "login") then
    let* r := auth_login (email (context self)) message in
    let '(success, msg) := r in
    if success then
      do* update (set_state AuthFlowStates.COMPLETE) in
      ret (msg +:+ nl +:+ "Now, let's continue with your booking.")
    else
      ret (msg +:+ nl +:+ "Please try again with your email:")
  else
    do* update (set_state AuthFlowStates.AWAITING_NAME) in
    ret "Please enter your name:".

Definition _handle_name (message : string) : M St string :=
  do* update (set_name (Some message)) in
  let* self := self_ in
  let* r := auth_register message (email (context self)) (password (context self)) in
  let '(success, msg) := r in
  if success then
    do* update (set_state AuthFlowStates.COMPLETE) in
    ret (msg +:+ nl +:+ "Now, let's continue with your booking.")
  else
    do* update (set_state AuthFlowStates.AWAITING_EMAIL) in
    ret (msg +:+ nl +:+ "Please try again with your email:").

Definition process (message : string) : M St string :=
  let* self := self_ in
  if String.eqb (state self) AuthFlowStates.INIT then _handle_init message
  else if String.eqb (state self) AuthFlowStates.AWAITING_EMAIL then _handle_email message
  else if String.eqb (state self) AuthFlowStates.AWAITING_PASSWORD then _handle_password message
  else if String.eqb (state self) AuthFlowStates.AWAITING_NAME then _handle_name message
  else ret "An error occurred in authentication.".

Definition is_complete (self : t) : bool := String.eqb (state self) AuthFlowStates.COMPLETE.

(** The flow is still incomplete after each of these messages. *)
Fixpoint incomplete_throughout (messages : list string) (s : St) : bool :=
  match messages with
  | [] => true
  | message :: rest =>
      let s' := (process message s).2 in
      negb (is_complete s'.2) && incomplete_throughout rest s'
  end.

End AuthFlow.

(* ===================================================================== *)
(** * 9. [services/booking.py]: [BookingService] *)
(* ===================================================================== *)

(** The generator behind the [random] module: the numbers it is going to
    hand out, and how many of them were taken. *)
Module Random.

Record t : Type := mk { outcomes : nat -> nat; taken : nat }.

(** [_randbelow(n)] for [n > 0]: the next number, which is below [n]. *)
Definition _randbelow (n : nat) : M t nat :=
  fun g => (Ok (outcomes g (taken g) mod n)%nat, mk (outcomes g) (S (taken g))).

(** [random.choice(seq)] on a string *)
Definition choice (seq : string) : M t ascii :=
  match String.length seq with
  | O => raise (IndexError "Cannot choose from an empty sequence")
  | S _ as n =>
      let* i := _randbelow n in
      match String.get i seq with
      | Some c => ret c
      | None => raise (IndexError "string index out of range")
      end
  end.

End Random.

Module BookingService.

Definition VALID_TRAVEL_CLASSES : list string := ["FIRST"; "BUSINESS"; "ECONOMY"].

Definition _calculate_total_amount (trip : Trip) (travel_class : string) : Res Decimal :=
  if String.eqb travel_class "FIRST" then TripM.get_first_class_price trip
  else if String.eqb travel_class "BUSINESS" then TripM.get_business_class_price trip
  else TripM.get_economy_class_price trip.

(** [create_booking(trip, user_id, travel_class)], called with what the
    context holds under ['selected_trip'] and ['travel_class']. *)
Definition create_booking (trip : PyVal) (user_id : Z) (travel_class : PyVal)
    : M World BookingInfo :=
  match travel_class with
  | VList _ => raise (TypeError "unhashable type: 'list'")
  | VTrip _ => raise (TypeError "unhashable type: 'Trip'")
  | VStr cls =>
      if bool_decide (cls ∈ VALID_TRAVEL_CLASSES) then
        match trip with
        | VTrip t =>
            let* total_amount := lift_res (_calculate_total_amount t cls) in
            fun w =>
              match booking_insert w (bookings w) (trip_type t) (id (outbound_flight t))
                      (id <$> return_flight t) cls user_id total_amount with
              | Ok booking => (Ok booking, set_bookings (bookings w ++ [booking]) w)
              | Raise e => (Raise e, w)
              end
        | _ => raise (AttributeError "object has no attribute 'get_economy_class_price'")
        end
      else raise (ValueError "Invalid travel class. Must be one of: FIRST, BUSINESS, ECONOMY")
  | _ => raise (ValueError "Invalid travel class. Must be one of: FIRST, BUSINESS, ECONOMY")
  end.

Definition REFERENCE_LENGTH : nat := 6.

(** [string.ascii_uppercase + string.digits] *)
Definition chars : string := "ABCDEFGHIJKLMNOPQRSTUVWXYZ0123456789".

(** [''.join(random.choice(chars) for _ in range(n))] *)
Fixpoint join_choices (n : nat) : M Random.t string :=
  match n with
  | O => ret EmptyString
  | S k =>
      let* c := Random.choice chars in
      let* rest := join_choices k in
      ret (String c rest)
  end.

(** [Booking.select().where(Booking.reference == reference).exists()] *)
Definition reference_exists (ref : string) (bs : list BookingInfo) : bool :=
  existsb (fun b => String.eqb (reference b) ref) bs.

(** [_generate_reference()], a [while True] loop: [fuel] bounds the
    number of rounds, and [None] says that the loop was still running
    when they were used up. *)
Fixpoint _generate_reference (fuel : nat) (bs : list BookingInfo) : M Random.t (option string) :=
  match fuel with
  | O => ret None
  | S k =>
      let* candidate := join_choices REFERENCE_LENGTH in
      if negb (reference_exists candidate bs) then ret (Some candidate)
      else _generate_reference k bs
  end.

(** [get_booking_by_reference(reference)]: [Booking.get] hands back the
    first row that matches, [DoesNotExist] becomes [None]. *)
Definition get_booking_by_reference (ref : string) (w : World) : option BookingInfo :=
  List.find (fun b => String.eqb (reference b) ref) (bookings w).

(** [order_by(Booking.created_at.desc())]: [a] may stand before [b]. *)
Definition newest_first (a b : BookingInfo) : Prop :=
  datetime_ltb (created_at a) (created_at b) = false.

#[global] Instance newest_first_dec : RelDecision newest_first.
Proof. intros a b. unfold newest_first. apply _. Defined.

(** [get_user_bookings(user_id)].  Rows created at the same moment come
    in an order the database does not fix; here they keep some order of
    the sort. *)
Definition get_user_bookings (uid : Z) (w : World) : list BookingInfo :=
  merge_sort newest_first (filter (fun b => booking_user_id b = uid) (bookings w)).

(** [delete_booking(booking_id, user_id)]: [delete_instance] removes the
    row with the key of the booking found. *)
Definition delete_booking (bid uid : Z) (w : World) : bool * World :=
  match List.find (fun b => (booking_id b =? bid) && (booking_user_id b =? uid)) (bookings w) with
  | Some booking =>
      (true, set_bookings (filter (fun b => booking_id b <> booking_id booking) (bookings w)) w)
  | None => (false, w)
  end.

End BookingService.

(* ===================================================================== *)
(** * 10. [transactions/transaction.py]: [BaseTransaction] *)
(* ===================================================================== *)

Module BaseTransaction.

(** The attributes every transaction has.  [chatbot] and [auth_service]
    are references to the shared objects, which live in the [World]. *)
Record t : Type := mk {
  context : gmap string PyVal;
  auth_flow : option AuthFlow.t;
  _paused_for_auth : bool
}.

Definition __init__ : t := mk ∅ None false.

Definition set_context (c : gmap string PyVal) (self : t) : t :=
  mk c (auth_flow self) (_paused_for_auth self).
Definition set_auth_flow (a : option AuthFlow.t) (self : t) : t :=
  mk (context self) a (_paused_for_auth self).
Definition set_paused (b : bool) (self : t) : t :=
  mk (context self) (auth_flow self) b.

(** The default [requires_auth] and [is_complete]. *)
Definition requires_auth (self : t) : bool := false.
Definition is_complete (self : t) : bool := false.

(** [check_and_handle_auth], with the subclass's [requires_auth]
    already evaluated.  [None] is Python's [None]. *)
Definition check_and_handle_auth (requires_auth : bool) (message : string)
    : M (World * t) (option string) :=
  fun '(w, self) =>
    if negb requires_auth then (Ok None, (w, self))
    else if negb (Auth.is_authenticated w) then
      match auth_flow self with
      | None =>
          (Ok (Some "You need to be logged in first. Would you like to login or register?"),
           (w, set_paused true (set_auth_flow (Some AuthFlow.__init__) self)))
      | Some flow =>
          match AuthFlow.process message (w, flow) with
          | (Ok response, (w', flow')) =>
              if AuthFlow.is_complete flow'
              then (Ok (Some response), (w', set_paused false (set_auth_flow None self)))
              else (Ok (Some response), (w', set_auth_flow (Some flow') self))
          | (Raise e, (w', flow')) => (Raise e, (w', set_auth_flow (Some flow') self))
          end
      end
    else (Ok None, (w, self)).

(** [if auth_response:] — [None] and the empty string do not count. *)
Definition is_response (r : option string) : option string :=
  match r with
  | Some s => if String.eqb s EmptyString then None else Some s
  | None => None
  end.

Definition cleanup (self : t) : t := mk ∅ None false.

End BaseTransaction.

(* ===================================================================== *)
(** * 11. [transactions/booking.py]: [BookingTransaction] *)
(* ===================================================================== *)

Module BookingStates.
Definition INIT : string := "INIT".
Definition ORIGIN : string := "ORIGIN".
Definition DESTINATION : string := "DESTINATION".
Definition OUTBOUND_DATE : string := "OUTBOUND_DATE".
Definition RETURN_DATE : string := "RETURN_DATE".
Definition TRAVEL_CLASS : string := "TRAVEL_CLASS".
Definition FLIGHT_SELECTION : string := "FLIGHT_SELECTION".
Definition CONFIRMATION : string := "CONFIRMATION".
Definition COMPLETE : string := "COMPLETE".
End BookingStates.

Module BookingTransaction.

Definition VALID_CLASSES : list string := ["FIRST"; "BUSINESS"; "ECONOMY"].
Definition MAX_FLIGHTS : Z := 5.

(** [base] holds the inherited attributes; the two service objects have
    no state of their own. *)
Record t : Type := mk {
  base : BaseTransaction.t;
  intent_classifier : IntentClassifier.t;
  state : string
}.

Definition context (self : t) : gmap string PyVal := BaseTransaction.context (base self).
Definition auth_flow (self : t) : option AuthFlow.t := BaseTransaction.auth_flow (base self).

Definition set_base (b : BaseTransaction.t) (self : t) : t :=
  mk b (intent_classifier self) (state self).
Definition set_state (s : string) (self : t) : t :=
  mk (base self) (intent_classifier self) s.
Definition set_context (c : gmap string PyVal) (self : t) : t :=
  set_base (BaseTransaction.set_context c (base self)) self.

Definition initial_context : gmap string PyVal :=
  <["price" := VNone]>
    (<["selected_trip" := VNone]>
       (<["available_trips" := VList []]>
          (<["trip_type" := VNone]>
             (<["travel_class" := VNone]>
                (<["return_date" := VNone]>
                   (<["outbound_date" := VNone]>
                      (<["destination" := VNone]>
                         (<["origin" := VNone]> ∅)))))))).

Definition __init__ (w : World) : Res t :=
  match IntentClassifier.__init__ (model_source w) with
  | Ok clf =>
      Ok (mk (BaseTransaction.set_context initial_context BaseTransaction.__init__)
             clf BookingStates.INIT)
  | Raise e => Raise e
  end.

Definition requires_auth (self : t) : bool := String.eqb (state self) BookingStates.CONFIRMATION.

Definition is_complete (self : t) : bool := String.eqb (state self) BookingStates.COMPLETE.

Definition St : Type := World * t.

(** [self.context[k]], [self.context[k] = v] and [self.state = s] *)
Definition ctx_get (k : string) : M St PyVal :=
  fun '(w, self) => (getitem (context self) k, (w, self)).
Definition ctx_set (k : string) (v : PyVal) : M St unit :=
  modify (fun '(w, self) => (w, set_context (<[k := v]> (context self)) self)).
Definition goto (s : string) : M St unit :=
  modify (fun '(w, self) => (w, set_state s self)).

(** ** The handlers, in the order of the state machine *)

Definition _handle_init (message : string) : M St string :=
  do* ctx_set "trip_type" (VStr (if contains "round" (lower message)
                                 then "ROUNDTRIP" else "ONEWAY")) in
  do* goto BookingStates.ORIGIN in
  ret "Please enter your departure city:".

Definition _handle_origin (message : string) : M St string :=
  do* ctx_set "origin" (VStr message) in
  do* goto BookingStates.DESTINATION in
  ret "Please enter your destination city:".

Definition _handle_destination (message : string) : M St string :=
  do* ctx_set "destination" (VStr message) in
  do* goto BookingStates.OUTBOUND_DATE in
  ret "Please enter your outbound date (YYYY-MM-DD):".

Definition get_today : M St date := fun '(w, self) => (Ok (today w), (w, self)).

Definition _handle_outbound_date (message : string) : M St string :=
  try_except
    (let* outbound_date := lift_res (strptime_ymd message) in
     let* now := get_today in
     if date_ltb outbound_date now then
       ret "Date cannot be in the past. Please enter a future date (YYYY-MM-DD):"
     else
       do* ctx_set "outbound_date" (VDate outbound_date) in
       let* trip_type := ctx_get "trip_type" in
       if decide (trip_type = VStr "ROUNDTRIP") then
         do* goto BookingStates.RETURN_DATE in
         ret "Please enter your return date (YYYY-MM-DD):"
       else
         do* goto BookingStates.TRAVEL_CLASS in
         ret "Please select your travel class (ECONOMY/BUSINESS/FIRST):")
    except_ValueError
    (fun _ => ret "Invalid date format. Please use YYYY-MM-DD format:").

(** [return_date < other] where [other] comes out of the context. *)
Definition date_lt_val (d : date) (other : PyVal) : Res bool :=
  match other with
  | VDate o => Ok (date_ltb d o)
  | _ => Raise (TypeError "'<' not supported between instances of 'datetime.date' and another type")
  end.

Definition _handle_return_date (message : string) : M St string :=
  try_except
    (let* return_date := lift_res (strptime_ymd message) in
     let* outbound := ctx_get "outbound_date" in
     let* before := lift_res (date_lt_val return_date outbound) in
     if before then
       ret "Return date must be after outbound date. Please enter a valid date (YYYY-MM-DD):"
     else
       do* ctx_set "return_date" (VDate return_date) in
       do* goto BookingStates.TRAVEL_CLASS in
       ret "Please select your travel class (ECONOMY/BUSINESS/FIRST):")
    except_ValueError
    (fun _ => ret "Invalid date format. Please use YYYY-MM-DD format:").

(** *** [_format_flight_table] *)

Definition price_for (trip : Trip) (travel_class : string) : Res Decimal :=
  match TripM.get_all_class_prices trip with
  | Ok prices => getitem prices travel_class
  | Raise e => Raise e
  end.

Definition oneway_separator : string :=
  "+-------+------------+------------+------------+--------+-------------+".
Definition roundtrip_separator : string :=
  "+-------+------------+------------+------------+------------+-------------+".

Definition oneway_header (travel_class : string) : string :=
  "| " +:+ pad_right 5 "Option" +:+ " | " +:+ pad_right 10 "Departure" +:+ " | " +:+
  pad_right 10 "Arrival" +:+ " | " +:+ pad_right 10 "Date" +:+ " | " +:+
  pad_right 6 "Time" +:+ " | " +:+ pad_right 11 ("Price (" +:+ travel_class +:+ ")") +:+ " |".

Definition roundtrip_header (travel_class : string) : string :=
  "| " +:+ pad_right 5 "Option" +:+ " | " +:+ pad_right 10 "Outbound" +:+ " | " +:+
  pad_right 10 "Return" +:+ " | " +:+ pad_right 10 "Out Date" +:+ " | " +:+
  pad_right 10 "Ret Date" +:+ " | " +:+ pad_right 11 ("Price (" +:+ travel_class +:+ ")") +:+ " |".

Definition oneway_row (idx : Z) (trip : Trip) (travel_class : string) : Res string :=
  let flight := outbound_flight trip in
  match price_for trip travel_class with
  | Raise e => Raise e
  | Ok price =>
      Ok ("| " +:+ pad_right 5 ("#" +:+ pretty idx) +:+ " | " +:+
          pad_right 10 (origin_code flight) +:+ " | " +:+
          pad_right 10 (destination_code flight) +:+ " | " +:+
          pad_right 10 (isoformat (departure_date flight)) +:+ " | " +:+
          pad_right 6 (strftime_HM (departure_time flight)) +:+ " | £" +:+
          Decimal.format9 price +:+ " |")
  end.

Definition roundtrip_row (idx : Z) (trip : Trip) (travel_class : string) : Res string :=
  let outbound := outbound_flight trip in
  match price_for trip travel_class with
  | Raise e => Raise e
  | Ok price =>
      match return_flight trip with
      | None => Raise (AttributeError "'NoneType' object has no attribute 'origin_code'")
      | Some return_flight =>
          Ok ("| " +:+ pad_right 5 ("#" +:+ pretty idx) +:+ " | " +:+
              pad_right 10 (origin_code outbound +:+ "-" +:+ destination_code outbound) +:+ " | " +:+
              pad_right 10 (origin_code return_flight +:+ "-" +:+
                            destination_code return_flight) +:+ " | " +:+
              pad_right 10 (isoformat (departure_date outbound)) +:+ " | " +:+
              pad_right 10 (isoformat (departure_date return_flight)) +:+ " | £" +:+
              Decimal.format9 price +:+ " |")
      end
  end.

(** The loop [for idx, trip in enumerate(trips, 1)]: a row and a
    separator per trip. *)
Fixpoint table_rows (row : Z -> Trip -> string -> Res string) (separator : string)
    (idx : Z) (trips : list Trip) (travel_class : string) : Res (list string) :=
  match trips with
  | [] => Ok []
  | trip :: rest =>
      match row idx trip travel_class with
      | Raise e => Raise e
      | Ok r =>
          match table_rows row separator (idx + 1) rest travel_class with
          | Raise e => Raise e
          | Ok rs => Ok (r :: separator :: rs)
          end
      end
  end.

Definition _format_flight_table (trips : list Trip) (travel_class : string) : M St string :=
  let* trip_type := ctx_get "trip_type" in
  if decide (trip_type = VStr "ONEWAY") then
    let* rows := lift_res (table_rows oneway_row oneway_separator 1 trips travel_class) in
    ret (join nl (oneway_separator :: oneway_header travel_class :: oneway_separator :: rows))
  else
    let* rows := lift_res (table_rows roundtrip_row roundtrip_separator 1 trips travel_class) in
    ret (join nl (roundtrip_separator :: roundtrip_header travel_class
                    :: roundtrip_separator :: rows)).

Definition search_flights (origin destination outbound_date return_date : PyVal) (limit : Z)
    : M St (list Trip) :=
  fun '(w, self) =>
    (flight_query w origin destination outbound_date return_date limit, (w, self)).

Definition _handle_travel_class (message : string) : M St string :=
  let travel_class := upper message in
  if negb (bool_decide (travel_class ∈ VALID_CLASSES)) then
    ret "Invalid travel class. Please select ECONOMY, BUSINESS, or FIRST:"
  else
    try_except
      (let* origin := ctx_get "origin" in
       let* destination := ctx_get "destination" in
       let* outbound_date := ctx_get "outbound_date" in
       let* return_date := ctx_get "return_date" in
       let* trips := search_flights origin destination outbound_date return_date MAX_FLIGHTS in
       match trips with
       | [] =>
           do* goto BookingStates.COMPLETE in
           ret "Sorry, no flights found for your criteria. Please start a new booking."
       | _ :: _ =>
           do* ctx_set "travel_class" (VStr travel_class) in
           do* ctx_set "available_trips" (VList trips) in
           let* table := _format_flight_table trips travel_class in
           do* goto BookingStates.FLIGHT_SELECTION in
           ret ("Here are the available flights:" +:+ nl +:+ nl +:+ table +:+ nl +:+ nl +:+
                "Please select a flight by entering its number (1-" +:+
                pretty (Z.of_nat (length trips)) +:+ "):")
       end)
      except_Exception
      (fun _ =>
         do* goto BookingStates.COMPLETE in
         ret "Sorry, we encountered an error while searching flights. Please start a new booking.").

(** *** [_get_booking_summary] *)
Definition _get_booking_summary : M St string :=
  let* trip := ctx_get "selected_trip" in
  let* price := ctx_get "price" in
  let* origin := ctx_get "origin" in
  let* destination := ctx_get "destination" in
  let* outbound_date := ctx_get "outbound_date" in
  let summary := ["Here's a summary of your booking:";
                  "From: " +:+ PyValM.str origin;
                  "To: " +:+ PyValM.str destination;
                  "Date: " +:+ PyValM.str outbound_date] in
  let* return_date := ctx_get "return_date" in
  let* summary :=
    (if PyValM.truthy return_date then
       let* return_date := ctx_get "return_date" in
       ret (summary ++ ["Return: " +:+ PyValM.str return_date])
     else ret summary) in
  let* travel_class := ctx_get "travel_class" in
  ret (join nl (summary ++ ["Class: " +:+ PyValM.str travel_class;
                            "Total Price: £" +:+ PyValM.str price;
                            EmptyString;
                            "Would you like to proceed with this booking?"])).

(** *** [_handle_flight_selection] *)

(** [len(v)] and [v[i]] on a value of the context. *)
Definition py_len (v : PyVal) : Res Z :=
  match v with
  | VList l => Ok (Z.of_nat (length l))
  | VStr s => Ok (slen s)
  | _ => Raise (TypeError "object has no len()")
  end.

Definition py_index (v : PyVal) (i : Z) : Res PyVal :=
  match v with
  | VList l =>
      match l !! Z.to_nat i with
      | Some t => Ok (VTrip t)
      | None => Raise (IndexError "list index out of range")
      end
  | VStr s =>
      match String.get (Z.to_nat i) s with
      | Some c => Ok (VStr (String c EmptyString))
      | None => Raise (IndexError "string index out of range")
      end
  | _ => Raise (TypeError "object is not subscriptable")
  end.

(** [v.get_all_class_prices()] *)
Definition all_class_prices_of (v : PyVal) : Res (gmap string Decimal) :=
  match v with
  | VTrip t => TripM.get_all_class_prices t
  | _ => Raise (AttributeError "object has no attribute 'get_all_class_prices'")
  end.

(** [prices.get(key)] *)
Definition prices_get (prices : gmap string Decimal) (key : PyVal) : Res PyVal :=
  match key with
  | VStr k => Ok (match prices !! k with Some p => VDecimal p | None => VNone end)
  | VList _ => Raise (TypeError "unhashable type: 'list'")
  | VTrip _ => Raise (TypeError "unhashable type: 'Trip'")
  | _ => Ok VNone
  end.

Definition len_available_trips : M St Z :=
  let* trips := ctx_get "available_trips" in
  lift_res (py_len trips).

Definition _handle_flight_selection (message : string) : M St string :=
  try_except
    (let* selection := lift_res (py_int message) in
     let* in_range :=
       (if 1 <=? selection then
          let* n := len_available_trips in ret (selection <=? n)
        else ret false) in
     if in_range then
       let* trips := ctx_get "available_trips" in
       let* selected_trip := lift_res (py_index trips (selection - 1)) in
       let* prices := lift_res (all_class_prices_of selected_trip) in
       let* travel_class := ctx_get "travel_class" in
       let* price := lift_res (prices_get prices travel_class) in
       do* ctx_set "selected_trip" selected_trip in
       do* ctx_set "price" price in
       do* goto BookingStates.CONFIRMATION in
       _get_booking_summary
     else
       let* n := len_available_trips in
       ret ("Invalid selection. Please choose a number between 1 and " +:+ pretty n +:+ ":"))
    except_ValueError
    (fun _ => ret "Please enter a valid number for your flight selection:").

(** *** [_handle_confirmation] *)

Definition predict (message : string) : M St string :=
  fun '(w, self) => (IntentClassifier.predict (intent_classifier self) message, (w, self)).

(** [self.auth_service.current_user.id] *)
Definition current_user_id : M St Z :=
  fun '(w, self) =>
    match Auth.current_user w with
    | Some u => (Ok (user_id u), (w, self))
    | None => (Raise (AttributeError "'NoneType' object has no attribute 'id'"), (w, self))
    end.

Definition create_booking (trip : PyVal) (user_id : Z) (travel_class : PyVal)
    : M St BookingInfo :=
  fun '(w, self) =>
    let '(r, w') := BookingService.create_booking trip user_id travel_class w in
    (r, (w', self)).

Definition _handle_confirmation (message : string) : M St string :=
  let* intent := predict message in
  if String.eqb intent "confirmation" then
    try_except
      (let* trip := ctx_get "selected_trip" in
       let* user_id := current_user_id in
       let* travel_class := ctx_get "travel_class" in
       let* booking := create_booking trip user_id travel_class in
       do* goto BookingStates.COMPLETE in
       ret ("Great! Your booking is confirmed. Your reference number is: " +:+
            reference booking))
      except_Exception
      (fun _ =>
         do* goto BookingStates.COMPLETE in
         ret "I apologize, but I couldn't complete your booking. Please try again.")
  else if String.eqb intent "cancellation" then
    do* goto BookingStates.COMPLETE in
    ret "I've cancelled your booking request. Feel free to start a new booking when you're ready."
  else
    ret "I'm not sure if you want to confirm or cancel the booking. Please let me know clearly - would you like to proceed with this booking?".

(** ** Dispatch *)

Definition handlers : gmap string (string -> M St string) :=
  <[BookingStates.INIT := _handle_init]>
    (<[BookingStates.ORIGIN := _handle_origin]>
       (<[BookingStates.DESTINATION := _handle_destination]>
          (<[BookingStates.OUTBOUND_DATE := _handle_outbound_date]>
             (<[BookingStates.RETURN_DATE := _handle_return_date]>
                (<[BookingStates.TRAVEL_CLASS := _handle_travel_class]>
                   (<[BookingStates.FLIGHT_SELECTION := _handle_flight_selection]>
                      (<[BookingStates.CONFIRMATION := _handle_confirmation]> ∅))))))).

Definition self_state : M St string := fun '(w, self) => (Ok (state self), (w, self)).

Definition _process_internal (message : string) : M St string :=
  let* st := self_state in
  match handlers !! st with
  | Some handler =>
      try_except (handler message) except_Exception
        (fun _ =>
           do* goto BookingStates.COMPLETE in
           ret "Sorry, something went wrong. Please start a new booking.")
  | None => ret "An error occurred in the booking process."
  end.

Definition check_and_handle_auth (message : string) : M St (option string) :=
  fun '(w, self) =>
    let '(r, (w', b')) :=
      BaseTransaction.check_and_handle_auth (requires_auth self) message (w, base self) in
    (r, (w', set_base b' self)).

Definition process (message : string) : M St string :=
  let* auth_response := check_and_handle_auth message in
  match BaseTransaction.is_response auth_response with
  | Some response => ret response
  | None => _process_internal message
  end.

Definition cleanup (self : t) : t := set_base (BaseTransaction.cleanup (base self)) self.

End BookingTransaction.

(* ===================================================================== *)
(** * 12. [transactions/status.py]: [StatusTransaction] *)
(* ===================================================================== *)

Module StatusTransaction.

Record t : Type := mk { base : BaseTransaction.t }.

Definition context (self : t) : gmap string PyVal := BaseTransaction.context (base self).

Definition __init__ : t :=
  mk (BaseTransaction.set_context (<["booking_ref" := VNone]> ∅) BaseTransaction.__init__).

Definition St : Type := World * t.

(** [self.context.get('booking_ref')] *)
Definition booking_ref (self : t) : PyVal :=
  match context self !! "booking_ref" with Some v => v | None => VNone end.

(** [process] is overridden: no authentication, no state machine. *)
Definition process (message : string) : M St string :=
  fun '(w, self) =>
    if negb (PyValM.truthy (booking_ref self)) then
      (Ok ("Processing status for booking: " +:+ message),
       (w, mk (BaseTransaction.set_context (<["booking_ref" := VStr message]> (context self))
                                            (base self))))
    else (Ok "Status check complete", (w, self)).

Definition is_complete (self : t) : bool := PyValM.truthy (booking_ref self).

Definition cleanup (self : t) : t := mk (BaseTransaction.cleanup (base self)).

End StatusTransaction.

(* ===================================================================== *)
(** * 13. [transactions/factory.py] and [main.py] *)
(* ===================================================================== *)

(** The transaction classes the factory knows, as one variant type;
    method calls dispatch on the variant. *)
Inductive Transaction : Type :=
| Booking (b : BookingTransaction.t)
| Status (s : StatusTransaction.t).

Module TransactionM.

Definition process (message : string) : M (World * Transaction) string :=
  fun '(w, tx) =>
    match tx with
    | Booking b =>
        let '(r, (w', b')) := BookingTransaction.process message (w, b) in (r, (w', Booking b'))
    | Status s =>
        let '(r, (w', s')) := StatusTransaction.process message (w, s) in (r, (w', Status s'))
    end.

Definition is_complete (tx : Transaction) : bool :=
  match tx with
  | Booking b => BookingTransaction.is_complete b
  | Status s => StatusTransaction.is_complete s
  end.

Definition cleanup (tx : Transaction) : Transaction :=
  match tx with
  | Booking b => Booking (BookingTransaction.cleanup b)
  | Status s => Status (StatusTransaction.cleanup s)
  end.

Definition context (tx : Transaction) : gmap string PyVal :=
  match tx with
  | Booking b => BookingTransaction.context b
  | Status s => StatusTransaction.context s
  end.

End TransactionM.

Module TransactionFactory.

(** Each entry is the class, that is, its constructor. *)
Definition _transactions : gmap string (World -> Res Transaction) :=
  <["booking" := fun w => match BookingTransaction.__init__ w with
                          | Ok b => Ok (Booking b)
                          | Raise e => Raise e
                          end]>
    (<["status" := fun _ => Ok (Status StatusTransaction.__init__)]> ∅).

Definition create_transaction (intent : string) (w : World) : Res (option Transaction) :=
  match _transactions !! intent with
  | Some transaction_class =>
      match transaction_class w with
      | Ok tx => Ok (Some tx)
      | Raise e => Raise e
      end
  | None => Ok None
  end.

End TransactionFactory.

Module FlightBookingChatbot.

(** [auth_service] is the [World]'s; the chatbot keeps its classifier
    and the slot of the current transaction. *)
Record t : Type := mk {
  intent_classifier : IntentClassifier.t;
  current_transaction : option Transaction
}.

Definition set_current_transaction (tx : option Transaction) (self : t) : t :=
  mk (intent_classifier self) tx.

Definition St : Type := World * t.

Definition predict (message : string) : M St string :=
  fun '(w, self) => (IntentClassifier.predict (intent_classifier self) message, (w, self)).

Definition _get_intent (message : string) : M St string :=
  try_except (predict message) except_ValueError (fun _ => ret "unknown").

Definition _handle_unknown_intent : string :=
  "I'm not sure I understand. Could you please rephrase that?".

(** [self.current_transaction.process(message)]: the transaction in the
    slot is the object that runs, so what it became is what the slot
    holds afterwards, also when the call raised. *)
Definition run_transaction (tx : Transaction) (message : string) : M St string :=
  fun '(w, self) =>
    let '(r, (w', tx')) := TransactionM.process message (w, tx) in
    (r, (w', set_current_transaction (Some tx') self)).

Definition active_transaction (self : t) : option Transaction :=
  match current_transaction self with
  | Some tx => if negb (TransactionM.is_complete tx) then Some tx else None
  | None => None
  end.

Definition process_message (message : string) : M St string :=
  let* chatbot := gets snd in
  match active_transaction chatbot with
  | Some tx =>
      let* response := run_transaction tx message in
      let* chatbot := gets snd in
      match current_transaction chatbot with
      | Some tx' =>
          if TransactionM.is_complete tx' then
            do* modify (fun '(w, self) =>
                          (w, set_current_transaction (Some (TransactionM.cleanup tx')) self)) in
            do* modify (fun '(w, self) => (w, set_current_transaction None self)) in
            ret response
          else ret response
      | None => ret response
      end
  | None =>
      let* intent := _get_intent message in
      let* transaction :=
        (fun '(w, self) => (TransactionFactory.create_transaction intent w, (w, self))) in
      match transaction with
      | Some tx => run_transaction tx message
      | None => ret _handle_unknown_intent
      end
  end.

(** ** [start_chat]

    What [input] yields, one entry per call: a line, Ctrl-C, or the end
    of the input.  The loop is run over the entries there are; the
    result is what [print] was called with, the state reached, and
    whether the loop has ended ([break]) or waits for more input. *)
Inductive Input : Type :=
| Line (text : string)
| KeyboardInterrupt
| EOFError.

Definition exit_words : list string := ["exit"; "quit"; "bye"].

(** The two lines printed for an exception whose [str] is [text]. *)
Definition error_lines (text : string) : list string :=
  ["Bot: I encountered an error: " +:+ text;
   "Bot: Let's start over. How can I help you?"].

Fixpoint chat_loop (inputs : list Input) (s : St) : list string * (St * bool) :=
  match inputs with
  | [] => ([], (s, false))
  | Line text :: rest =>
      let user_input := strip text in
      if bool_decide (lower user_input ∈ exit_words) then
        (["Bot: Thank you for using Berry Airlines. Goodbye!"], (s, true))
      else
        match process_message user_input s with
        | (Ok response, s') =>
            let '(out, r) := chat_loop rest s' in
            (("Bot: " +:+ response) :: out, r)
        | (Raise e, (w', self')) =>
            let '(out, r) := chat_loop rest (w', set_current_transaction None self') in
            (error_lines (exn_str e) ++ out, r)
        end
  | KeyboardInterrupt :: _ => ([nl +:+ "Bot: Goodbye!"], (s, true))
  | EOFError :: rest =>
      let '(w, self) := s in
      let '(out, r) := chat_loop rest (w, set_current_transaction None self) in
      (error_lines "EOF when reading a line" ++ out, r)
  end.

Definition start_chat (inputs : list Input) (s : St) : list string * (St * bool) :=
  let '(out, r) := chat_loop inputs s in
  ("Bot: Hello! Welcome to Berry Airlines. How can I help you today?" :: out, r).

End FlightBookingChatbot.

(* ===================================================================== *)
(** * 14. Prices as numbers: what "base price times rate, rounded to two
        places" means *)
(* ===================================================================== *)

Module PriceSpec.

(** The nearest integer, a tie going to the even one. *)
Definition Qround_half_even (q : Q) : Z :=
  let f := Qfloor q in
  match ((q - inject_Z f) ?= (1 # 2))%Q with
  | Lt => f
  | Gt => f + 1
  | Eq => if Z.even f then f else f + 1
  end.

(** A number rounded to two decimal places. *)
Definition round_2dp (q : Q) : Q := (inject_Z (Qround_half_even (q * 100)) / 100)%Q.

Definition is_roundtrip (t : Trip) : bool := String.eqb (trip_type t) "ROUNDTRIP".

(** The trip's base price: the base prices of its flights (the return
    flight counts on a round trip), times 0.9 for a round trip. *)
Definition trip_base_price_Q (t : Trip) : Q :=
  ((Decimal.to_Q (base_price (outbound_flight t)) +
    match return_flight t with
    | Some rf => if is_roundtrip t then Decimal.to_Q (base_price rf) else 0
    | None => 0
    end) * (if is_roundtrip t then 9 # 10 else 1))%Q.

(** Every flight of the trip has a strictly positive base price. *)
Definition positive_prices (t : Trip) : Prop :=
  0 < Decimal.coefficient (base_price (outbound_flight t)) /\
  match return_flight t with
  | Some rf => 0 < Decimal.coefficient (base_price rf)
  | None => True
  end.

End PriceSpec.

(** The class that attains the largest probability: the first index at
    which the maximum [m] stands in the probability vector. *)
Fixpoint index_of_max (m : float) (l : list float) : option nat :=
  match l with
  | [] => None
  | x :: r => if PrimFloat.eqb x m then Some O else S <$> index_of_max m r
  end.

(** A booking as the travel-class step leaves it when it opens the
    choice of a flight: the trips found and the class are stored, every
    trip has a price for that class, and the fields the summary prints
    are present. *)
Record selection_ready (self : BookingTransaction.t) (trips : list Trip) (cls : string)
    : Prop := {
  ready_trips : BookingTransaction.context self !! "available_trips" = Some (VList trips);
  ready_nonempty : trips <> [];
  ready_class : BookingTransaction.context self !! "travel_class" = Some (VStr cls);
  ready_valid : cls ∈ BookingTransaction.VALID_CLASSES;
  ready_priced : forall trip, trip ∈ trips ->
      exists prices p, TripM.get_all_class_prices trip = Ok prices /\ prices !! cls = Some p;
  ready_keys : forall key, key ∈ ["origin"; "destination"; "outbound_date"; "return_date"] ->
      is_Some (BookingTransaction.context self !! key)
}.

(** ** Notions of the later sections *)

(** The user table as the database keeps it, and the session: keys and
    addresses are unique, and the user of the session is a row of the
    table. *)
Record users_well_formed (w : World) : Prop := {
  wf_ids : NoDup (user_id <$> users w);
  wf_emails : NoDup (user_email <$> users w);
  wf_session : forall u, _current_user (auth_service w) = Some u -> u ∈ users w
}.

(** [c] relates every state to the state it leaves, whether it returns
    or raises. *)
Definition preserves {S A} (R : relation S) (c : M S A) : Prop := forall s, R s (c s).2.

(** One step of a booking: the world moves along [RW], and the state of
    the dialog stays or becomes one of [targets]. *)
Definition moves (RW : relation World) (targets : list string)
    : relation BookingTransaction.St :=
  fun s s' =>
    RW s.1 s'.1 /\
    (BookingTransaction.state s'.2 = BookingTransaction.state s.2 \/
     BookingTransaction.state s'.2 ∈ targets).

(** The world after some turns: rows were appended to the two tables at
    most, and everything else is as before (the session apart). *)
Record grows (w w' : World) : Prop := {
  grows_users : users w `prefix_of` users w';
  grows_bookings : bookings w `prefix_of` bookings w';
  grows_today : today w' = today w;
  grows_sha256_hex : sha256_hex w' = sha256_hex w;
  grows_flight_query : flight_query w' = flight_query w;
  grows_booking_insert : booking_insert w' = booking_insert w;
  grows_model_source : model_source w' = model_source w
}.

(** The states a booking can be in after one message, by the state it
    was in. *)
Definition transitions : gmap string (list string) :=
  <[BookingStates.INIT := [BookingStates.ORIGIN]]>
  (<[BookingStates.ORIGIN := [BookingStates.DESTINATION]]>
  (<[BookingStates.DESTINATION := [BookingStates.OUTBOUND_DATE]]>
  (<[BookingStates.OUTBOUND_DATE :=
       [BookingStates.OUTBOUND_DATE; BookingStates.RETURN_DATE; BookingStates.TRAVEL_CLASS;
        BookingStates.COMPLETE]]>
  (<[BookingStates.RETURN_DATE :=
       [BookingStates.RETURN_DATE; BookingStates.TRAVEL_CLASS; BookingStates.COMPLETE]]>
  (<[BookingStates.TRAVEL_CLASS :=
       [BookingStates.TRAVEL_CLASS; BookingStates.FLIGHT_SELECTION; BookingStates.COMPLETE]]>
  (<[BookingStates.FLIGHT_SELECTION :=
       [BookingStates.FLIGHT_SELECTION; BookingStates.CONFIRMATION; BookingStates.COMPLETE]]>
  (<[BookingStates.CONFIRMATION :=
       [BookingStates.CONFIRMATION; BookingStates.COMPLETE]]> ∅))))))).

(** [w'] is [w] with rows appended to the booking table. *)
Definition booked (w w' : World) : Prop :=
  exists bs, w' = set_bookings (bookings w ++ bs) w.

(* ===================================================================== *)
(** * 15. Sample data *)
(* ===================================================================== *)

Module Examples.

Definition flight (n : Z) (price : Decimal) : FlightInfo :=
  mkFlightInfo n "London" "Heathrow" "LHR" (mkdate 2099 1 10) (mktime 9 30)
               "Paris" "Charles de Gaulle" "CDG" "scheduled" price.

(** A one-way trip whose flight costs 0.01. *)
Definition trip_1cent : Trip := mkTrip "ONEWAY" (flight 7 (Decimal.mkDec 1 (-2))) None.
(** A one-way trip at 120.50 and a round trip at 80.00 + 95.25. *)
Definition trip_oneway : Trip := mkTrip "ONEWAY" (flight 1 (Decimal.mkDec 12050 (-2))) None.
Definition trip_round : Trip :=
  mkTrip "ROUNDTRIP" (flight 2 (Decimal.mkDec 8000 (-2)))
         (Some (flight 3 (Decimal.mkDec 9525 (-2)))).

Definition classes : list string := ["booking"; "status"; "confirmation"; "cancellation"].

(** A pipeline that is sure of itself on a few key words and spreads
    the probability evenly otherwise. *)
Definition keyword_pipeline : IntentClassifier.Pipeline :=
  IntentClassifier.mkPipeline classes
    (fun text =>
       if contains "book" text then [0.75; 0.125; 0.0625; 0.0625]%float
       else if contains "status" text then [0.125; 0.75; 0.0625; 0.0625]%float
       else if contains "yes" text then [0.0625; 0.0625; 0.75; 0.125]%float
       else [0.25; 0.25; 0.25; 0.25]%float)
    (fun text =>
       if contains "book" text then "booking"
       else if contains "status" text then "status"
       else if contains "yes" text then "confirmation"
       else "booking").

(** A pipeline whose best class sits exactly on the threshold: the
    probabilities 0.4, 0.25, 0.25 and 0.1. *)
Definition threshold_pipeline : IntentClassifier.Pipeline :=
  IntentClassifier.mkPipeline classes
    (fun _ => [IntentClassifier.threshold; 0.25; 0.25; 0x1.999999999999ap-4]%float)
    (fun _ => "booking").

Definition ann : User := mkUser 1 "Ann" "ann@example.com" "sha256:secret" None.

Definition world : World :=
  mkWorld [ann] [] (mkAuth None) (mkdate 2026 11 4)
    (fun s => "sha256:" +:+ s)
    (fun _ _ _ _ _ => Ok [trip_oneway; trip_1cent])
    (fun _ trip_type outbound ret cls user _ =>
       Ok (mkBookingInfo 1 "AB12CD" trip_type outbound ret cls
                         (mkdate 2026 11 4, mktime 12 0) user 0%float))
    (Ok keyword_pipeline).

Definition world_logged_in : World := set_auth_service (mkAuth (Some ann)) world.

Definition context_at_selection : gmap string PyVal :=
  <["available_trips" := VList [trip_oneway; trip_1cent]]>
    (<["travel_class" := VStr "ECONOMY"]>
       (<["outbound_date" := VDate (mkdate 2099 1 10)]>
          (<["destination" := VStr "Paris"]>
             (<["origin" := VStr "London"]>
                (<["trip_type" := VStr "ONEWAY"]> BookingTransaction.initial_context))))).

Definition context_at_confirmation : gmap string PyVal :=
  <["price" := VDecimal (Decimal.mkDec 12050 (-2))]>
    (<["selected_trip" := VTrip trip_oneway]> context_at_selection).

Definition booking_in (st : string) (ctx : gmap string PyVal) (flow : option AuthFlow.t)
    (clf : IntentClassifier.t) : BookingTransaction.t :=
  BookingTransaction.mk (BaseTransaction.mk ctx flow (bool_decide (is_Some flow))) clf st.

Definition with_model : IntentClassifier.t := IntentClassifier.mk (Some keyword_pipeline).
Definition without_model : IntentClassifier.t := IntentClassifier.mk None.
Definition with_unsure_model : IntentClassifier.t :=
  IntentClassifier.mk (Some threshold_pipeline).

(** A booking that waits for its outbound date, one that waits for the
    choice of a flight, and one that waits for the confirmation. *)
Definition at_outbound_date : BookingTransaction.t :=
  booking_in BookingStates.OUTBOUND_DATE
    (<["destination" := VStr "Paris"]>
       (<["origin" := VStr "London"]>
          (<["trip_type" := VStr "ONEWAY"]> BookingTransaction.initial_context)))
    None with_model.
Definition at_selection : BookingTransaction.t :=
  booking_in BookingStates.FLIGHT_SELECTION context_at_selection None with_model.
Definition at_confirmation (flow : option AuthFlow.t) (clf : IntentClassifier.t)
    : BookingTransaction.t :=
  booking_in BookingStates.CONFIRMATION context_at_confirmation flow clf.

(** An authentication flow that holds the address and waits for the
    password of a login. *)
Definition login_flow : AuthFlow.t :=
  AuthFlow.mk AuthFlowStates.AWAITING_PASSWORD
    (AuthFlow.mkContext (Some "login") (Some "ann@example.com") None None).

Definition idle_chatbot (clf : IntentClassifier.t) : FlightBookingChatbot.t :=
  FlightBookingChatbot.mk clf None.

(** A round-trip booking that waits for its return date, and a one-way
    booking that waits for the travel class. *)
Definition at_return_date : BookingTransaction.t :=
  booking_in BookingStates.RETURN_DATE
    (<["outbound_date" := VDate (mkdate 2099 1 10)]>
       (<["destination" := VStr "Paris"]>
          (<["origin" := VStr "London"]>
             (<["trip_type" := VStr "ROUNDTRIP"]> BookingTransaction.initial_context))))
    None with_model.
Definition at_travel_class : BookingTransaction.t :=
  booking_in BookingStates.TRAVEL_CLASS
    (<["outbound_date" := VDate (mkdate 2099 1 10)]>
       (<["destination" := VStr "Paris"]>
          (<["origin" := VStr "London"]>
             (<["trip_type" := VStr "ONEWAY"]> BookingTransaction.initial_context))))
    None with_model.

(** Worlds in which the search finds nothing, and in which no model can
    be loaded. *)
Definition world_without_flights : World :=
  mkWorld (users world) [] (mkAuth None) (today world)
    (sha256_hex world) (fun _ _ _ _ _ => Ok [])
    (booking_insert world) (model_source world).
Definition world_without_model : World :=
  mkWorld (users world) [] (mkAuth None) (today world)
    (sha256_hex world) (flight_query world)
    (booking_insert world)
    (Raise (ValueError "No such file or directory: 'data/intents.csv'")).

(** Two bookings, of two users. *)
Definition booking_of (n : Z) (ref : string) (user : Z) (day : Z) : BookingInfo :=
  mkBookingInfo n ref "ONEWAY" 1 None "ECONOMY" (mkdate 2026 11 day, mktime 12 0) user 0%float.
Definition world_with_bookings : World :=
  set_bookings [booking_of 1 "ABCDEF" 1 2; booking_of 2 "QX71PD" 2 3] world.

(** A generator that hands out 0, 1, 2, ... *)
Definition counting : Random.t := Random.mk (fun n => n) 0.

(** A trip of a type the rate table does not know. *)
Definition trip_multicity : Trip :=
  mkTrip "MULTICITY" (flight 4 (Decimal.mkDec 5000 (-2))) None.

End Examples.

(* ===================================================================== *)
(** * 16. Properties of prices *)
(* ===================================================================== *)

Section Rounding.
Import PriceSpec.

(** [div_half_even n d] is within half a unit of [n / d], and even on a
    tie. *)
Lemma div_half_even_spec n d :
  0 < d ->
  let z := Decimal.div_half_even n d in
  (2 * Z.abs (z * d - n) < d) \/ (2 * Z.abs (z * d - n) = d /\ Z.even z = true).
Proof.
  intros Hd. cbv zeta. unfold Decimal.div_half_even.
  pose proof (Z.div_mod n d ltac:(lia)) as Hdm.
  pose proof (Z.mod_pos_bound n d Hd) as Hb.
  set (q := n / d) in *. set (r := n mod d) in *.
  destruct (Z.ltb_spec (2 * r) d); [left; nia|].
  destruct (Z.ltb_spec d (2 * r)); [left; nia|].
  right. destruct (Z.even q) eqn:Hev.
  - split; [nia | done].
  - split; [nia|]. rewrite Z.even_add, Hev. reflexivity.
Qed.

Ltac cases_on_branches :=
  repeat (match goal with |- context [if ?b then _ else _] => destruct b eqn:? end); lia.

Lemma div_half_even_mono n1 n2 d :
  0 < d -> n1 <= n2 -> Decimal.div_half_even n1 d <= Decimal.div_half_even n2 d.
Proof.
  intros Hd Hle. unfold Decimal.div_half_even.
  pose proof (Z.div_mod n1 d ltac:(lia)) as H1.
  pose proof (Z.mod_pos_bound n1 d Hd) as B1.
  pose proof (Z.div_mod n2 d ltac:(lia)) as H2.
  pose proof (Z.mod_pos_bound n2 d Hd) as B2.
  set (q1 := n1 / d) in *. set (r1 := n1 mod d) in *.
  set (q2 := n2 / d) in *. set (r2 := n2 mod d) in *.
  assert (q1 <= q2) by nia.
  destruct (Z.eq_dec q1 q2) as [->|Hne].
  - assert (r1 <= r2) by nia. cases_on_branches.
  - assert (q1 + 1 <= q2) by lia. cases_on_branches.
Qed.

Lemma div_half_even_strict n1 n2 d :
  0 < d -> d < n2 - n1 -> Decimal.div_half_even n1 d < Decimal.div_half_even n2 d.
Proof.
  intros Hd Hlt. unfold Decimal.div_half_even.
  pose proof (Z.div_mod n1 d ltac:(lia)) as H1.
  pose proof (Z.mod_pos_bound n1 d Hd) as B1.
  pose proof (Z.div_mod n2 d ltac:(lia)) as H2.
  pose proof (Z.mod_pos_bound n2 d Hd) as B2.
  set (q1 := n1 / d) in *. set (r1 := n1 mod d) in *.
  set (q2 := n2 / d) in *. set (r2 := n2 mod d) in *.
  assert (q1 + 1 <= q2) by nia.
  destruct (Z.eq_dec (q1 + 1) q2) as [Heq|Hne].
  - assert (r1 < r2) by nia. cases_on_branches.
  - cases_on_branches.
Qed.

Lemma div_half_even_0 d : 0 < d -> Decimal.div_half_even 0 d = 0.
Proof.
  intros Hd. unfold Decimal.div_half_even. rewrite Z.div_0_l, Z.mod_0_l by lia.
  destruct (Z.ltb_spec (2 * 0) d); lia.
Qed.

(** The integer rounding of the code computes the rounding of the
    quotient as a rational. *)
Lemma Qround_half_even_div n d :
  0 < d -> Qround_half_even (inject_Z n / inject_Z d) = Decimal.div_half_even n d.
Proof.
  intros Hd. unfold Qround_half_even, Decimal.div_half_even.
  rewrite <- Zdiv_Qdiv.
  pose proof (Z.div_mod n d ltac:(lia)) as Hdm.
  pose proof (Z.mod_pos_bound n d Hd) as Hb.
  set (q := n / d) in *. set (r := n mod d) in *.
  assert (Hfrac : (inject_Z n / inject_Z d - inject_Z q == inject_Z r / inject_Z d)%Q).
  { rewrite Hdm. rewrite inject_Z_plus, inject_Z_mult.
    field. unfold Qeq; simpl. lia. }
  rewrite Hfrac.
  assert (Hcmp : ((inject_Z r / inject_Z d) ?= (1 # 2))%Q = (2 * r ?= d)).
  { destruct d as [|p|p]; try lia.
    rewrite <- Qmake_Qdiv. unfold Qcompare; simpl.
    rewrite (Z.mul_comm r 2). reflexivity. }
  rewrite Hcmp.
  destruct (Z.compare_spec (2 * r) d).
  - destruct (Z.ltb_spec (2 * r) d); [lia|].
    destruct (Z.ltb_spec d (2 * r)); [lia|]. reflexivity.
  - destruct (Z.ltb_spec (2 * r) d); [|lia]. reflexivity.
  - destruct (Z.ltb_spec (2 * r) d); [lia|].
    destruct (Z.ltb_spec d (2 * r)); [|lia]. reflexivity.
Qed.

#[local] Instance Qround_half_even_comp : Proper (Qeq ==> eq) Qround_half_even.
Proof.
  intros x y Hxy. unfold Qround_half_even.
  rewrite (Qfloor_comp _ _ Hxy).
  assert (H : ((x - inject_Z (Qfloor y)) ?= (1 # 2))%Q
              = ((y - inject_Z (Qfloor y)) ?= (1 # 2))%Q).
  { apply Qcompare_comp; [rewrite Hxy|]; reflexivity. }
  rewrite H. reflexivity.
Qed.

#[local] Instance round_2dp_comp : Proper (Qeq ==> Qeq) round_2dp.
Proof. intros x y Hxy. unfold round_2dp. rewrite Hxy. reflexivity. Qed.

Lemma Qround_half_even_Z z : Qround_half_even (inject_Z z) = z.
Proof.
  unfold Qround_half_even. rewrite Qfloor_Z.
  assert (H : ((inject_Z z - inject_Z z) ?= (1 # 2))%Q = Lt).
  { apply Qlt_alt. unfold Qminus. rewrite Qplus_opp_r. reflexivity. }
  rewrite H. reflexivity.
Qed.

(** Powers of ten. *)
Lemma ten_neq_0 : ~ (inject_Z 10 == 0)%Q.
Proof. discriminate. Qed.

Lemma pow10_nonneg e : 0 <= e -> (inject_Z 10 ^ e == inject_Z (10 ^ e))%Q.
Proof. intros H. symmetry. apply Zpower_Qpower; assumption. Qed.

Lemma pow10_neg e : e <= 0 -> (inject_Z 10 ^ e == / inject_Z (10 ^ (- e)))%Q.
Proof.
  intros H. replace e with (- - e) at 1 by lia.
  rewrite Qpower_opp, pow10_nonneg by lia. reflexivity.
Qed.

(** The value of a product, of a sum and of a price rounded to two
    places. *)
Lemma to_Q_mul a b : (Decimal.to_Q (Decimal.mul a b) == Decimal.to_Q a * Decimal.to_Q b)%Q.
Proof.
  unfold Decimal.to_Q, Decimal.mul; simpl.
  rewrite inject_Z_mult, Qpower_plus by apply ten_neq_0. ring.
Qed.

Lemma to_Q_shift c e e' :
  e' <= e ->
  (inject_Z (c * 10 ^ (e - e')) * inject_Z 10 ^ e' == inject_Z c * inject_Z 10 ^ e)%Q.
Proof.
  intros H. rewrite inject_Z_mult, <- pow10_nonneg by lia.
  rewrite <- Qmult_assoc, <- Qpower_plus by apply ten_neq_0.
  replace (e - e' + e') with e by lia. reflexivity.
Qed.

Lemma to_Q_add a b : (Decimal.to_Q (Decimal.add a b) == Decimal.to_Q a + Decimal.to_Q b)%Q.
Proof.
  unfold Decimal.to_Q, Decimal.add; simpl.
  set (e := Z.min _ _).
  rewrite inject_Z_plus, Qmult_plus_distr_l.
  rewrite !to_Q_shift by lia. reflexivity.
Qed.

Lemma to_Q_round2 x :
  0 <= Decimal.coefficient x ->
  (Decimal.to_Q (Decimal.round x 2) == round_2dp (Decimal.to_Q x))%Q.
Proof.
  intros Hc. destruct x as [c e]; simpl in Hc.
  unfold Decimal.round, Decimal.quantize, round_2dp, Decimal.to_Q.
  change (- (2)) with (-2). cbn [Decimal.coefficient Decimal.exponent].
  destruct (Z.leb_spec (-2) e) as [Hle|Hlt]; cbn [Decimal.coefficient Decimal.exponent].
  - assert (Hq : (inject_Z c * inject_Z 10 ^ e * 100 == inject_Z (c * 10 ^ (e - -2)))%Q).
    { rewrite <- (to_Q_shift c e (-2)) by lia. rewrite pow10_neg by lia.
      change (inject_Z (10 ^ (- (-2)))) with 100%Q. field. }
    rewrite Hq, Qround_half_even_Z. rewrite pow10_neg by lia.
    change (inject_Z (10 ^ (- (-2)))) with 100%Q. field.
  - assert (Hd : 0 < 10 ^ (-2 - e)) by (apply Z.pow_pos_nonneg; lia).
    assert (Hq : (inject_Z c * inject_Z 10 ^ e * 100
                  == inject_Z c / inject_Z (10 ^ (-2 - e)))%Q).
    { rewrite <- pow10_nonneg by lia.
      replace (-2 - e) with (- (e + 2)) by lia.
      rewrite Qpower_opp, Qpower_plus by apply ten_neq_0. simpl.
      field. apply Qpower_not_0. discriminate. }
    rewrite Hq, Qround_half_even_div by assumption.
    rewrite Z.abs_eq by assumption.
    assert (Hs : Z.sgn c * Decimal.div_half_even c (10 ^ (-2 - e))
                 = Decimal.div_half_even c (10 ^ (-2 - e))).
    { destruct (Z.eq_dec c 0) as [->|Hne].
      - rewrite div_half_even_0 by assumption. lia.
      - rewrite Z.sgn_pos by lia. lia. }
    rewrite Hs. rewrite pow10_neg by lia.
    change (inject_Z (10 ^ (- (-2)))) with 100%Q. field.
Qed.

Lemma round2_exponent x : Decimal.exponent (Decimal.round x 2) = -2.
Proof. unfold Decimal.round, Decimal.quantize. destruct (_ <=? _); reflexivity. Qed.

Lemma round2_eta x :
  Decimal.round x 2 = Decimal.mkDec (Decimal.coefficient (Decimal.round x 2)) (-2).
Proof.
  rewrite <- (round2_exponent x). destruct (Decimal.round x 2); reflexivity.
Qed.

(** Rounding keeps the order of two amounts with the same exponent,
    and keeps it strict when they are more than a cent apart. *)
Lemma round2_mono c1 c2 e :
  0 <= c1 -> c1 <= c2 ->
  Decimal.coefficient (Decimal.round (Decimal.mkDec c1 e) 2)
  <= Decimal.coefficient (Decimal.round (Decimal.mkDec c2 e) 2).
Proof.
  intros H0 Hle. unfold Decimal.round, Decimal.quantize.
  change (- (2)) with (-2). cbn [Decimal.coefficient Decimal.exponent].
  destruct (Z.leb_spec (-2) e); cbn [Decimal.coefficient].
  - apply Z.mul_le_mono_nonneg_r; [apply Z.pow_nonneg|]; lia.
  - assert (Hd : 0 < 10 ^ (-2 - e)) by (apply Z.pow_pos_nonneg; lia).
    pose proof (div_half_even_mono c1 c2 _ Hd Hle) as Hm.
    pose proof (div_half_even_mono 0 c1 _ Hd H0) as Hz.
    rewrite div_half_even_0 in Hz by assumption.
    rewrite !Z.abs_eq by lia.
    destruct (Z.eq_dec c1 0) as [->|]; [rewrite Z.sgn_0|rewrite (Z.sgn_pos c1) by lia].
    + destruct (Z.eq_dec c2 0) as [->|]; [rewrite Z.sgn_0; lia|rewrite Z.sgn_pos by lia]. lia.
    + rewrite Z.sgn_pos by lia. lia.
Qed.

Lemma round2_strict c1 c2 e :
  0 < c1 -> c1 < c2 ->
  (e < -2 -> 10 ^ (-2 - e) < c2 - c1) ->
  Decimal.coefficient (Decimal.round (Decimal.mkDec c1 e) 2)
  < Decimal.coefficient (Decimal.round (Decimal.mkDec c2 e) 2).
Proof.
  intros H0 Hlt Hgap. unfold Decimal.round, Decimal.quantize.
  change (- (2)) with (-2). cbn [Decimal.coefficient Decimal.exponent].
  destruct (Z.leb_spec (-2) e); cbn [Decimal.coefficient].
  - apply Z.mul_lt_mono_pos_r; [apply Z.pow_pos_nonneg|]; lia.
  - assert (Hd : 0 < 10 ^ (-2 - e)) by (apply Z.pow_pos_nonneg; lia).
    pose proof (div_half_even_strict c1 c2 _ Hd (Hgap ltac:(lia))) as Hm.
    rewrite !Z.abs_eq, !Z.sgn_pos by lia. lia.
Qed.

Lemma to_Q_le_same_exp a b e :
  a <= b -> (Decimal.to_Q (Decimal.mkDec a e) <= Decimal.to_Q (Decimal.mkDec b e))%Q.
Proof.
  intros H. unfold Decimal.to_Q; simpl.
  apply Qmult_le_compat_r.
  - rewrite <- Zle_Qle. assumption.
  - apply Qpower_0_le. discriminate.
Qed.

Lemma to_Q_lt_same_exp a b e :
  a < b -> (Decimal.to_Q (Decimal.mkDec a e) < Decimal.to_Q (Decimal.mkDec b e))%Q.
Proof.
  intros H. unfold Decimal.to_Q; simpl.
  apply Qmult_lt_compat_r.
  - apply Qpower_0_lt. reflexivity.
  - rewrite <- Zlt_Qlt. assumption.
Qed.

(** A value above 1/70, read off coefficient and exponent. *)
Lemma above_one_seventieth c e :
  0 < c -> e < -1 ->
  (1 # 70 < inject_Z c * inject_Z 10 ^ e)%Q ->
  10 ^ (-1 - e) < 7 * c.
Proof.
  intros Hc He H.
  destruct (Z.lt_ge_cases (10 ^ (-1 - e)) (7 * c)) as [|Hge]; [assumption|exfalso].
  assert (Hp : 0 < 10 ^ (- e)) by (apply Z.pow_pos_nonneg; lia).
  assert (Hsplit : 10 ^ (- e) = 10 * 10 ^ (-1 - e)).
  { replace (- e) with (1 + (-1 - e)) by lia. rewrite Z.pow_add_r by lia. reflexivity. }
  rewrite pow10_neg in H by lia.
  apply (Qlt_not_le _ _ H).
  apply Qle_shift_div_r.
  - change 0%Q with (inject_Z 0). rewrite <- Zlt_Qlt. assumption.
  - unfold Qle; simpl. lia.
Qed.

Lemma add_coefficient_pos a b :
  0 < Decimal.coefficient a -> 0 < Decimal.coefficient b ->
  0 < Decimal.coefficient (Decimal.add a b).
Proof.
  intros Ha Hb. unfold Decimal.add; simpl.
  assert (0 < 10 ^ (Decimal.exponent a - Z.min (Decimal.exponent a) (Decimal.exponent b)))
    by (apply Z.pow_pos_nonneg; lia).
  assert (0 < 10 ^ (Decimal.exponent b - Z.min (Decimal.exponent a) (Decimal.exponent b)))
    by (apply Z.pow_pos_nonneg; lia).
  nia.
Qed.

(** [_calculate_base_trip_price] computes the trip's base price. *)
Lemma base_trip_price_spec (t : Trip) :
  trip_type t = "ONEWAY" \/ trip_type t = "ROUNDTRIP" ->
  positive_prices t ->
  exists base,
    TripM._calculate_base_trip_price t = Ok base /\
    0 < Decimal.coefficient base /\
    (Decimal.to_Q base == trip_base_price_Q t)%Q.
Proof.
  intros Hty [Hout Hret].
  unfold TripM._calculate_base_trip_price, trip_base_price_Q, is_roundtrip.
  destruct Hty as [-> | ->].
  - change (getitem Rates.TRIP_TYPE_RATES "ONEWAY")
      with (Ok (A := Decimal) (Decimal.mkDec 10 (-1))).
    change ("ONEWAY" =? "ROUNDTRIP")%string with false.
    destruct (return_flight t) as [rf|].
    all: eexists; split; [reflexivity|]; split; [unfold Decimal.mul; simpl; lia|].
    all: rewrite to_Q_mul; unfold Decimal.to_Q at 2; simpl; field.
  - change (getitem Rates.TRIP_TYPE_RATES "ROUNDTRIP")
      with (Ok (A := Decimal) (Decimal.mkDec 9 (-1))).
    change ("ROUNDTRIP" =? "ROUNDTRIP")%string with true.
    destruct (return_flight t) as [rf|].
    + eexists; split; [reflexivity|]. split.
      * pose proof (add_coefficient_pos _ _ Hout Hret). unfold Decimal.mul; simpl. lia.
      * rewrite to_Q_mul, to_Q_add. unfold Decimal.to_Q at 3; simpl. field.
    + eexists; split; [reflexivity|]. split.
      * unfold Decimal.mul; simpl. lia.
      * rewrite to_Q_mul. unfold Decimal.to_Q at 2; simpl. field.
Qed.

Lemma class_price_ok t base cls rate :
  TripM._calculate_base_trip_price t = Ok base ->
  Rates.CLASS_RATES !! cls = Some rate ->
  TripM.class_price t cls = Ok (Decimal.round (Decimal.mul base rate) 2).
Proof.
  intros Hb Hr. unfold TripM.class_price, getitem. rewrite Hb, Hr. reflexivity.
Qed.


End Rounding.



(* ===================================================================== *)
(** * 17. The classifier's decision rule *)
(* ===================================================================== *)

(** Comparison of binary64 values: [a <= b] excludes [b < a]. *)
Lemma SFcompare_antisym a b c :
  SFcompare a b = Some c -> SFcompare b a = Some (CompOpp c).
Proof.
  destruct a as [sa| sa | | sa ma ea], b as [sb | sb | | sb mb eb]; simpl;
    try discriminate; intros [= <-]; f_equal;
    try (destruct sa; reflexivity); try (destruct sb; reflexivity);
    try (destruct sa, sb; reflexivity).
  change (PosDef.Pos.compare_cont Eq ma mb) with (Pos.compare ma mb).
  change (PosDef.Pos.compare_cont Eq mb ma) with (Pos.compare mb ma).
  rewrite (Z.compare_antisym ea eb), (Pos.compare_antisym ma mb).
  destruct sa, sb; try reflexivity;
    destruct (ea ?= eb); simpl; try reflexivity;
    destruct (ma ?= mb)%positive; reflexivity.
Qed.

Lemma leb_not_ltb (x y : float) : PrimFloat.leb x y = true -> PrimFloat.ltb y x = false.
Proof.
  rewrite leb_spec, ltb_spec. unfold SFleb, SFltb.
  destruct (SFcompare (Prim2SF x) (Prim2SF y)) as [c|] eqn:Hc; [|discriminate].
  rewrite (SFcompare_antisym _ _ _ Hc).
  destruct c; simpl; congruence.
Qed.

(** [predict] raises nothing but [ValueError]. *)
Lemma predict_raises_ValueError (clf : IntentClassifier.t) (text : string) (e : Exn) :
  IntentClassifier.predict clf text = Raise e -> is_ValueError e = true.
Proof.
  unfold IntentClassifier.predict.
  destruct (IntentClassifier.pipeline clf) as [p|]; [|intros [= <-]; reflexivity].
  unfold IntentClassifier.np_max.
  destruct (IntentClassifier.predict_proba p text); [intros [= <-]; reflexivity|].
  destruct (PrimFloat.ltb _ _); discriminate.
Qed.



(* ===================================================================== *)
(** * 18. The authentication flow *)
(* ===================================================================== *)

Ltac run_m :=
  cbn [bind ret raise get gets put modify lift_res try_except fst snd
       AuthFlow.update AuthFlow.self_
       AuthFlow.state AuthFlow.context AuthFlow.action AuthFlow.email AuthFlow.password
       AuthFlow.name AuthFlow.set_password AuthFlow.set_state AuthFlow.set_email
       AuthFlow.set_action AuthFlow.set_name].

Lemma append_nonempty_r (a b : string) : b <> EmptyString -> a +:+ b <> EmptyString.
Proof. destruct a; simpl; [auto | discriminate]. Qed.

Lemma login_failure_keeps_world email pw w msg w' :
  Auth.login email pw w = ((false, msg), w') ->
  w' = w /\ msg = "Invalid email or password".
Proof.
  unfold Auth.login. destruct email as [em|]; [|intros [= <- <-]; done].
  destruct (Auth.find_user em (users w)) as [u|]; [|intros [= <- <-]; done].
  destruct (String.eqb _ _); [discriminate|]. intros [= <- <-]; done.
Qed.

Lemma login_success_authenticates email pw w msg w' :
  Auth.login email pw w = ((true, msg), w') ->
  Auth.is_authenticated w' = true /\ bookings w' = bookings w.
Proof.
  unfold Auth.login. destruct email as [em|]; [|discriminate].
  destruct (Auth.find_user em (users w)) as [u|]; [|discriminate].
  destruct (String.eqb _ _); [|discriminate]. intros [= <- <-]; done.
Qed.

Lemma register_failure_keeps_world nm email pw w msg w' :
  Auth.register nm email pw w = ((false, msg), w') -> w' = w.
Proof.
  unfold Auth.register. destruct email as [em|], pw as [p|];
    try destruct (Auth.find_user em (users w)); intros [= <-]; done.
Qed.

Lemma register_success_authenticates nm email pw w msg w' :
  Auth.register nm email pw w = ((true, msg), w') ->
  Auth.is_authenticated w' = true /\ bookings w' = bookings w.
Proof.
  unfold Auth.register. destruct email as [em|], pw as [p|];
    try destruct (Auth.find_user em (users w)); try discriminate.
  intros [= <- <-]; done.
Qed.

(** What one call of the flow can do: it always answers, with a text that
    is not empty; it leaves the booking table alone; it changes the world
    only when it completes; and when it completes, the shared [Auth]
    object is authenticated. *)
Lemma auth_flow_process_total (message : string) (w : World) (flow : AuthFlow.t) :
  exists response w' flow',
    AuthFlow.process message (w, flow) = (Ok response, (w', flow')) /\
    response <> EmptyString /\
    bookings w' = bookings w /\
    (AuthFlow.is_complete flow' = false -> w' = w) /\
    (AuthFlow.is_complete flow' = true -> AuthFlow.is_complete flow = false ->
     Auth.is_authenticated w' = true).
Proof.
  destruct flow as [st [act em pw nm]].
  unfold AuthFlow.process. run_m.
  destruct (String.eqb_spec st AuthFlowStates.INIT) as [->|Hinit].
  { unfold AuthFlow._handle_init.
    destruct (_ || _); run_m; do 3 eexists; (split; [reflexivity|]); done. }
  destruct (String.eqb_spec st AuthFlowStates.AWAITING_EMAIL) as [->|Hemail].
  { unfold AuthFlow._handle_email. run_m. do 3 eexists; (split; [reflexivity|]); done. }
  destruct (String.eqb_spec st AuthFlowStates.AWAITING_PASSWORD) as [->|Hpw].
  { unfold AuthFlow._handle_password. run_m.
    destruct (decide (act = Some "login")) as [->|Hact].
    - unfold bind at 1. unfold AuthFlow.auth_login.
      destruct (Auth.login em message w) as [[[|] msg] w'] eqn:Hlogin.
      + run_m. destruct (login_success_authenticates _ _ _ _ _ Hlogin) as [Ha Hb].
        do 3 eexists; split; [reflexivity|].
        split; [apply append_nonempty_r; discriminate|].
        split; [done|]. split; [discriminate|done].
      + run_m. destruct (login_failure_keeps_world _ _ _ _ _ Hlogin) as [-> ->].
        do 3 eexists; split; [reflexivity|]. done.
    - run_m. do 3 eexists; (split; [reflexivity|]); done. }
  destruct (String.eqb_spec st AuthFlowStates.AWAITING_NAME) as [->|Hname].
  { unfold AuthFlow._handle_name. run_m.
    unfold bind at 1. unfold AuthFlow.auth_register.
    destruct (Auth.register message em pw w) as [[[|] msg] w'] eqn:Hreg.
    - run_m. destruct (register_success_authenticates _ _ _ _ _ _ Hreg) as [Ha Hb].
      do 3 eexists; split; [reflexivity|].
      split; [apply append_nonempty_r; discriminate|].
      split; [done|]. split; [discriminate|done].
    - run_m. rewrite (register_failure_keeps_world _ _ _ _ _ _ Hreg).
      do 3 eexists; split; [reflexivity|].
      split; [apply append_nonempty_r; discriminate|]. done. }
  run_m. do 3 eexists; split; [reflexivity|]. split; [discriminate|]. split; [done|].
  split; [done|]. intros H1 H2. congruence.
Qed.

(** C2, what the code does.  In state AWAITING_PASSWORD with action
    'login', when the login fails the flow answers with the failure
    message and "Please try again with your email:", keeps the action
    'login', stores the password -- and stays in AWAITING_PASSWORD: the
    state is not set back to AWAITING_EMAIL. *)
Theorem failed_login_stays_at_password (w : World) (flow : AuthFlow.t) (message : string) :
  AuthFlow.state flow = AuthFlowStates.AWAITING_PASSWORD ->
  AuthFlow.action (AuthFlow.context flow) = Some "login" ->
  (Auth.login (AuthFlow.email (AuthFlow.context flow)) message w).1.1 = false ->
  AuthFlow.process message (w, flow)
    = (Ok ("Invalid email or password" +:+ nl +:+ "Please try again with your email:"),
       (w, AuthFlow.set_password (Some message) flow)) /\
  AuthFlow.state (AuthFlow.set_password (Some message) flow) = AuthFlowStates.AWAITING_PASSWORD /\
  AuthFlow.state (AuthFlow.set_password (Some message) flow) <> AuthFlowStates.AWAITING_EMAIL /\
  AuthFlow.action (AuthFlow.context (AuthFlow.set_password (Some message) flow)) = Some "login".
Proof.
  destruct flow as [st [act em pw nm]].
  cbn [AuthFlow.state AuthFlow.context AuthFlow.action AuthFlow.email].
  intros -> -> Hfail.
  destruct (Auth.login em message w) as [[ok msg] w'] eqn:Hlogin.
  simpl in Hfail; subst ok.
  destruct (login_failure_keeps_world _ _ _ _ _ Hlogin) as [-> ->].
  split; [|split; [|split]]; [|reflexivity|discriminate|reflexivity].
  unfold AuthFlow.process, AuthFlow._handle_password. run_m.
  cbn [String.eqb Ascii.eqb Bool.eqb AuthFlowStates.INIT AuthFlowStates.AWAITING_EMAIL
       AuthFlowStates.AWAITING_PASSWORD].
  run_m. destruct (decide (Some "login" = Some "login")) as [_|]; [|done].
  unfold bind at 1. unfold AuthFlow.auth_login. rewrite Hlogin. reflexivity.
Qed.

(** C2 at a wrong password for a registered address. *)
Lemma failed_login_stays_at_password_witness :
  AuthFlow.state Examples.login_flow = AuthFlowStates.AWAITING_PASSWORD /\
  AuthFlow.action (AuthFlow.context Examples.login_flow) = Some "login" /\
  (Auth.login (Some "ann@example.com") "wrong" Examples.world).1.1 = false /\
  (AuthFlow.process "wrong" (Examples.world, Examples.login_flow)).2.2
  = AuthFlow.mk AuthFlowStates.AWAITING_PASSWORD
      (AuthFlow.mkContext (Some "login") (Some "ann@example.com") (Some "wrong") None).
Proof.
  split; [reflexivity|]. split; [reflexivity|]. split; [reflexivity|].
  rewrite (proj1 (failed_login_stays_at_password Examples.world Examples.login_flow "wrong"
                    eq_refl eq_refl eq_refl)).
  reflexivity.
Defined.

(* ===================================================================== *)
(** * 19. The booking transaction *)
(* ===================================================================== *)

Section Steps.
Context {A B : Type}.
Implicit Types (w : World) (self : BookingTransaction.t).

Lemma m_bind_assoc {S C} (c : M S A) (f : A -> M S B) (g : B -> M S C) (s : S) :
  bind (bind c f) g s = bind c (fun x => bind (f x) g) s.
Proof. unfold bind. destruct (c s) as [[a|e] s']; reflexivity. Qed.

Lemma bind_ret_l (a : A) (k : A -> M BookingTransaction.St B) s :
  bind (ret a) k s = k a s.
Proof. reflexivity. Qed.

Lemma bind_lift_ok (a : A) (k : A -> M BookingTransaction.St B) s :
  bind (lift_res (Ok a)) k s = k a s.
Proof. reflexivity. Qed.

Lemma bind_lift_raise e (k : A -> M BookingTransaction.St B) s :
  bind (lift_res (Raise e)) k s = (Raise e, s).
Proof. reflexivity. Qed.

Lemma bind_ctx_get (key : string) (v : PyVal) (k : PyVal -> M BookingTransaction.St B) w self :
  BookingTransaction.context self !! key = Some v ->
  bind (BookingTransaction.ctx_get key) k (w, self) = k v (w, self).
Proof.
  intros H. unfold bind, BookingTransaction.ctx_get, getitem. rewrite H. reflexivity.
Qed.

Lemma bind_ctx_set (key : string) (v : PyVal) (k : unit -> M BookingTransaction.St B) w self :
  bind (BookingTransaction.ctx_set key v) k (w, self)
  = k tt (w, BookingTransaction.set_context (<[key := v]> (BookingTransaction.context self)) self).
Proof. reflexivity. Qed.

Lemma bind_goto (st : string) (k : unit -> M BookingTransaction.St B) w self :
  bind (BookingTransaction.goto st) k (w, self) = k tt (w, BookingTransaction.set_state st self).
Proof. reflexivity. Qed.

Lemma bind_get_today (k : date -> M BookingTransaction.St B) w self :
  bind BookingTransaction.get_today k (w, self) = k (today w) (w, self).
Proof. reflexivity. Qed.

Lemma bind_len_available_trips (trips : list Trip) (k : Z -> M BookingTransaction.St B) w self :
  BookingTransaction.context self !! "available_trips" = Some (VList trips) ->
  bind BookingTransaction.len_available_trips k (w, self)
  = k (Z.of_nat (length trips)) (w, self).
Proof.
  intros H. unfold BookingTransaction.len_available_trips.
  unfold bind at 1. unfold bind, BookingTransaction.ctx_get, getitem. rewrite H. reflexivity.
Qed.

End Steps.

Lemma context_set_context c self :
  BookingTransaction.context (BookingTransaction.set_context c self) = c.
Proof. reflexivity. Qed.

Lemma strptime_raises_ValueError (s : string) (e : Exn) :
  strptime_ymd s = Raise e -> is_ValueError e = true.
Proof.
  unfold strptime_ymd.
  destruct (ymd_matches _) as [|[[[y m] d] rest] ?]; [intros [= <-]; reflexivity|].
  destruct rest; [|intros [= <-]; reflexivity].
  destruct (date_ok y m d); [discriminate|intros [= <-]; reflexivity].
Qed.

Lemma is_response_nonempty (s : string) :
  s <> EmptyString -> BaseTransaction.is_response (Some s) = Some s.
Proof.
  intros H. unfold BaseTransaction.is_response.
  destruct (String.eqb_spec s EmptyString); [contradiction | reflexivity].
Qed.

Lemma requires_auth_iff (self : BookingTransaction.t) :
  BookingTransaction.requires_auth self = true <->
  BookingTransaction.state self = BookingStates.CONFIRMATION.
Proof. unfold BookingTransaction.requires_auth. apply String.eqb_eq. Qed.

(** [process] is [_process_internal] once the user is authenticated, and
    in every state that asks for no authentication. *)
Lemma process_when_authenticated (w : World) (self : BookingTransaction.t) (message : string) :
  Auth.is_authenticated w = true ->
  BookingTransaction.process message (w, self)
  = BookingTransaction._process_internal message (w, self).
Proof.
  intros Hauth. destruct self as [[ctx af paused] clf st].
  unfold BookingTransaction.process, BookingTransaction.check_and_handle_auth,
    BaseTransaction.check_and_handle_auth.
  unfold bind at 1. cbn [BookingTransaction.base].
  rewrite Hauth. destruct (BookingTransaction.requires_auth _); reflexivity.
Qed.

Lemma process_without_auth_requirement (w : World) (self : BookingTransaction.t)
    (message : string) :
  BookingTransaction.requires_auth self = false ->
  BookingTransaction.process message (w, self)
  = BookingTransaction._process_internal message (w, self).
Proof.
  intros Hreq. destruct self as [[ctx af paused] clf st].
  unfold BookingTransaction.process, BookingTransaction.check_and_handle_auth,
    BaseTransaction.check_and_handle_auth.
  unfold bind at 1. cbn [BookingTransaction.base].
  rewrite Hreq. reflexivity.
Qed.

(** The dispatcher hands back what the handler returned, and turns an
    exception of the handler into the terminal state. *)
Lemma process_internal_ok (w : World) (self : BookingTransaction.t) (message : string)
    (handler : string -> M BookingTransaction.St string)
    (r : string) (s' : BookingTransaction.St) :
  BookingTransaction.handlers !! BookingTransaction.state self = Some handler ->
  handler message (w, self) = (Ok r, s') ->
  BookingTransaction._process_internal message (w, self) = (Ok r, s').
Proof.
  intros Hh Hr. unfold BookingTransaction._process_internal.
  unfold bind at 1. unfold BookingTransaction.self_state. cbv beta iota. rewrite Hh.
  unfold try_except. rewrite Hr. reflexivity.
Qed.

Lemma process_internal_raise (w : World) (self : BookingTransaction.t) (message : string)
    (handler : string -> M BookingTransaction.St string)
    (e : Exn) (w' : World) (self' : BookingTransaction.t) :
  BookingTransaction.handlers !! BookingTransaction.state self = Some handler ->
  handler message (w, self) = (Raise e, (w', self')) ->
  BookingTransaction._process_internal message (w, self)
  = (Ok "Sorry, something went wrong. Please start a new booking.",
     (w', BookingTransaction.set_state BookingStates.COMPLETE self')).
Proof.
  intros Hh Hr. unfold BookingTransaction._process_internal.
  unfold bind at 1. unfold BookingTransaction.self_state. cbv beta iota. rewrite Hh.
  unfold try_except. rewrite Hr. reflexivity.
Qed.

(** The first call in CONFIRMATION with nobody logged in. *)
Lemma paused_first_call (w : World) (self : BookingTransaction.t) (message : string) :
  BookingTransaction.state self = BookingStates.CONFIRMATION ->
  Auth.is_authenticated w = false ->
  BookingTransaction.auth_flow self = None ->
  BookingTransaction.process message (w, self)
  = (Ok "You need to be logged in first. Would you like to login or register?",
     (w, BookingTransaction.set_base
           (BaseTransaction.set_paused true
              (BaseTransaction.set_auth_flow (Some AuthFlow.__init__)
                 (BookingTransaction.base self))) self)).
Proof.
  destruct self as [[ctx af paused] clf st]. cbn. intros -> Hauth ->.
  unfold BookingTransaction.process, BookingTransaction.check_and_handle_auth,
    BaseTransaction.check_and_handle_auth.
  unfold bind at 1. cbn [BookingTransaction.base BaseTransaction.auth_flow].
  rewrite Hauth. change (BookingTransaction.requires_auth _) with true. reflexivity.
Qed.

(** A later call, while the sub-flow is there. *)
Lemma paused_step (w : World) (self : BookingTransaction.t) (flow : AuthFlow.t)
    (message : string) :
  BookingTransaction.state self = BookingStates.CONFIRMATION ->
  Auth.is_authenticated w = false ->
  BookingTransaction.auth_flow self = Some flow ->
  exists (response : string) (w' : World) (flow' : AuthFlow.t),
    AuthFlow.process message (w, flow) = (Ok response, (w', flow')) /\
    BookingTransaction.process message (w, self)
    = (Ok response,
       (w', BookingTransaction.set_base
              (if AuthFlow.is_complete flow'
               then BaseTransaction.set_paused false
                      (BaseTransaction.set_auth_flow None (BookingTransaction.base self))
               else BaseTransaction.set_auth_flow (Some flow')
                      (BookingTransaction.base self)) self)) /\
    bookings w' = bookings w /\
    (AuthFlow.is_complete flow' = false -> w' = w) /\
    (AuthFlow.is_complete flow' = true -> AuthFlow.is_complete flow = false ->
     Auth.is_authenticated w' = true).
Proof.
  destruct self as [[ctx af paused] clf st]. cbn. intros -> Hauth ->.
  destruct (auth_flow_process_total message w flow)
    as (response & w' & flow' & Hproc & Hne & Hbook & Hinc & Hcomp).
  exists response, w', flow'. split; [exact Hproc|]. split; [|auto].
  unfold BookingTransaction.process, BookingTransaction.check_and_handle_auth,
    BaseTransaction.check_and_handle_auth.
  unfold bind at 1. cbn [BookingTransaction.base BaseTransaction.auth_flow].
  rewrite Hauth, Hproc. change (BookingTransaction.requires_auth _) with true.
  cbn [negb]. destruct (AuthFlow.is_complete flow'); cbn [bind ret];
    rewrite (is_response_nonempty _ Hne); reflexivity.
Qed.

(** Any number of later calls, as long as the sub-flow stays incomplete:
    the booking answers what the sub-flow answers, and nothing but the
    sub-flow changes. *)
Lemma paused_run (messages : list string) :
  forall (w : World) (self : BookingTransaction.t) (flow : AuthFlow.t),
    BookingTransaction.state self = BookingStates.CONFIRMATION ->
    Auth.is_authenticated w = false ->
    BookingTransaction.auth_flow self = Some flow ->
    AuthFlow.incomplete_throughout messages (w, flow) = true ->
    exists (responses : list (Res string)) (flow' : AuthFlow.t),
      run_all AuthFlow.process messages (w, flow) = (responses, (w, flow')) /\
      run_all BookingTransaction.process messages (w, self)
      = (responses,
         (w, BookingTransaction.set_base
               (BaseTransaction.set_auth_flow (Some flow') (BookingTransaction.base self))
               self)).
Proof.
  induction messages as [|message rest IH]; intros w self flow Hst Hauth Hflow Hinc.
  - exists [], flow. split; [reflexivity|].
    destruct self as [[ctx af paused] clf st]. cbn in Hflow. subst af. reflexivity.
  - destruct (paused_step w self flow message Hst Hauth Hflow)
      as (response & w1 & flow1 & Hproc & Hrun & _ & Hsame & _).
    cbn [AuthFlow.incomplete_throughout] in Hinc. rewrite Hproc in Hinc.
    cbn [snd] in Hinc. apply andb_true_iff in Hinc as [Hnot Hrest].
    apply negb_true_iff in Hnot. specialize (Hsame Hnot). subst w1.
    rewrite Hnot in Hrun.
    set (self1 := BookingTransaction.set_base
                    (BaseTransaction.set_auth_flow (Some flow1) (BookingTransaction.base self))
                    self) in *.
    destruct (IH w self1 flow1) as (responses & flow' & Hflows & Hbookings);
      [exact Hst | exact Hauth | reflexivity | exact Hrest |].
    exists (Ok response :: responses), flow'. split.
    + cbn [run_all]. rewrite Hproc, Hflows. reflexivity.
    + cbn [run_all]. rewrite Hrun, Hbookings.
      destruct self as [[ctx af paused] clf st]. reflexivity.
Qed.

(** C1.  [requires_auth] is true exactly in state CONFIRMATION.  In that
    state, while the shared [Auth] object is not authenticated:
    the first [process] call (no sub-flow yet) creates the sub-flow and
    returns the login/register prompt, leaving state, context and world
    as they were; every later call returns exactly what the sub-flow's
    own [process] returns, changes the world only as the sub-flow did,
    and changes of the transaction nothing but the sub-flow slot (the
    state stays CONFIRMATION, the context and the classifier are
    untouched, no booking is made); over any run of messages during
    which the sub-flow stays incomplete the answers are the sub-flow's
    answers and the user stays unauthenticated; on the call where the
    sub-flow completes it is dropped, its message is the answer as it
    is, and the user is authenticated.  Once authenticated, [process] is
    the dispatcher again, whose handler in this state is
    [_handle_confirmation]. *)
Theorem confirmation_pauses_for_authentication :
  (forall self : BookingTransaction.t,
      BookingTransaction.requires_auth self = true <->
      BookingTransaction.state self = BookingStates.CONFIRMATION) /\
  (forall (w : World) (self : BookingTransaction.t) (message : string),
      BookingTransaction.state self = BookingStates.CONFIRMATION ->
      Auth.is_authenticated w = false ->
      BookingTransaction.auth_flow self = None ->
      BookingTransaction.process message (w, self)
      = (Ok "You need to be logged in first. Would you like to login or register?",
         (w, BookingTransaction.set_base
               (BaseTransaction.set_paused true
                  (BaseTransaction.set_auth_flow (Some AuthFlow.__init__)
                     (BookingTransaction.base self))) self))) /\
  (forall (w : World) (self : BookingTransaction.t) (flow : AuthFlow.t) (message : string),
      BookingTransaction.state self = BookingStates.CONFIRMATION ->
      Auth.is_authenticated w = false ->
      BookingTransaction.auth_flow self = Some flow ->
      exists (response : string) (w' : World) (flow' : AuthFlow.t)
             (self' : BookingTransaction.t),
        AuthFlow.process message (w, flow) = (Ok response, (w', flow')) /\
        BookingTransaction.process message (w, self) = (Ok response, (w', self')) /\
        self' = BookingTransaction.set_base
                  (if AuthFlow.is_complete flow'
                   then BaseTransaction.set_paused false
                          (BaseTransaction.set_auth_flow None (BookingTransaction.base self))
                   else BaseTransaction.set_auth_flow (Some flow')
                          (BookingTransaction.base self)) self /\
        BookingTransaction.state self' = BookingStates.CONFIRMATION /\
        BookingTransaction.context self' = BookingTransaction.context self /\
        BookingTransaction.intent_classifier self' = BookingTransaction.intent_classifier self /\
        bookings w' = bookings w /\
        (AuthFlow.is_complete flow' = false ->
         BookingTransaction.auth_flow self' = Some flow' /\ w' = w) /\
        (AuthFlow.is_complete flow' = true ->
         BookingTransaction.auth_flow self' = None /\
         (AuthFlow.is_complete flow = false -> Auth.is_authenticated w' = true))) /\
  (forall (messages : list string) (w : World) (self : BookingTransaction.t)
          (flow : AuthFlow.t),
      BookingTransaction.state self = BookingStates.CONFIRMATION ->
      Auth.is_authenticated w = false ->
      BookingTransaction.auth_flow self = Some flow ->
      AuthFlow.incomplete_throughout messages (w, flow) = true ->
      exists (responses : list (Res string)) (flow' : AuthFlow.t),
        run_all AuthFlow.process messages (w, flow) = (responses, (w, flow')) /\
        run_all BookingTransaction.process messages (w, self)
        = (responses,
           (w, BookingTransaction.set_base
                 (BaseTransaction.set_auth_flow (Some flow') (BookingTransaction.base self))
                 self))) /\
  (forall (w : World) (self : BookingTransaction.t) (message : string),
      BookingTransaction.state self = BookingStates.CONFIRMATION ->
      Auth.is_authenticated w = true ->
      BookingTransaction.handlers !! BookingTransaction.state self
        = Some BookingTransaction._handle_confirmation /\
      BookingTransaction.process message (w, self)
      = BookingTransaction._process_internal message (w, self)).
Proof.
  split; [exact requires_auth_iff|]. split; [exact paused_first_call|].
  split; [|split].
  - intros w self flow message Hst Hauth Hflow.
    destruct (paused_step w self flow message Hst Hauth Hflow)
      as (response & w' & flow' & Hproc & Hrun & Hbook & Hinc & Hcomp).
    exists response, w', flow'. eexists.
    split; [exact Hproc|]. split; [exact Hrun|]. split; [reflexivity|].
    destruct self as [[ctx af paused] clf st]. cbn in Hst. subst st.
    destruct (AuthFlow.is_complete flow') eqn:Hc; cbn;
      (split; [reflexivity|]); (split; [reflexivity|]); (split; [reflexivity|]);
      (split; [exact Hbook|]); split.
    + discriminate.
    + intros _. split; [reflexivity|]. intros Hf. apply Hcomp; done.
    + intros _. split; [reflexivity|]. apply Hinc. reflexivity.
    + discriminate.
  - intros messages. exact (paused_run messages).
  - intros w self message Hst Hauth. split.
    + rewrite Hst. reflexivity.
    + apply process_when_authenticated, Hauth.
Qed.

(** C1 on a booking that waits for confirmation with nobody logged in:
    the first message gets the prompt; "login" and then the address are
    answered by the sub-flow, which stays incomplete; and a password sent
    to the sub-flow that holds the address completes the login. *)
Lemma confirmation_pauses_for_authentication_witness :
  (BookingTransaction.state (Examples.at_confirmation None Examples.with_model)
   = BookingStates.CONFIRMATION /\
   Auth.is_authenticated Examples.world = false /\
   (BookingTransaction.process "yes"
      (Examples.world, Examples.at_confirmation None Examples.with_model)).1
   = Ok "You need to be logged in first. Would you like to login or register?") /\
  (AuthFlow.incomplete_throughout ["login"; "ann@example.com"]
     (Examples.world, AuthFlow.__init__) = true /\
   (run_all BookingTransaction.process ["login"; "ann@example.com"]
      (Examples.world, Examples.at_confirmation (Some AuthFlow.__init__) Examples.with_model)).1
   = [Ok "Please enter your email to login:"; Ok "Please enter your password:"]) /\
  (BookingTransaction.auth_flow
     (Examples.at_confirmation (Some Examples.login_flow) Examples.with_model)
   = Some Examples.login_flow /\
   exists (w' : World) (self' : BookingTransaction.t),
     BookingTransaction.process "secret"
       (Examples.world, Examples.at_confirmation (Some Examples.login_flow) Examples.with_model)
     = (Ok ("Login successful" +:+ nl +:+ "Now, let's continue with your booking."), (w', self')) /\
     BookingTransaction.state self' = BookingStates.CONFIRMATION /\
     BookingTransaction.auth_flow self' = None /\
     Auth.is_authenticated w' = true).
Proof.
  pose proof confirmation_pauses_for_authentication as (_ & Hfirst & Hstep & Hrun & _).
  split; [|split].
  - split; [reflexivity|]. split; [reflexivity|].
    rewrite (Hfirst Examples.world (Examples.at_confirmation None Examples.with_model) "yes"
               eq_refl eq_refl eq_refl).
    reflexivity.
  - split; [reflexivity|].
    destruct (Hrun ["login"; "ann@example.com"] Examples.world
                (Examples.at_confirmation (Some AuthFlow.__init__) Examples.with_model)
                AuthFlow.__init__ eq_refl eq_refl eq_refl eq_refl)
      as (responses & flow' & Hflows & Hbooking).
    rewrite Hbooking. cbn [fst].
    assert (Hran : (run_all AuthFlow.process ["login"; "ann@example.com"]
                      (Examples.world, AuthFlow.__init__)).1
                   = [Ok "Please enter your email to login:"; Ok "Please enter your password:"])
      by reflexivity.
    rewrite Hflows in Hran. exact Hran.
  - split; [reflexivity|].
    destruct (Hstep Examples.world
                (Examples.at_confirmation (Some Examples.login_flow) Examples.with_model)
                Examples.login_flow "secret" eq_refl eq_refl eq_refl)
      as (response & w' & flow' & self' & Hflow & Hproc & _ & Hst & _ & _ & _ & _ & Hdone).
    assert (Hran : AuthFlow.process "secret" (Examples.world, Examples.login_flow)
                   = (Ok ("Login successful" +:+ nl +:+ "Now, let's continue with your booking."),
                      ((AuthFlow.process "secret" (Examples.world, Examples.login_flow)).2.1,
                       (AuthFlow.process "secret" (Examples.world, Examples.login_flow)).2.2)))
      by reflexivity.
    rewrite Hran in Hflow. injection Hflow as Hr Hw Hf.
    exists w', self'. rewrite Hproc, <- Hr. split; [reflexivity|]. split; [exact Hst|].
    assert (Hc : AuthFlow.is_complete flow' = true) by (rewrite <- Hf; reflexivity).
    destruct (Hdone Hc) as [Hnone Hauth]. split; [exact Hnone|]. apply Hauth. reflexivity.
Defined.

(** C5.  In a state that has a registered handler, whenever the handler
    raises an exception, [_process_internal] catches it, returns "Sorry,
    something went wrong. Please start a new booking." and leaves the
    transaction in the terminal state COMPLETE. *)
Theorem handler_fault_terminates (w : World) (self : BookingTransaction.t) (message : string)
    (handler : string -> M BookingTransaction.St string)
    (e : Exn) (w' : World) (self' : BookingTransaction.t) :
  BookingTransaction.handlers !! BookingTransaction.state self = Some handler ->
  handler message (w, self) = (Raise e, (w', self')) ->
  BookingTransaction._process_internal message (w, self)
  = (Ok "Sorry, something went wrong. Please start a new booking.",
     (w', BookingTransaction.set_state BookingStates.COMPLETE self')) /\
  BookingTransaction.state (BookingTransaction.set_state BookingStates.COMPLETE self')
  = BookingStates.COMPLETE /\
  BookingTransaction.is_complete (BookingTransaction.set_state BookingStates.COMPLETE self') = true.
Proof.
  intros Hh Hr. split; [|split; reflexivity].
  exact (process_internal_raise w self message handler e w' self' Hh Hr).
Qed.

(** C5 where a handler does raise: the confirmation handler of a booking
    whose classifier has no model. *)
Lemma handler_fault_terminates_witness :
  BookingTransaction.handlers
    !! BookingTransaction.state (Examples.at_confirmation None Examples.without_model)
  = Some BookingTransaction._handle_confirmation /\
  BookingTransaction._handle_confirmation "yes"
    (Examples.world_logged_in, Examples.at_confirmation None Examples.without_model)
  = (Raise (ValueError "No model available for prediction. Please train or load a model first."),
     (Examples.world_logged_in, Examples.at_confirmation None Examples.without_model)) /\
  BookingTransaction._process_internal "yes"
    (Examples.world_logged_in, Examples.at_confirmation None Examples.without_model)
  = (Ok "Sorry, something went wrong. Please start a new booking.",
     (Examples.world_logged_in,
      BookingTransaction.set_state BookingStates.COMPLETE
        (Examples.at_confirmation None Examples.without_model))).
Proof.
  split; [reflexivity|]. split; [reflexivity|].
  exact (proj1 (handler_fault_terminates Examples.world_logged_in
                  (Examples.at_confirmation None Examples.without_model) "yes"
                  BookingTransaction._handle_confirmation
                  (ValueError "No model available for prediction. Please train or load a model first.")
                  Examples.world_logged_in
                  (Examples.at_confirmation None Examples.without_model) eq_refl eq_refl)).
Defined.



(** The three outcomes of [_handle_flight_selection], seen through
    [process]. *)
Lemma flight_selection_steps (w : World) (self : BookingTransaction.t) (message : string)
    (trips : list Trip) :
  BookingTransaction.state self = BookingStates.FLIGHT_SELECTION ->
  BookingTransaction.context self !! "available_trips" = Some (VList trips) ->
  let N := Z.of_nat (length trips) in
  (parse_int message = None ->
     BookingTransaction.process message (w, self)
     = (Ok "Please enter a valid number for your flight selection:", (w, self))) /\
  (forall k : Z, parse_int message = Some k -> ~ (1 <= k <= N) ->
     BookingTransaction.process message (w, self)
     = (Ok ("Invalid selection. Please choose a number between 1 and " +:+ pretty N +:+ ":"),
        (w, self))) /\
  (forall (k : Z) (trip : Trip) (cls : string) (prices : gmap string Decimal)
          (origin destination outbound_date return_date : PyVal),
     parse_int message = Some k -> 1 <= k <= N ->
     trips !! Z.to_nat (k - 1) = Some trip ->
     BookingTransaction.context self !! "travel_class" = Some (VStr cls) ->
     TripM.get_all_class_prices trip = Ok prices ->
     BookingTransaction.context self !! "origin" = Some origin ->
     BookingTransaction.context self !! "destination" = Some destination ->
     BookingTransaction.context self !! "outbound_date" = Some outbound_date ->
     BookingTransaction.context self !! "return_date" = Some return_date ->
     let price := match prices !! cls with Some p => VDecimal p | None => VNone end in
     BookingTransaction.process message (w, self)
     = (Ok (join nl
              (["Here's a summary of your booking:";
                "From: " +:+ PyValM.str origin;
                "To: " +:+ PyValM.str destination;
                "Date: " +:+ PyValM.str outbound_date]
               ++ (if PyValM.truthy return_date
                   then ["Return: " +:+ PyValM.str return_date] else [])
               ++ ["Class: " +:+ cls;
                   "Total Price: £" +:+ PyValM.str price;
                   EmptyString;
                   "Would you like to proceed with this booking?"])),
        (w, BookingTransaction.set_state BookingStates.CONFIRMATION
              (BookingTransaction.set_context
                 (<["price" := price]>
                    (<["selected_trip" := VTrip trip]> (BookingTransaction.context self)))
                 self)))).
Proof.
  intros Hst Htrips N.
  assert (Hreq : BookingTransaction.requires_auth self = false).
  { unfold BookingTransaction.requires_auth. rewrite Hst. reflexivity. }
  assert (Hh : BookingTransaction.handlers !! BookingTransaction.state self
               = Some BookingTransaction._handle_flight_selection).
  { rewrite Hst. reflexivity. }
  split; [|split].
  - intros Hp. rewrite process_without_auth_requirement by exact Hreq.
    apply (process_internal_ok _ _ _ _ _ _ Hh).
    unfold BookingTransaction._handle_flight_selection, try_except, py_int.
    rewrite Hp, bind_lift_raise. reflexivity.
  - intros k Hp Hout. rewrite process_without_auth_requirement by exact Hreq.
    apply (process_internal_ok _ _ _ _ _ _ Hh).
    unfold BookingTransaction._handle_flight_selection, try_except, py_int.
    rewrite Hp, bind_lift_ok.
    destruct (Z.leb_spec 1 k) as [H1|H1].
    + rewrite m_bind_assoc, (bind_len_available_trips _ _ _ _ Htrips), bind_ret_l.
      fold N. destruct (Z.leb_spec k N) as [H2|H2]; [lia|].
      rewrite (bind_len_available_trips _ _ _ _ Htrips). reflexivity.
    + rewrite bind_ret_l, (bind_len_available_trips _ _ _ _ Htrips). reflexivity.
  - intros k trip cls prices origin destination outbound_date return_date
           Hp Hk Hnth Hcls Hprices Ho Hd Hod Hrd price.
    rewrite process_without_auth_requirement by exact Hreq.
    apply (process_internal_ok _ _ _ _ _ _ Hh).
    unfold BookingTransaction._handle_flight_selection, try_except, py_int.
    rewrite Hp, bind_lift_ok.
    destruct (Z.leb_spec 1 k) as [_|H1]; [|lia].
    rewrite m_bind_assoc, (bind_len_available_trips _ _ _ _ Htrips), bind_ret_l.
    fold N. destruct (Z.leb_spec k N) as [_|H2]; [|lia].
    rewrite (bind_ctx_get _ _ _ _ _ Htrips).
    unfold BookingTransaction.py_index. rewrite Hnth, bind_lift_ok.
    unfold BookingTransaction.all_class_prices_of. rewrite Hprices, bind_lift_ok.
    rewrite (bind_ctx_get _ _ _ _ _ Hcls).
    unfold BookingTransaction.prices_get. rewrite bind_lift_ok.
    fold price. rewrite !bind_ctx_set, bind_goto.
    set (self' := BookingTransaction.set_state _ _).
    assert (Hctx : BookingTransaction.context self'
                   = <["price" := price]>
                       (<["selected_trip" := VTrip trip]> (BookingTransaction.context self)))
      by reflexivity.
    unfold BookingTransaction._get_booking_summary.
    rewrite (bind_ctx_get "selected_trip" (VTrip trip))
      by (rewrite Hctx, lookup_insert_ne, lookup_insert_eq; done).
    rewrite (bind_ctx_get "price" price) by (rewrite Hctx, lookup_insert_eq; done).
    rewrite (bind_ctx_get "origin" origin) by (rewrite Hctx, !lookup_insert_ne; done).
    rewrite (bind_ctx_get "destination" destination) by (rewrite Hctx, !lookup_insert_ne; done).
    rewrite (bind_ctx_get "outbound_date" outbound_date)
      by (rewrite Hctx, !lookup_insert_ne; done).
    rewrite (bind_ctx_get "return_date" return_date) by (rewrite Hctx, !lookup_insert_ne; done).
    destruct (PyValM.truthy return_date).
    + rewrite m_bind_assoc.
      rewrite (bind_ctx_get "return_date" return_date) by (rewrite Hctx, !lookup_insert_ne; done).
      rewrite bind_ret_l.
      rewrite (bind_ctx_get "travel_class" (VStr cls)) by (rewrite Hctx, !lookup_insert_ne; done).
      reflexivity.
    + rewrite bind_ret_l.
      rewrite (bind_ctx_get "travel_class" (VStr cls)) by (rewrite Hctx, !lookup_insert_ne; done).
      reflexivity.
Qed.


(** The handler of TRAVEL_CLASS is the only way into FLIGHT_SELECTION,
    and it leaves the booking ready for the choice: the trips found, the
    class, a price of every trip for that class (the table was rendered
    from them), and the fields the summary prints. *)
Lemma bind_ctx_get_missing {B} (key : string) (k : PyVal -> M BookingTransaction.St B) w self :
  BookingTransaction.context self !! key = None ->
  bind (BookingTransaction.ctx_get key) k (w, self) = (Raise (KeyError key), (w, self)).
Proof.
  intros H. unfold bind, BookingTransaction.ctx_get, getitem. rewrite H. reflexivity.
Qed.

Lemma context_set_state st self :
  BookingTransaction.context (BookingTransaction.set_state st self)
  = BookingTransaction.context self.
Proof. reflexivity. Qed.

Lemma price_for_ok trip cls p :
  BookingTransaction.price_for trip cls = Ok p ->
  exists prices, TripM.get_all_class_prices trip = Ok prices /\ prices !! cls = Some p.
Proof.
  unfold BookingTransaction.price_for, getitem.
  destruct (TripM.get_all_class_prices trip) as [prices|]; [|discriminate].
  destruct (prices !! cls) as [q|] eqn:Hq; [|discriminate].
  intros [= <-]. eauto.
Qed.

Lemma table_rows_priced row sep idx trips cls rows :
  (forall i t r, row i t cls = Ok r -> exists p, BookingTransaction.price_for t cls = Ok p) ->
  BookingTransaction.table_rows row sep idx trips cls = Ok rows ->
  forall trip, trip ∈ trips ->
    exists prices p, TripM.get_all_class_prices trip = Ok prices /\ prices !! cls = Some p.
Proof.
  intros Hrow. revert idx rows.
  induction trips as [|t rest IH]; intros idx rows Hrows trip Hin.
  - by apply elem_of_nil in Hin.
  - cbn [BookingTransaction.table_rows] in Hrows.
    destruct (row idx t cls) as [r|] eqn:Hr; [|discriminate].
    destruct (BookingTransaction.table_rows row sep (idx + 1) rest cls) as [rs|] eqn:Hrs;
      [|discriminate].
    apply elem_of_cons in Hin as [->|Hin].
    + destruct (Hrow _ _ _ Hr) as [p Hp].
      destruct (price_for_ok _ _ _ Hp) as (prices & ? & ?). eauto.
    + eapply IH; eauto.
Qed.

Lemma oneway_row_priced i t cls r :
  BookingTransaction.oneway_row i t cls = Ok r ->
  exists p, BookingTransaction.price_for t cls = Ok p.
Proof.
  unfold BookingTransaction.oneway_row.
  destruct (BookingTransaction.price_for t cls); [eauto|discriminate].
Qed.

Lemma roundtrip_row_priced i t cls r :
  BookingTransaction.roundtrip_row i t cls = Ok r ->
  exists p, BookingTransaction.price_for t cls = Ok p.
Proof.
  unfold BookingTransaction.roundtrip_row.
  destruct (BookingTransaction.price_for t cls); [eauto|discriminate].
Qed.

Lemma travel_class_prepares_selection (w w' : World) (self self' : BookingTransaction.t)
    (message response : string) :
  BookingTransaction.state self = BookingStates.TRAVEL_CLASS ->
  BookingTransaction._handle_travel_class message (w, self) = (Ok response, (w', self')) ->
  BookingTransaction.state self' = BookingStates.FLIGHT_SELECTION ->
  exists trips, selection_ready self' trips (upper message).
Proof.
  intros Hst Hrun Hst'. unfold BookingTransaction._handle_travel_class in Hrun.
  destruct (bool_decide (upper message ∈ BookingTransaction.VALID_CLASSES)) eqn:Hvalid;
    cbn [negb] in Hrun.
  2:{ injection Hrun as _ _ <-. rewrite Hst in Hst'. discriminate Hst'. }
  apply bool_decide_eq_true in Hvalid.
  unfold try_except in Hrun.
  destruct (BookingTransaction.context self !! "origin") as [o|] eqn:Ho.
  2:{ rewrite (bind_ctx_get_missing _ _ _ _ Ho) in Hrun. injection Hrun as _ _ <-.
      discriminate Hst'. }
  rewrite (bind_ctx_get _ _ _ _ _ Ho) in Hrun.
  destruct (BookingTransaction.context self !! "destination") as [d|] eqn:Hd.
  2:{ rewrite (bind_ctx_get_missing _ _ _ _ Hd) in Hrun. injection Hrun as _ _ <-.
      discriminate Hst'. }
  rewrite (bind_ctx_get _ _ _ _ _ Hd) in Hrun.
  destruct (BookingTransaction.context self !! "outbound_date") as [od|] eqn:Hod.
  2:{ rewrite (bind_ctx_get_missing _ _ _ _ Hod) in Hrun. injection Hrun as _ _ <-.
      discriminate Hst'. }
  rewrite (bind_ctx_get _ _ _ _ _ Hod) in Hrun.
  destruct (BookingTransaction.context self !! "return_date") as [rd|] eqn:Hrd.
  2:{ rewrite (bind_ctx_get_missing _ _ _ _ Hrd) in Hrun. injection Hrun as _ _ <-.
      discriminate Hst'. }
  rewrite (bind_ctx_get _ _ _ _ _ Hrd) in Hrun.
  unfold bind at 1 in Hrun. unfold BookingTransaction.search_flights in Hrun.
  destruct (flight_query w o d od rd BookingTransaction.MAX_FLIGHTS) as [trips|e] eqn:Hq.
  2:{ injection Hrun as _ _ <-. discriminate Hst'. }
  destruct trips as [|t0 rest].
  { injection Hrun as _ _ <-. discriminate Hst'. }
  rewrite !bind_ctx_set in Hrun.
  set (self2 := BookingTransaction.set_context _ (BookingTransaction.set_context _ self)) in Hrun.
  assert (Hctx2 : BookingTransaction.context self2
                  = <["available_trips" := VList (t0 :: rest)]>
                      (<["travel_class" := VStr (upper message)]>
                         (BookingTransaction.context self))) by reflexivity.
  unfold BookingTransaction._format_flight_table in Hrun.
  rewrite m_bind_assoc in Hrun.
  destruct (BookingTransaction.context self2 !! "trip_type") as [tt|] eqn:Htt.
  2:{ rewrite (bind_ctx_get_missing _ _ _ _ Htt) in Hrun. injection Hrun as _ _ <-.
      discriminate Hst'. }
  rewrite (bind_ctx_get _ _ _ _ _ Htt) in Hrun.
  assert (Hready : forall rows row sep,
             (forall i t r, row i t (upper message) = Ok r ->
                            exists p, BookingTransaction.price_for t (upper message) = Ok p) ->
             BookingTransaction.table_rows row sep 1 (t0 :: rest) (upper message) = Ok rows ->
             selection_ready (BookingTransaction.set_state BookingStates.FLIGHT_SELECTION self2)
               (t0 :: rest) (upper message)).
  { intros rows row sep Hrow Hrows. split.
    - rewrite context_set_state, Hctx2. apply lookup_insert_eq.
    - discriminate.
    - rewrite context_set_state, Hctx2, lookup_insert_ne by done. apply lookup_insert_eq.
    - exact Hvalid.
    - exact (table_rows_priced row sep 1 _ _ rows Hrow Hrows).
    - intros key Hkey. rewrite context_set_state, Hctx2.
      repeat (apply elem_of_cons in Hkey as [->|Hkey]);
        [rewrite !lookup_insert_ne by done; eauto ..|by apply elem_of_nil in Hkey]. }
  destruct (decide (tt = VStr "ONEWAY")) as [Hone|Hone].
  - rewrite m_bind_assoc in Hrun.
    destruct (BookingTransaction.table_rows BookingTransaction.oneway_row _ 1 _ _)
      as [rows|err] eqn:Hrows.
    + rewrite bind_lift_ok, bind_ret_l, bind_goto in Hrun.
      injection Hrun as _ _ <-. exists (t0 :: rest).
      exact (Hready rows _ _ (fun i t r => oneway_row_priced i t _ r) Hrows).
    + rewrite bind_lift_raise in Hrun. injection Hrun as _ _ <-. discriminate Hst'.
  - rewrite m_bind_assoc in Hrun.
    destruct (BookingTransaction.table_rows BookingTransaction.roundtrip_row _ 1 _ _)
      as [rows|err] eqn:Hrows.
    + rewrite bind_lift_ok, bind_ret_l, bind_goto in Hrun.
      injection Hrun as _ _ <-. exists (t0 :: rest).
      exact (Hready rows _ _ (fun i t r => roundtrip_row_priced i t _ r) Hrows).
    + rewrite bind_lift_raise in Hrun. injection Hrun as _ _ <-. discriminate Hst'.
Qed.


(** C6 on a booking with two candidate trips and class ECONOMY: free
    text, the numbers 0 and 3, and the choice of trip 1 at 120.50. *)
Lemma at_selection_ready :
  selection_ready Examples.at_selection [Examples.trip_oneway; Examples.trip_1cent] "ECONOMY".
Proof.
  split.
  - reflexivity.
  - discriminate.
  - reflexivity.
  - repeat constructor.
  - intros trip Hin. repeat (apply elem_of_cons in Hin as [->|Hin]).
    + do 2 eexists. split; reflexivity.
    + do 2 eexists. split; reflexivity.
    + by apply elem_of_nil in Hin.
  - intros key Hin. repeat (apply elem_of_cons in Hin as [->|Hin]);
      [eexists; reflexivity ..|by apply elem_of_nil in Hin].
Defined.


(* ===================================================================== *)
(** * 20. The session controller *)
(* ===================================================================== *)

(** [_get_intent] never raises and never changes anything: a failed
    prediction reads as "unknown". *)
Lemma get_intent_result (w : World) (cb : FlightBookingChatbot.t) (message : string) :
  FlightBookingChatbot._get_intent message (w, cb)
  = (Ok (match IntentClassifier.predict (FlightBookingChatbot.intent_classifier cb) message with
         | Ok intent => intent
         | Raise _ => "unknown"
         end), (w, cb)).
Proof.
  unfold FlightBookingChatbot._get_intent, try_except, FlightBookingChatbot.predict.
  destruct (IntentClassifier.predict _ _) as [intent|e] eqn:Hp; [reflexivity|].
  unfold except_ValueError. rewrite (predict_raises_ValueError _ _ _ Hp). reflexivity.
Qed.

(** The two paths of [process_message]. *)
Lemma process_message_new (w : World) (cb : FlightBookingChatbot.t) (message intent : string) :
  FlightBookingChatbot.active_transaction cb = None ->
  (FlightBookingChatbot._get_intent message (w, cb)).1 = Ok intent ->
  FlightBookingChatbot.process_message message (w, cb)
  = match TransactionFactory.create_transaction intent w with
    | Ok (Some tx) => FlightBookingChatbot.run_transaction tx message (w, cb)
    | Ok None => (Ok FlightBookingChatbot._handle_unknown_intent, (w, cb))
    | Raise e => (Raise e, (w, cb))
    end.
Proof.
  intros Hact Hint. unfold FlightBookingChatbot.process_message.
  unfold bind at 1. cbn [gets snd]. rewrite Hact.
  rewrite get_intent_result in Hint. cbn [fst] in Hint.
  unfold bind at 1. rewrite get_intent_result. injection Hint as ->.
  unfold bind at 1.
  destruct (TransactionFactory.create_transaction intent w) as [[tx|]|e]; reflexivity.
Qed.

Lemma forwarded_completion_clears_slot (w w' : World) (cb : FlightBookingChatbot.t)
    (tx tx' : Transaction) (message response : string) :
  FlightBookingChatbot.active_transaction cb = Some tx ->
  TransactionM.process message (w, tx) = (Ok response, (w', tx')) ->
  FlightBookingChatbot.process_message message (w, cb)
  = (Ok response,
     (w', FlightBookingChatbot.set_current_transaction
            (if TransactionM.is_complete tx' then None else Some tx') cb)).
Proof.
  intros Hact Hproc. unfold FlightBookingChatbot.process_message.
  unfold bind at 1. cbn [gets snd]. rewrite Hact.
  unfold bind at 1. unfold FlightBookingChatbot.run_transaction. rewrite Hproc.
  unfold bind at 1. cbn [gets snd FlightBookingChatbot.set_current_transaction
                         FlightBookingChatbot.current_transaction].
  destruct (TransactionM.is_complete tx'); reflexivity.
Qed.

(** C4.  "unknown" is not a key of the factory's map; and whenever no
    incomplete transaction is active and the classified intent is not a
    key of the map, [process_message] returns "I'm not sure I understand.
    Could you please rephrase that?" and leaves the world and the chatbot,
    with its transaction slot, exactly as they were. *)
Theorem unknown_intent_clarification :
  TransactionFactory._transactions !! "unknown" = None /\
  forall (w : World) (cb : FlightBookingChatbot.t) (message intent : string),
    FlightBookingChatbot.active_transaction cb = None ->
    (FlightBookingChatbot._get_intent message (w, cb)).1 = Ok intent ->
    TransactionFactory._transactions !! intent = None ->
    FlightBookingChatbot.process_message message (w, cb)
    = (Ok "I'm not sure I understand. Could you please rephrase that?", (w, cb)).
Proof.
  split; [reflexivity|].
  intros w cb message intent Hact Hint Hnone.
  rewrite (process_message_new _ _ _ _ Hact Hint).
  unfold TransactionFactory.create_transaction. rewrite Hnone. reflexivity.
Qed.

(** C4 on a greeting, which the classifier rates below the threshold,
    and on "yes", classified as "confirmation", for which the factory has
    no transaction. *)
Lemma unknown_intent_clarification_witness :
  (FlightBookingChatbot._get_intent "hello"
     (Examples.world, Examples.idle_chatbot Examples.with_model)).1 = Ok "unknown" /\
  FlightBookingChatbot.process_message "hello"
    (Examples.world, Examples.idle_chatbot Examples.with_model)
  = (Ok "I'm not sure I understand. Could you please rephrase that?",
     (Examples.world, Examples.idle_chatbot Examples.with_model)) /\
  (FlightBookingChatbot._get_intent "yes"
     (Examples.world, Examples.idle_chatbot Examples.with_model)).1 = Ok "confirmation" /\
  TransactionFactory._transactions !! "confirmation" = None /\
  FlightBookingChatbot.process_message "yes"
    (Examples.world, Examples.idle_chatbot Examples.with_model)
  = (Ok "I'm not sure I understand. Could you please rephrase that?",
     (Examples.world, Examples.idle_chatbot Examples.with_model)).
Proof.
  split; [reflexivity|]. split.
  - exact (proj2 unknown_intent_clarification Examples.world
             (Examples.idle_chatbot Examples.with_model) "hello" "unknown"
             eq_refl eq_refl eq_refl).
  - split; [reflexivity|]. split; [reflexivity|].
    exact (proj2 unknown_intent_clarification Examples.world
             (Examples.idle_chatbot Examples.with_model) "yes" "confirmation"
             eq_refl eq_refl eq_refl).
Defined.

(** C3, what the code does on the creation path.  With no incomplete
    transaction active, a non-empty message classified as "status" makes
    a status transaction, stores it in the slot and forwards the message;
    the transaction is complete after that first message, and
    [process_message] returns with the completed transaction still in the
    slot and its context still holding the reference: [cleanup()] has not
    run and the slot has not been cleared. *)
Theorem first_turn_completion_left_in_slot (w : World) (cb : FlightBookingChatbot.t)
    (message : string) :
  FlightBookingChatbot.active_transaction cb = None ->
  (FlightBookingChatbot._get_intent message (w, cb)).1 = Ok "status" ->
  message <> EmptyString ->
  exists tx : Transaction,
    FlightBookingChatbot.process_message message (w, cb)
    = (Ok ("Processing status for booking: " +:+ message),
       (w, FlightBookingChatbot.set_current_transaction (Some tx) cb)) /\
    TransactionM.is_complete tx = true /\
    TransactionM.context tx !! "booking_ref" = Some (VStr message) /\
    tx <> TransactionM.cleanup tx.
Proof.
  intros Hact Hint Hne.
  rewrite (process_message_new _ _ _ _ Hact Hint).
  change (TransactionFactory.create_transaction "status" w)
    with (Ok (A := option Transaction) (Some (Status StatusTransaction.__init__))).
  eexists. split; [reflexivity|]. split; [|split].
  - unfold TransactionM.is_complete, StatusTransaction.is_complete,
      StatusTransaction.booking_ref, StatusTransaction.context.
    cbn [StatusTransaction.base BaseTransaction.context BaseTransaction.set_context].
    rewrite lookup_insert_eq. cbn [PyValM.truthy].
    destruct (String.eqb_spec message EmptyString); [contradiction|reflexivity].
  - unfold TransactionM.context, StatusTransaction.context.
    cbn [StatusTransaction.base BaseTransaction.context BaseTransaction.set_context].
    apply lookup_insert_eq.
  - intros H. apply (f_equal (fun t => TransactionM.context t !! "booking_ref")) in H.
    unfold TransactionM.context, TransactionM.cleanup, StatusTransaction.context,
      StatusTransaction.cleanup, BaseTransaction.cleanup in H.
    cbn [StatusTransaction.base BaseTransaction.context BaseTransaction.set_context] in H.
    rewrite lookup_insert_eq, lookup_empty in H. discriminate H.
Qed.

(** C3 on the message "status of QX71PD" sent to an idle chatbot. *)
Lemma first_turn_completion_left_in_slot_witness :
  FlightBookingChatbot.active_transaction (Examples.idle_chatbot Examples.with_model) = None /\
  (FlightBookingChatbot._get_intent "status of QX71PD"
     (Examples.world, Examples.idle_chatbot Examples.with_model)).1 = Ok "status" /\
  exists tx : Transaction,
    FlightBookingChatbot.current_transaction
      (FlightBookingChatbot.process_message "status of QX71PD"
         (Examples.world, Examples.idle_chatbot Examples.with_model)).2.2 = Some tx /\
    TransactionM.is_complete tx = true /\
    TransactionM.context tx !! "booking_ref" = Some (VStr "status of QX71PD").
Proof.
  split; [reflexivity|]. split; [reflexivity|].
  destruct (first_turn_completion_left_in_slot Examples.world
              (Examples.idle_chatbot Examples.with_model) "status of QX71PD"
              eq_refl eq_refl ltac:(discriminate))
    as (tx & Hrun & Hdone & Hctx & _).
  exists tx. rewrite Hrun. split; [reflexivity|]. split; assumption.
Defined.

(** The confirmation step of a booking whose classifier has no model. *)
Lemma confirmation_without_model (w : World) (self : BookingTransaction.t) (message : string) :
  BookingTransaction.state self = BookingStates.CONFIRMATION ->
  Auth.is_authenticated w = true ->
  IntentClassifier.pipeline (BookingTransaction.intent_classifier self) = None ->
  BookingTransaction.process message (w, self)
  = (Ok "Sorry, something went wrong. Please start a new booking.",
     (w, BookingTransaction.set_state BookingStates.COMPLETE self)).
Proof.
  intros Hst Hauth Hnone. rewrite process_when_authenticated by exact Hauth.
  apply (process_internal_raise w self message BookingTransaction._handle_confirmation
           (ValueError "No model available for prediction. Please train or load a model first.")).
  - rewrite Hst. reflexivity.
  - unfold BookingTransaction._handle_confirmation. unfold bind at 1.
    unfold BookingTransaction.predict, IntentClassifier.predict. rewrite Hnone. reflexivity.
Qed.




(* ===================================================================== *)
(** * 21. The authentication service *)
(* ===================================================================== *)

Lemma find_user_Some email us u :
  Auth.find_user email us = Some u -> u ∈ us /\ user_email u = email.
Proof.
  induction us as [|x r IH]; [discriminate|]. cbn [Auth.find_user].
  destruct (String.eqb_spec (user_email x) email) as [He|He].
  - intros [= <-]. split; [left | done].
  - intros H. destruct (IH H). split; [by right | done].
Qed.

Lemma find_user_None email us :
  Auth.find_user email us = None <-> email ∉ user_email <$> us.
Proof.
  induction us as [|x r IH]; cbn [Auth.find_user fmap list_fmap].
  - split; [intros _; apply not_elem_of_nil | done].
  - rewrite not_elem_of_cons.
    destruct (String.eqb_spec (user_email x) email) as [He|He]; split.
    + discriminate.
    + intros [? _]. congruence.
    + intros H. split; [congruence | by apply IH].
    + intros [_ H]. by apply IH.
Qed.

Lemma find_user_unique email us u :
  NoDup (user_email <$> us) -> u ∈ us -> user_email u = email ->
  Auth.find_user email us = Some u.
Proof.
  induction us as [|x r IH]; intros Hnd Hin He; [by apply elem_of_nil in Hin|].
  cbn [fmap list_fmap] in Hnd. apply NoDup_cons in Hnd as [Hx Hr].
  cbn [Auth.find_user]. apply elem_of_cons in Hin as [->|Hin].
  - rewrite He, String.eqb_refl. reflexivity.
  - destruct (String.eqb_spec (user_email x) email) as [Hxe|Hxe].
    + exfalso. apply Hx. rewrite Hxe, <- He. by apply list_elem_of_fmap_2.
    + by apply IH.
Qed.

Lemma next_id_above us u : u ∈ us -> user_id u < Auth.next_id us.
Proof.
  unfold Auth.next_id. induction us as [|x r IH]; intros Hin.
  - by apply elem_of_nil in Hin.
  - cbn [fold_right]. apply elem_of_cons in Hin as [->|Hin]; [lia|].
    specialize (IH Hin). lia.
Qed.

Lemma update_rows_ids key change us :
  (forall u, user_id (change u) = user_id u) ->
  user_id <$> Auth.update_rows key change us = user_id <$> us.
Proof.
  intros H. unfold Auth.update_rows. induction us as [|x r IH]; [done|].
  cbn [map fmap list_fmap]. f_equal; [|exact IH]. destruct (_ =? _); [apply H | done].
Qed.

Lemma update_rows_emails key change us :
  (forall u, user_email (change u) = user_email u) ->
  user_email <$> Auth.update_rows key change us = user_email <$> us.
Proof.
  intros H. unfold Auth.update_rows. induction us as [|x r IH]; [done|].
  cbn [map fmap list_fmap]. f_equal; [|exact IH]. destruct (_ =? _); [apply H | done].
Qed.

Lemma update_rows_changed key change us u :
  u ∈ us -> user_id u = key -> change u ∈ Auth.update_rows key change us.
Proof.
  intros Hin Hk. unfold Auth.update_rows. apply list_elem_of_In, in_map_iff.
  exists u. rewrite Hk, Z.eqb_refl. split; [done | by apply list_elem_of_In].
Qed.

Lemma update_rows_others key change us u :
  u ∈ us -> user_id u <> key -> u ∈ Auth.update_rows key change us.
Proof.
  intros Hin Hk. unfold Auth.update_rows. apply list_elem_of_In, in_map_iff.
  exists u. destruct (Z.eqb_spec (user_id u) key); [done|].
  split; [done | by apply list_elem_of_In].
Qed.

Lemma register_keeps_well_formed w name email password :
  users_well_formed w -> users_well_formed (Auth.register name email password w).2.
Proof.
  intros [Hids Hemails Hsession]. unfold Auth.register.
  destruct email as [em|], password as [pw|];
    try destruct (Auth.find_user em (users w)) as [found|] eqn:Hfind;
    try (cbn [snd]; split; auto; fail).
  cbn [snd]. split; cbn [users auth_service set_auth_service set_users _current_user].
  - rewrite fmap_app. apply NoDup_app. split; [exact Hids|]. split; [|apply NoDup_singleton].
    intros i Hi Hnew. cbn in Hnew. apply list_elem_of_singleton in Hnew. subst i.
    apply list_elem_of_fmap in Hi as (u & Hu & Hin).
    pose proof (next_id_above _ _ Hin). lia.
  - rewrite fmap_app. apply NoDup_app. split; [exact Hemails|]. split; [|apply NoDup_singleton].
    intros e He Hnew. cbn in Hnew. apply list_elem_of_singleton in Hnew. subst e.
    by apply find_user_None in Hfind.
  - intros u [= <-]. apply elem_of_app. right. by apply list_elem_of_singleton.
Qed.

Lemma login_keeps_well_formed w email password :
  users_well_formed w -> users_well_formed (Auth.login email password w).2.
Proof.
  intros [Hids Hemails Hsession]. unfold Auth.login.
  destruct email as [em|]; [|cbn [snd]; split; auto].
  destruct (Auth.find_user em (users w)) as [found|] eqn:Hfind; [|cbn [snd]; split; auto].
  destruct (String.eqb _ _); [|cbn [snd]; split; auto].
  split; [assumption..|]. intros u [= <-]. by apply find_user_Some in Hfind as [? _].
Qed.

Lemma update_name_keeps_well_formed w new_name :
  users_well_formed w -> users_well_formed (Auth.update_name new_name w).2.
Proof.
  intros [Hids Hemails Hsession]. unfold Auth.update_name.
  destruct (_current_user (auth_service w)) as [user|] eqn:Hcur;
    [|cbn [snd]; split; auto; intros u Hu; congruence].
  split; cbn [snd users auth_service set_auth_service set_users _current_user].
  - by rewrite update_rows_ids.
  - by rewrite update_rows_emails.
  - intros u [= <-]. apply update_rows_changed; [by apply Hsession | done].
Qed.

Lemma update_preferred_class_keeps_well_formed w new_class :
  users_well_formed w -> users_well_formed (Auth.update_preferred_class new_class w).2.
Proof.
  intros [Hids Hemails Hsession]. unfold Auth.update_preferred_class.
  destruct (_current_user (auth_service w)) as [user|] eqn:Hcur;
    [|cbn [snd]; split; auto; intros u Hu; congruence].
  destruct (bool_decide _);
    [|cbn [snd]; split; auto; intros u Hu; apply Hsession; congruence].
  split; cbn [snd users auth_service set_auth_service set_users _current_user].
  - by rewrite update_rows_ids.
  - by rewrite update_rows_emails.
  - intros u [= <-]. apply update_rows_changed; [by apply Hsession | done].
Qed.

(** X1.  The user table stays well formed under every operation of
    [Auth]: when the keys and the addresses of the rows are unique and
    the user of the session is a row of the table, the same holds after
    [register], [login], [update_name], [update_preferred_class] and
    [logout], whatever their arguments and whether they succeed or
    not. *)
Theorem auth_keeps_users_well_formed (w : World) :
  users_well_formed w ->
  (forall name email password, users_well_formed (Auth.register name email password w).2) /\
  (forall email password, users_well_formed (Auth.login email password w).2) /\
  (forall new_name, users_well_formed (Auth.update_name new_name w).2) /\
  (forall new_class, users_well_formed (Auth.update_preferred_class new_class w).2) /\
  users_well_formed (Auth.logout w).2.
Proof.
  intros Hwf. repeat split; intros;
    try apply register_keeps_well_formed; try apply login_keeps_well_formed;
    try apply update_name_keeps_well_formed;
    try apply update_preferred_class_keeps_well_formed; try assumption;
    try apply Hwf; try discriminate.
Qed.

Lemma find_user_app email us us' :
  Auth.find_user email (us ++ us')
  = match Auth.find_user email us with
    | Some u => Some u
    | None => Auth.find_user email us'
    end.
Proof.
  induction us as [|x r IH]; [done|]. cbn [app Auth.find_user].
  destruct (String.eqb _ _); [done | exact IH].
Qed.

(** X2.  Registering, logging out and logging in again.  For an address
    that no row has, [register] succeeds, appends one row that holds the
    name, the address, no preferred class and the SHA-256 digest of the
    password (not the password), and makes that row the user of the
    session; after [logout] nobody is authenticated; [login] with the
    same address and password then succeeds and restores exactly the
    state after the registration, a password with another digest is
    refused without any change, and a second registration of the address
    is refused with "Email already registered". *)
Theorem register_logout_login (w : World) (name email password : string) :
  Auth.find_user email (users w) = None ->
  exists (user : User) (w1 : World),
    Auth.register name (Some email) (Some password) w
    = ((true, "Registration successful"), w1) /\
    user = mkUser (Auth.next_id (users w)) name email (sha256_hex w password) None /\
    users w1 = users w ++ [user] /\
    Auth.current_user w1 = Some user /\
    Auth.is_authenticated (Auth.logout w1).2 = false /\
    Auth.login (Some email) password (Auth.logout w1).2 = ((true, "Login successful"), w1) /\
    (forall other : string,
        sha256_hex w other <> sha256_hex w password ->
        Auth.login (Some email) other (Auth.logout w1).2
        = ((false, "Invalid email or password"), (Auth.logout w1).2)) /\
    (forall (name' : string) (password' : option string),
        Auth.register name' (Some email) password' (Auth.logout w1).2
        = ((false, "Email already registered"), (Auth.logout w1).2)).
Proof.
  intros Hnew.
  set (user := mkUser (Auth.next_id (users w)) name email (sha256_hex w password) None).
  exists user, (set_auth_service (mkAuth (Some user)) (set_users (users w ++ [user]) w)).
  split. { unfold Auth.register. rewrite Hnew. reflexivity. }
  split; [reflexivity|]. split; [reflexivity|]. split; [reflexivity|].
  split; [reflexivity|].
  assert (Hfind : Auth.find_user email (users w ++ [user]) = Some user).
  { rewrite find_user_app, Hnew. cbn [Auth.find_user user_email user].
    rewrite String.eqb_refl. reflexivity. }
  split; [|split].
  - unfold Auth.login, Auth.logout.
    cbn [snd users set_users set_auth_service Auth._hash_password sha256_hex].
    rewrite Hfind. cbn [user_password user]. rewrite String.eqb_refl. reflexivity.
  - intros other Hother. unfold Auth.login, Auth.logout.
    cbn [snd users set_users set_auth_service Auth._hash_password sha256_hex].
    rewrite Hfind. cbn [user_password user].
    destruct (String.eqb_spec (sha256_hex w password) (sha256_hex w other)); [congruence|].
    reflexivity.
  - intros name' password'. unfold Auth.register, Auth.logout.
    cbn [snd users set_users set_auth_service].
    rewrite Hfind. destruct password'; reflexivity.
Qed.

(** X2 for a new user Bob. *)
Lemma register_logout_login_witness :
  Auth.find_user "bob@example.com" (users Examples.world) = None /\
  Auth.login (Some "bob@example.com") "hunter2"
    (Auth.logout (Auth.register "Bob" (Some "bob@example.com") (Some "hunter2")
                    Examples.world).2).2
  = ((true, "Login successful"),
     (Auth.register "Bob" (Some "bob@example.com") (Some "hunter2") Examples.world).2).
Proof.
  split; [reflexivity|].
  destruct (register_logout_login Examples.world "Bob" "bob@example.com" "hunter2" eq_refl)
    as (user & w1 & Hreg & _ & _ & _ & _ & Hlogin & _).
  rewrite Hreg. exact Hlogin.
Defined.

Lemma update_rows_length key change us :
  length (Auth.update_rows key change us) = length us.
Proof. unfold Auth.update_rows. apply length_map. Qed.

(** What a successful change of the profile leaves behind. *)
Lemma profile_changed (w : World) (user : User) (change : User -> User) :
  users_well_formed w ->
  Auth.current_user w = Some user ->
  (forall u, user_id (change u) = user_id u) ->
  (forall u, user_email (change u) = user_email u) ->
  let w' := set_auth_service (mkAuth (Some (change user)))
              (set_users (Auth.update_rows (user_id user) change (users w)) w) in
  Auth.current_user w' = Some (change user) /\
  Auth.find_user (user_email user) (users w') = Some (change user) /\
  (forall u, u ∈ users w -> user_id u <> user_id user -> u ∈ users w') /\
  length (users w') = length (users w) /\
  bookings w' = bookings w.
Proof.
  intros [Hids Hemails Hsession] Hcur Hid Hemail w'. subst w'.
  cbn [users set_users set_auth_service bookings].
  split; [reflexivity|]. split; [|split; [|split]].
  - apply find_user_unique.
    + by rewrite update_rows_emails.
    + apply update_rows_changed; [by apply Hsession | done].
    + apply Hemail.
  - intros u Hu Hne. by apply update_rows_others.
  - apply update_rows_length.
  - reflexivity.
Qed.

(** X3.  [update_name] and [update_preferred_class].  With nobody logged
    in both answer "User not authenticated" and change nothing; a class
    outside ECONOMY, BUSINESS, FIRST and [None] is refused without any
    change (the comparison is case-sensitive); otherwise, in a well-formed
    table, the change reaches both the object of the session and the row
    of the table, so that looking the user up by the address finds the
    changed row, while the rows of other users, the number of rows and
    the bookings stay as they were. *)
Theorem profile_updates (w : World) :
  (Auth.is_authenticated w = false ->
   (forall new_name,
       Auth.update_name new_name w = ((false, "User not authenticated"), w)) /\
   (forall new_class,
       Auth.update_preferred_class new_class w = ((false, "User not authenticated"), w))) /\
  (forall new_class,
      Auth.is_authenticated w = true ->
      new_class ∉ Auth.valid_classes ->
      Auth.update_preferred_class new_class w
      = ((false, "Invalid class. Must be one of: ECONOMY, BUSINESS, FIRST"), w)) /\
  (forall user new_name,
      users_well_formed w ->
      Auth.current_user w = Some user ->
      exists w',
        Auth.update_name new_name w = ((true, "Name updated successfully"), w') /\
        Auth.current_user w' = Some (Auth.set_user_name new_name user) /\
        Auth.find_user (user_email user) (users w') = Some (Auth.set_user_name new_name user) /\
        (forall u, u ∈ users w -> user_id u <> user_id user -> u ∈ users w') /\
        length (users w') = length (users w) /\
        bookings w' = bookings w) /\
  (forall user new_class,
      users_well_formed w ->
      Auth.current_user w = Some user ->
      new_class ∈ Auth.valid_classes ->
      exists w',
        Auth.update_preferred_class new_class w
        = ((true, "Preferred class updated successfully"), w') /\
        Auth.current_user w' = Some (Auth.set_user_preferred_class new_class user) /\
        Auth.find_user (user_email user) (users w')
        = Some (Auth.set_user_preferred_class new_class user) /\
        (forall u, u ∈ users w -> user_id u <> user_id user -> u ∈ users w') /\
        length (users w') = length (users w) /\
        bookings w' = bookings w).
Proof.
  split; [|split; [|split]].
  - unfold Auth.is_authenticated, Auth.update_name, Auth.update_preferred_class.
    destruct (_current_user (auth_service w)); [discriminate|]. done.
  - unfold Auth.is_authenticated, Auth.update_preferred_class.
    intros new_class Hauth Hbad.
    destruct (_current_user (auth_service w)); [|discriminate].
    rewrite bool_decide_eq_false_2 by done. reflexivity.
  - intros user new_name Hwf Hcur. eexists. split.
    + unfold Auth.update_name. unfold Auth.current_user in Hcur. rewrite Hcur. reflexivity.
    + by apply profile_changed.
  - intros user new_class Hwf Hcur Hok. eexists. split.
    + unfold Auth.update_preferred_class. unfold Auth.current_user in Hcur. rewrite Hcur.
      rewrite bool_decide_eq_true_2 by done. reflexivity.
    + by apply profile_changed.
Qed.

Lemma world_logged_in_well_formed : users_well_formed Examples.world_logged_in.
Proof.
  split; cbn.
  - apply NoDup_singleton.
  - apply NoDup_singleton.
  - intros u [= <-]. apply list_elem_of_singleton. reflexivity.
Defined.

(** X1 on the table that holds Ann, logged in, and a registration of Bob. *)
Lemma auth_keeps_users_well_formed_witness :
  users_well_formed Examples.world_logged_in /\
  users_well_formed (Auth.register "Bob" (Some "bob@example.com") (Some "hunter2")
                       Examples.world_logged_in).2.
Proof.
  split; [exact world_logged_in_well_formed|].
  exact (proj1 (auth_keeps_users_well_formed _ world_logged_in_well_formed)
           "Bob" (Some "bob@example.com") (Some "hunter2")).
Defined.

(** X3: a guest cannot change a name; "economy" in lower case is no class;
    Ann's new name is found under her address; [None] is a class. *)
Lemma profile_updates_witness :
  (Auth.is_authenticated Examples.world = false /\
   Auth.update_name "Anna" Examples.world = ((false, "User not authenticated"), Examples.world)) /\
  (Auth.is_authenticated Examples.world_logged_in = true /\
   (Some "economy" ∉ Auth.valid_classes) /\
   (Auth.update_preferred_class (Some "economy") Examples.world_logged_in).1.1 = false) /\
  (users_well_formed Examples.world_logged_in /\
   Auth.current_user Examples.world_logged_in = Some Examples.ann /\
   Auth.find_user "ann@example.com" (users (Auth.update_name "Anna" Examples.world_logged_in).2)
   = Some (Auth.set_user_name "Anna" Examples.ann)) /\
  (None ∈ Auth.valid_classes /\
   (Auth.update_preferred_class None Examples.world_logged_in).1.1 = true).
Proof.
  pose proof (profile_updates Examples.world) as (Hguest & _).
  pose proof (profile_updates Examples.world_logged_in) as (_ & Hbad & Hname & Hclass).
  split; [|split; [|split]].
  - split; [reflexivity|]. exact (proj1 (Hguest eq_refl) "Anna").
  - split; [reflexivity|].
    assert (Hno : Some "economy" ∉ Auth.valid_classes)
      by (apply (proj1 (bool_decide_eq_false _)); reflexivity).
    split; [exact Hno|]. rewrite (Hbad (Some "economy") eq_refl Hno). reflexivity.
  - split; [exact world_logged_in_well_formed|]. split; [reflexivity|].
    destruct (Hname Examples.ann "Anna" world_logged_in_well_formed eq_refl)
      as (w' & Hrun & _ & Hfind & _).
    rewrite Hrun. exact Hfind.
  - assert (Hyes : None ∈ Auth.valid_classes) by (apply (proj1 (bool_decide_eq_true _)); reflexivity).
    split; [exact Hyes|].
    destruct (Hclass Examples.ann None world_logged_in_well_formed eq_refl Hyes)
      as (w' & Hrun & _).
    rewrite Hrun. reflexivity.
Defined.

(* ===================================================================== *)
(** * 22. Conversations with the authentication flow *)
(* ===================================================================== *)

Ltac flow_step :=
  unfold AuthFlow.process, AuthFlow._handle_init, AuthFlow._handle_email,
    AuthFlow._handle_password, AuthFlow._handle_name;
  run_m;
  cbn [String.eqb Ascii.eqb Bool.eqb AuthFlowStates.INIT AuthFlowStates.AWAITING_EMAIL
       AuthFlowStates.AWAITING_PASSWORD AuthFlowStates.AWAITING_NAME AuthFlowStates.COMPLETE];
  run_m.

(** The four steps of the flow, one by one. *)
Lemma flow_opening (w : World) (ctx : AuthFlow.Context) (message : string) :
  AuthFlow.process message (w, AuthFlow.mk AuthFlowStates.INIT ctx)
  = if contains "register" (lower message) || contains "sign up" (lower message)
    then (Ok "Let's create an account. Please enter your email:",
          (w, AuthFlow.mk AuthFlowStates.AWAITING_EMAIL
                (AuthFlow.mkContext (Some "register") (AuthFlow.email ctx)
                   (AuthFlow.password ctx) (AuthFlow.name ctx))))
    else (Ok "Please enter your email to login:",
          (w, AuthFlow.mk AuthFlowStates.AWAITING_EMAIL
                (AuthFlow.mkContext (Some "login") (AuthFlow.email ctx)
                   (AuthFlow.password ctx) (AuthFlow.name ctx)))).
Proof. destruct ctx. flow_step. destruct (_ || _); reflexivity. Qed.

Lemma flow_email (w : World) (ctx : AuthFlow.Context) (message : string) :
  AuthFlow.process message (w, AuthFlow.mk AuthFlowStates.AWAITING_EMAIL ctx)
  = (Ok "Please enter your password:",
     (w, AuthFlow.mk AuthFlowStates.AWAITING_PASSWORD
           (AuthFlow.mkContext (AuthFlow.action ctx) (Some message)
              (AuthFlow.password ctx) (AuthFlow.name ctx)))).
Proof. destruct ctx. flow_step. reflexivity. Qed.

Lemma flow_password_login (w : World) (email : option string) (pw nm : option string)
    (message : string) :
  AuthFlow.process message
    (w, AuthFlow.mk AuthFlowStates.AWAITING_PASSWORD
          (AuthFlow.mkContext (Some "login") email pw nm))
  = let '((success, msg), w') := Auth.login email message w in
    if success
    then (Ok (msg +:+ nl +:+ "Now, let's continue with your booking."),
          (w', AuthFlow.mk AuthFlowStates.COMPLETE
                 (AuthFlow.mkContext (Some "login") email (Some message) nm)))
    else (Ok (msg +:+ nl +:+ "Please try again with your email:"),
          (w', AuthFlow.mk AuthFlowStates.AWAITING_PASSWORD
                 (AuthFlow.mkContext (Some "login") email (Some message) nm))).
Proof.
  flow_step. destruct (decide (Some "login" = Some "login")) as [_|]; [|done].
  unfold bind at 1. unfold AuthFlow.auth_login.
  destruct (Auth.login email message w) as [[[|] msg] w']; reflexivity.
Qed.

Lemma flow_password_register (w : World) (act email pw nm : option string)
    (message : string) :
  act <> Some "login" ->
  AuthFlow.process message
    (w, AuthFlow.mk AuthFlowStates.AWAITING_PASSWORD (AuthFlow.mkContext act email pw nm))
  = (Ok "Please enter your name:",
     (w, AuthFlow.mk AuthFlowStates.AWAITING_NAME
           (AuthFlow.mkContext act email (Some message) nm))).
Proof.
  intros Hact. flow_step. destruct (decide (act = Some "login")) as [|_]; [done|].
  reflexivity.
Qed.

Lemma flow_name (w : World) (act email pw nm : option string) (message : string) :
  AuthFlow.process message
    (w, AuthFlow.mk AuthFlowStates.AWAITING_NAME (AuthFlow.mkContext act email pw nm))
  = let '((success, msg), w') := Auth.register message email pw w in
    if success
    then (Ok (msg +:+ nl +:+ "Now, let's continue with your booking."),
          (w', AuthFlow.mk AuthFlowStates.COMPLETE
                 (AuthFlow.mkContext act email pw (Some message))))
    else (Ok (msg +:+ nl +:+ "Please try again with your email:"),
          (w', AuthFlow.mk AuthFlowStates.AWAITING_EMAIL
                 (AuthFlow.mkContext act email pw (Some message)))).
Proof.
  flow_step. unfold bind at 1. unfold AuthFlow.auth_register.
  destruct (Auth.register message email pw w) as [[[|] msg] w']; reflexivity.
Qed.

(** X4.  A login through the flow.  From a fresh flow, an opening
    message without "register" or "sign up" in it (in any letter case),
    then the address of a registered user, then a password whose digest
    is the stored one: the three answers are the two prompts and "Login
    successful" followed by "Now, let's continue with your booking.", the
    flow ends in COMPLETE, that user is the user of the session, and the
    rest of the world is untouched. *)
Theorem login_conversation (w : World) (opening email password : string) (user : User) :
  contains "register" (lower opening) = false ->
  contains "sign up" (lower opening) = false ->
  Auth.find_user email (users w) = Some user ->
  user_password user = sha256_hex w password ->
  run_all AuthFlow.process [opening; email; password] (w, AuthFlow.__init__)
  = ([Ok "Please enter your email to login:";
      Ok "Please enter your password:";
      Ok ("Login successful" +:+ nl +:+ "Now, let's continue with your booking.")],
     (set_auth_service (mkAuth (Some user)) w,
      AuthFlow.mk AuthFlowStates.COMPLETE
        (AuthFlow.mkContext (Some "login") (Some email) (Some password) None))).
Proof.
  intros Hreg Hsign Hfind Hpw. cbn [run_all]. unfold AuthFlow.__init__.
  rewrite flow_opening, Hreg, Hsign. cbn [orb AuthFlow.email AuthFlow.password AuthFlow.name].
  rewrite flow_email. cbn [AuthFlow.action AuthFlow.password AuthFlow.name].
  rewrite flow_password_login. unfold Auth.login. rewrite Hfind.
  unfold Auth._hash_password. rewrite Hpw, String.eqb_refl. reflexivity.
Qed.

(** X4 for Ann. *)
Lemma login_conversation_witness :
  contains "register" (lower "Login please") = false /\
  contains "sign up" (lower "Login please") = false /\
  Auth.find_user "ann@example.com" (users Examples.world) = Some Examples.ann /\
  user_password Examples.ann = sha256_hex Examples.world "secret" /\
  Auth.current_user
    (run_all AuthFlow.process ["Login please"; "ann@example.com"; "secret"]
       (Examples.world, AuthFlow.__init__)).2.1
  = Some Examples.ann.
Proof.
  split; [reflexivity|]. split; [reflexivity|]. split; [reflexivity|]. split; [reflexivity|].
  rewrite (login_conversation Examples.world "Login please" "ann@example.com" "secret"
             Examples.ann eq_refl eq_refl eq_refl eq_refl).
  reflexivity.
Defined.

(** X5.  A registration through the flow.  From a fresh flow, an opening
    message with "register" or "sign up" in it, then an address that no
    row has, a password and a name: the four answers are the three
    prompts and "Registration successful" followed by "Now, let's
    continue with your booking.", the flow ends in COMPLETE, and the new
    user, with the digest of the password, is appended to the table and
    is the user of the session. *)
Theorem registration_conversation (w : World) (opening email password name : string) :
  contains "register" (lower opening) || contains "sign up" (lower opening) = true ->
  Auth.find_user email (users w) = None ->
  let user := mkUser (Auth.next_id (users w)) name email (sha256_hex w password) None in
  run_all AuthFlow.process [opening; email; password; name] (w, AuthFlow.__init__)
  = ([Ok "Let's create an account. Please enter your email:";
      Ok "Please enter your password:";
      Ok "Please enter your name:";
      Ok ("Registration successful" +:+ nl +:+ "Now, let's continue with your booking.")],
     (set_auth_service (mkAuth (Some user)) (set_users (users w ++ [user]) w),
      AuthFlow.mk AuthFlowStates.COMPLETE
        (AuthFlow.mkContext (Some "register") (Some email) (Some password) (Some name)))).
Proof.
  intros Hreg Hnew user. cbn [run_all]. unfold AuthFlow.__init__.
  rewrite flow_opening, Hreg. cbn [AuthFlow.email AuthFlow.password AuthFlow.name].
  rewrite flow_email. cbn [AuthFlow.action AuthFlow.password AuthFlow.name].
  rewrite flow_password_register by discriminate.
  rewrite flow_name. unfold Auth.register. rewrite Hnew. reflexivity.
Qed.

(** X5 for Bob. *)
Lemma registration_conversation_witness :
  contains "register" (lower "I want to Register") || contains "sign up" (lower "I want to Register")
  = true /\
  Auth.find_user "bob@example.com" (users Examples.world) = None /\
  (user_name <$> users
     (run_all AuthFlow.process ["I want to Register"; "bob@example.com"; "hunter2"; "Bob"]
        (Examples.world, AuthFlow.__init__)).2.1) = ["Ann"; "Bob"].
Proof.
  split; [reflexivity|]. split; [reflexivity|].
  rewrite (registration_conversation Examples.world "I want to Register" "bob@example.com"
             "hunter2" "Bob" eq_refl eq_refl).
  reflexivity.
Defined.

(** X6.  A registration with an address that is taken.  In state
    AWAITING_NAME the flow answers "Email already registered" followed by
    "Please try again with your email:", changes nothing in the world and
    goes back to AWAITING_EMAIL, keeping the action 'register': the next
    three messages are read as a new address, a password and a name, and
    register the user when the new address is free. *)
Theorem taken_address_returns_to_email (w : World) (taken : User)
    (email name email' password' name' : string) (pw nm : option string) :
  Auth.find_user email (users w) = Some taken ->
  Auth.find_user email' (users w) = None ->
  let flow := AuthFlow.mk AuthFlowStates.AWAITING_NAME
                (AuthFlow.mkContext (Some "register") (Some email) pw nm) in
  let user := mkUser (Auth.next_id (users w)) name' email' (sha256_hex w password') None in
  AuthFlow.process name (w, flow)
  = (Ok ("Email already registered" +:+ nl +:+ "Please try again with your email:"),
     (w, AuthFlow.mk AuthFlowStates.AWAITING_EMAIL
           (AuthFlow.mkContext (Some "register") (Some email) pw (Some name)))) /\
  run_all AuthFlow.process [name; email'; password'; name'] (w, flow)
  = ([Ok ("Email already registered" +:+ nl +:+ "Please try again with your email:");
      Ok "Please enter your password:";
      Ok "Please enter your name:";
      Ok ("Registration successful" +:+ nl +:+ "Now, let's continue with your booking.")],
     (set_auth_service (mkAuth (Some user)) (set_users (users w ++ [user]) w),
      AuthFlow.mk AuthFlowStates.COMPLETE
        (AuthFlow.mkContext (Some "register") (Some email') (Some password') (Some name')))).
Proof.
  intros Htaken Hnew flow user.
  assert (Hfirst : AuthFlow.process name (w, flow)
                   = (Ok ("Email already registered" +:+ nl +:+
                          "Please try again with your email:"),
                      (w, AuthFlow.mk AuthFlowStates.AWAITING_EMAIL
                            (AuthFlow.mkContext (Some "register") (Some email) pw (Some name))))).
  { unfold flow. rewrite flow_name. unfold Auth.register. rewrite Htaken.
    destruct pw; reflexivity. }
  split; [exact Hfirst|].
  cbn [run_all]. rewrite Hfirst.
  rewrite flow_email. cbn [AuthFlow.action AuthFlow.password AuthFlow.name].
  rewrite flow_password_register by discriminate.
  rewrite flow_name. unfold Auth.register. rewrite Hnew. reflexivity.
Qed.

(** X6 with Ann's address. *)
Lemma taken_address_returns_to_email_witness :
  Auth.find_user "ann@example.com" (users Examples.world) = Some Examples.ann /\
  Auth.find_user "ann@example.org" (users Examples.world) = None /\
  AuthFlow.state
    (AuthFlow.process "Ann"
       (Examples.world,
        AuthFlow.mk AuthFlowStates.AWAITING_NAME
          (AuthFlow.mkContext (Some "register") (Some "ann@example.com") (Some "pw") None))).2.2
  = AuthFlowStates.AWAITING_EMAIL.
Proof.
  split; [reflexivity|]. split; [reflexivity|].
  rewrite (proj1 (taken_address_returns_to_email Examples.world Examples.ann
                    "ann@example.com" "Ann" "ann@example.org" "pw2" "Ann"
                    (Some "pw") None eq_refl eq_refl)).
  reflexivity.
Defined.



(* ===================================================================== *)
(** * 23. What a step may change: frames *)
(* ===================================================================== *)

Section Preserves.
Context {S : Type} (R : relation S) `{!Reflexive R, !Transitive R}.

Lemma preserves_ret {A} (a : A) : preserves R (ret a).
Proof using Type*. intros s. reflexivity. Qed.

Lemma preserves_raise {A} (e : Exn) : preserves R (raise (A := A) e).
Proof using Type*. intros s. reflexivity. Qed.

Lemma preserves_lift_res {A} (r : Res A) : preserves R (lift_res r).
Proof using Type*. intros s. reflexivity. Qed.

Lemma preserves_reads {A} (c : M S A) : (forall s, (c s).2 = s) -> preserves R c.
Proof using Type*. intros H s. rewrite H. reflexivity. Qed.

Lemma preserves_bind {A B} (c : M S A) (k : A -> M S B) :
  preserves R c -> (forall a, preserves R (k a)) -> preserves R (bind c k).
Proof using Type*.
  intros Hc Hk s. unfold bind. specialize (Hc s).
  destruct (c s) as [[a|e] s1]; cbn [snd] in *; [|exact Hc].
  etransitivity; [exact Hc | apply Hk].
Qed.

Lemma preserves_try_except {A} (body : M S A) (catches : Exn -> bool) (handler : Exn -> M S A) :
  preserves R body -> (forall e, preserves R (handler e)) ->
  preserves R (try_except body catches handler).
Proof using Type*.
  intros Hb Hh s. unfold try_except. specialize (Hb s).
  destruct (body s) as [[a|e] s1]; cbn [snd] in *; [exact Hb|].
  destruct (catches e); [|exact Hb].
  etransitivity; [exact Hb | apply Hh].
Qed.

Lemma preserves_modify (f : S -> S) : (forall s, R s (f s)) -> preserves R (modify f).
Proof using Type*. intros H s. apply H. Qed.

End Preserves.

#[local] Instance moves_reflexive RW T : Reflexive RW -> Reflexive (moves RW T).
Proof. intros HR [w self]. split; [reflexivity | by left]. Qed.

#[local] Instance moves_transitive RW T : Transitive RW -> Transitive (moves RW T).
Proof.
  intros HR [w1 s1] [w2 s2] [w3 s3] [Hw12 H12] [Hw23 H23]. cbn in *. split.
  - cbn. etransitivity; eassumption.
  - cbn. destruct H23 as [H23|H23]; [|by right]. rewrite H23. exact H12.
Qed.

Section Moves.
Context (RW : relation World) `{!Reflexive RW, !Transitive RW} (T : list string).

Lemma moves_ctx_get key : preserves (moves RW T) (BookingTransaction.ctx_get key).
Proof using Type*. apply preserves_reads; [apply _ ..|]. by intros [w self]. Qed.

Lemma moves_ctx_set key v : preserves (moves RW T) (BookingTransaction.ctx_set key v).
Proof using Type*. intros [w self]. split; [reflexivity | by left]. Qed.

Lemma moves_goto st : st ∈ T -> preserves (moves RW T) (BookingTransaction.goto st).
Proof using Type*. intros H [w self]. split; [reflexivity | by right]. Qed.

Lemma moves_get_today : preserves (moves RW T) BookingTransaction.get_today.
Proof using Type*. apply preserves_reads; [apply _ ..|]. by intros [w self]. Qed.

Lemma moves_search_flights o d od rd n :
  preserves (moves RW T) (BookingTransaction.search_flights o d od rd n).
Proof using Type*. apply preserves_reads; [apply _ ..|]. by intros [w self]. Qed.

Lemma moves_predict m : preserves (moves RW T) (BookingTransaction.predict m).
Proof using Type*. apply preserves_reads; [apply _ ..|]. by intros [w self]. Qed.

Lemma moves_current_user_id : preserves (moves RW T) BookingTransaction.current_user_id.
Proof using Type*.
  apply preserves_reads; [apply _ ..|]. intros [w self].
  unfold BookingTransaction.current_user_id. by destruct (Auth.current_user w).
Qed.

Lemma moves_self_state : preserves (moves RW T) BookingTransaction.self_state.
Proof using Type*. apply preserves_reads; [apply _ ..|]. by intros [w self]. Qed.

End Moves.

Create HintDb frame discriminated.
#[local] Hint Resolve moves_ctx_get moves_ctx_set moves_get_today moves_search_flights
  moves_predict moves_current_user_id moves_self_state : frame.
#[local] Hint Extern 1 (preserves (moves _ _) (BookingTransaction.goto _)) =>
  apply moves_goto; [..|repeat constructor]; try apply _ : frame.

Ltac frame :=
  repeat first
    [ apply preserves_ret; apply _
    | apply preserves_raise; apply _
    | apply preserves_lift_res; apply _
    | apply preserves_bind; [..|intros ?]; try apply _
    | apply preserves_try_except; [..|intros ?]; try apply _
    | match goal with
      | |- preserves _ (if ?b then _ else _) => destruct b
      | |- preserves _ (match ?x with _ => _ end) => destruct x
      end
    | solve [eauto with frame] ].

Section Handlers.
Context (RW : relation World) `{!Reflexive RW, !Transitive RW}.

Lemma handle_init_moves m :
  preserves (moves RW [BookingStates.ORIGIN]) (BookingTransaction._handle_init m).
Proof using Type*. unfold BookingTransaction._handle_init. frame. Qed.

Lemma handle_origin_moves m :
  preserves (moves RW [BookingStates.DESTINATION]) (BookingTransaction._handle_origin m).
Proof using Type*. unfold BookingTransaction._handle_origin. frame. Qed.

Lemma handle_destination_moves m :
  preserves (moves RW [BookingStates.OUTBOUND_DATE]) (BookingTransaction._handle_destination m).
Proof using Type*. unfold BookingTransaction._handle_destination. frame. Qed.

Lemma handle_outbound_date_moves m :
  preserves (moves RW [BookingStates.RETURN_DATE; BookingStates.TRAVEL_CLASS])
    (BookingTransaction._handle_outbound_date m).
Proof using Type*. unfold BookingTransaction._handle_outbound_date. frame. Qed.

Lemma handle_return_date_moves m :
  preserves (moves RW [BookingStates.TRAVEL_CLASS]) (BookingTransaction._handle_return_date m).
Proof using Type*. unfold BookingTransaction._handle_return_date. frame. Qed.

Lemma format_flight_table_moves T trips cls :
  preserves (moves RW T) (BookingTransaction._format_flight_table trips cls).
Proof using Type*. unfold BookingTransaction._format_flight_table. frame. Qed.

Lemma handle_travel_class_moves m :
  preserves (moves RW [BookingStates.FLIGHT_SELECTION; BookingStates.COMPLETE])
    (BookingTransaction._handle_travel_class m).
Proof using Type*.
  unfold BookingTransaction._handle_travel_class. pose proof format_flight_table_moves.
  frame.
Qed.

Lemma get_booking_summary_moves T :
  preserves (moves RW T) BookingTransaction._get_booking_summary.
Proof using Type*. unfold BookingTransaction._get_booking_summary. frame. Qed.

Lemma handle_flight_selection_moves m :
  preserves (moves RW [BookingStates.CONFIRMATION])
    (BookingTransaction._handle_flight_selection m).
Proof using Type*.
  unfold BookingTransaction._handle_flight_selection, BookingTransaction.len_available_trips.
  pose proof get_booking_summary_moves. frame.
Qed.

End Handlers.

(** ** The world under a booking step *)

Lemma set_bookings_same w : set_bookings (bookings w) w = w.
Proof. by destruct w. Qed.

#[local] Instance booked_reflexive : Reflexive booked.
Proof. intros w. exists []. by rewrite app_nil_r, set_bookings_same. Qed.

#[local] Instance booked_transitive : Transitive booked.
Proof.
  intros w1 w2 w3 [bs ->] [bs' ->]. exists (bs ++ bs').
  cbn [bookings set_bookings]. by rewrite app_assoc.
Qed.

Lemma moves_create_booking T trip uid cls :
  preserves (moves booked T) (BookingTransaction.create_booking trip uid cls).
Proof.
  intros [w self]. unfold BookingTransaction.create_booking.
  destruct (BookingService.create_booking trip uid cls w) as [r w'] eqn:Hrun.
  split; [|by left]. cbn [fst snd].
  unfold BookingService.create_booking in Hrun.
  destruct cls as [|c| | | |]; try (injection Hrun as _ <-; reflexivity).
  destruct (bool_decide _); [|injection Hrun as _ <-; reflexivity].
  destruct trip as [| | | |t|]; try (injection Hrun as _ <-; reflexivity).
  unfold bind, lift_res in Hrun.
  destruct (BookingService._calculate_total_amount t c); [|injection Hrun as _ <-; reflexivity].
  destruct (booking_insert w _ _ _ _ _ _ _) as [b|e]; injection Hrun as _ <-;
    [by exists [b] | reflexivity].
Qed.

Lemma handle_confirmation_moves m :
  preserves (moves booked [BookingStates.COMPLETE]) (BookingTransaction._handle_confirmation m).
Proof.
  unfold BookingTransaction._handle_confirmation.
  pose proof moves_create_booking. pose proof booked_reflexive. pose proof booked_transitive.
  frame.
Qed.

Lemma moves_weaken (RW RW' : relation World) (T T' : list string) s s' :
  (forall w w', RW w w' -> RW' w w') -> T ⊆ T' -> moves RW T s s' -> moves RW' T' s s'.
Proof.
  intros HR HT [Hw Hs]. split; [by apply HR|].
  destruct Hs as [Hs|Hs]; [by left | right; by apply HT].
Qed.

(** The dispatcher never raises. *)
Lemma process_internal_answers (message : string) (s : BookingTransaction.St) :
  exists response s', BookingTransaction._process_internal message s = (Ok response, s').
Proof.
  destruct s as [w self]. unfold BookingTransaction._process_internal.
  unfold bind at 1. unfold BookingTransaction.self_state. cbv beta iota.
  destruct (BookingTransaction.handlers !! BookingTransaction.state self) as [h|];
    [|by eexists _, _].
  unfold try_except. destruct (h message (w, self)) as [[r|e] [w' self']]; by eexists _, _.
Qed.

(** What the dispatcher does in a state with a handler that moves along
    [RW] to [T]. *)
Lemma process_internal_moves (RW : relation World) `{!Reflexive RW, !Transitive RW}
    (T : list string) (h : string -> M BookingTransaction.St string)
    (message : string) (w : World) (self : BookingTransaction.t) :
  BookingTransaction.handlers !! BookingTransaction.state self = Some h ->
  preserves (moves RW T) (h message) ->
  moves RW (BookingStates.COMPLETE :: T) (w, self)
    (BookingTransaction._process_internal message (w, self)).2.
Proof.
  intros Hh Hmoves. unfold BookingTransaction._process_internal.
  unfold bind at 1. unfold BookingTransaction.self_state. cbv beta iota. rewrite Hh.
  unfold try_except. specialize (Hmoves (w, self)).
  destruct (h message (w, self)) as [[r|e] [w' self']]; cbn [snd fst] in *.
  - eapply moves_weaken; [| |exact Hmoves]; [auto | set_solver].
  - destruct Hmoves as [Hw _]. split; [exact Hw|]. right. cbn. left.
Qed.

(** The handler of a state, by cases. *)
Lemma handler_cases (st : string) (h : string -> M BookingTransaction.St string) :
  BookingTransaction.handlers !! st = Some h ->
  (st = BookingStates.INIT /\ h = BookingTransaction._handle_init) \/
  (st = BookingStates.ORIGIN /\ h = BookingTransaction._handle_origin) \/
  (st = BookingStates.DESTINATION /\ h = BookingTransaction._handle_destination) \/
  (st = BookingStates.OUTBOUND_DATE /\ h = BookingTransaction._handle_outbound_date) \/
  (st = BookingStates.RETURN_DATE /\ h = BookingTransaction._handle_return_date) \/
  (st = BookingStates.TRAVEL_CLASS /\ h = BookingTransaction._handle_travel_class) \/
  (st = BookingStates.FLIGHT_SELECTION /\ h = BookingTransaction._handle_flight_selection) \/
  (st = BookingStates.CONFIRMATION /\ h = BookingTransaction._handle_confirmation).
Proof.
  unfold BookingTransaction.handlers. intros H.
  repeat (apply lookup_insert_Some in H as [[<- <-]|[_ H]]; [tauto|]).
  by rewrite lookup_empty in H.
Qed.

(** In every state but CONFIRMATION the handlers leave the world alone. *)
Lemma pure_handler_keeps_world (st : string) (h : string -> M BookingTransaction.St string)
    (message : string) :
  BookingTransaction.handlers !! st = Some h ->
  st <> BookingStates.CONFIRMATION ->
  exists T, preserves (moves eq T) (h message).
Proof.
  intros Hh Hne.
  destruct (handler_cases st h Hh)
    as [[_ ->]|[[_ ->]|[[_ ->]|[[_ ->]|[[_ ->]|[[_ ->]|[[_ ->]|[-> _]]]]]]]];
    [eexists; apply handle_init_moves; apply _
    |eexists; apply handle_origin_moves; apply _
    |eexists; apply handle_destination_moves; apply _
    |eexists; apply handle_outbound_date_moves; apply _
    |eexists; apply handle_return_date_moves; apply _
    |eexists; apply handle_travel_class_moves; apply _
    |eexists; apply handle_flight_selection_moves; apply _
    |done].
Qed.

(* ===================================================================== *)
(** * 24. The steps of a booking *)
(* ===================================================================== *)

(** In a state that asks for no authentication, [process] is the handler
    of the state as long as the handler returns. *)
Lemma process_by_handler (w : World) (self : BookingTransaction.t) (message : string)
    (st : string) (handler : string -> M BookingTransaction.St string)
    (r : string) (s' : BookingTransaction.St) :
  BookingTransaction.state self = st ->
  st <> BookingStates.CONFIRMATION ->
  BookingTransaction.handlers !! st = Some handler ->
  handler message (w, self) = (Ok r, s') ->
  BookingTransaction.process message (w, self) = (Ok r, s').
Proof.
  intros Hst Hne Hh Hr. rewrite process_without_auth_requirement.
  - apply (process_internal_ok _ _ _ handler); [by rewrite Hst | exact Hr].
  - unfold BookingTransaction.requires_auth. rewrite Hst. by apply String.eqb_neq.
Qed.

Lemma process_by_handler_raise (w : World) (self : BookingTransaction.t) (message : string)
    (st : string) (handler : string -> M BookingTransaction.St string)
    (e : Exn) (w' : World) (self' : BookingTransaction.t) :
  BookingTransaction.state self = st ->
  st <> BookingStates.CONFIRMATION ->
  BookingTransaction.handlers !! st = Some handler ->
  handler message (w, self) = (Raise e, (w', self')) ->
  BookingTransaction.process message (w, self)
  = (Ok "Sorry, something went wrong. Please start a new booking.",
     (w', BookingTransaction.set_state BookingStates.COMPLETE self')).
Proof.
  intros Hst Hne Hh Hr. rewrite process_without_auth_requirement.
  - apply (process_internal_raise _ _ _ handler e); [by rewrite Hst | exact Hr].
  - unfold BookingTransaction.requires_auth. rewrite Hst. by apply String.eqb_neq.
Qed.

(** X8.  The first three steps of a booking.  From state INIT, any three
    messages are answered with the prompts for the departure city, the
    destination city and the outbound date; the booking is then in state
    OUTBOUND_DATE, the trip type is 'ROUNDTRIP' when the first message has
    "round" in it (in any letter case) and 'ONEWAY' otherwise, the second
    and third message are stored as they are (no check, not even for an
    empty text) as origin and destination, and the world is untouched. *)
Theorem booking_opening_steps (w : World) (self : BookingTransaction.t)
    (opening origin destination : string) :
  BookingTransaction.state self = BookingStates.INIT ->
  run_all BookingTransaction.process [opening; origin; destination] (w, self)
  = ([Ok "Please enter your departure city:";
      Ok "Please enter your destination city:";
      Ok "Please enter your outbound date (YYYY-MM-DD):"],
     (w, BookingTransaction.set_state BookingStates.OUTBOUND_DATE
           (BookingTransaction.set_context
              (<["destination" := VStr destination]>
                 (<["origin" := VStr origin]>
                    (<["trip_type" := VStr (if contains "round" (lower opening)
                                            then "ROUNDTRIP" else "ONEWAY")]>
                       (BookingTransaction.context self))))
              self))).
Proof.
  destruct self as [[ctx af paused] clf st]. cbn [BookingTransaction.state].
  intros ->. reflexivity.
Qed.

(** X8 on the booking the factory makes. *)
Lemma booking_opening_steps_witness :
  BookingTransaction.__init__ Examples.world
  = Ok (Examples.booking_in BookingStates.INIT BookingTransaction.initial_context None
          Examples.with_model) /\
  BookingTransaction.state
    (Examples.booking_in BookingStates.INIT BookingTransaction.initial_context None
       Examples.with_model) = BookingStates.INIT /\
  (run_all BookingTransaction.process ["Book a round trip"; "London"; "Paris"]
     (Examples.world,
      Examples.booking_in BookingStates.INIT BookingTransaction.initial_context None
        Examples.with_model)).2.2
  = Examples.booking_in BookingStates.OUTBOUND_DATE
      (<["destination" := VStr "Paris"]>
         (<["origin" := VStr "London"]>
            (<["trip_type" := VStr "ROUNDTRIP"]> BookingTransaction.initial_context)))
      None Examples.with_model.
Proof.
  split; [reflexivity|]. split; [reflexivity|].
  rewrite (booking_opening_steps Examples.world
             (Examples.booking_in BookingStates.INIT BookingTransaction.initial_context None
                Examples.with_model)
             "Book a round trip" "London" "Paris" eq_refl).
  reflexivity.
Defined.



Lemma format_flight_table_reads trips cls (s : BookingTransaction.St) :
  (BookingTransaction._format_flight_table trips cls s).2 = s.
Proof.
  destruct s as [w self]. unfold BookingTransaction._format_flight_table.
  unfold bind at 1. unfold BookingTransaction.ctx_get, getitem.
  destruct (BookingTransaction.context self !! "trip_type") as [tt|]; [|reflexivity].
  destruct (decide (tt = VStr "ONEWAY"));
    unfold bind, lift_res; destruct (BookingTransaction.table_rows _ _ _ _ _); reflexivity.
Qed.



(** X12.  The confirmation step of an authenticated user.  When the
    classifier says "confirmation" and the context holds the selected
    trip and a valid class, [create_booking] is called for the user of
    the session with the price of that class: when the row is inserted
    it is appended to the booking table, the answer carries its
    reference and the booking ends; when the insert fails the answer is
    "I apologize, but I couldn't complete your booking. Please try
    again.", the table is unchanged and the booking ends as well, as it
    does when nothing was selected.  "cancellation" ends the booking
    without a row; any other intent asks again and changes nothing. *)
Theorem confirmation_outcomes (w : World) (self : BookingTransaction.t)
    (message intent : string) :
  BookingTransaction.state self = BookingStates.CONFIRMATION ->
  Auth.is_authenticated w = true ->
  IntentClassifier.predict (BookingTransaction.intent_classifier self) message = Ok intent ->
  (intent = "confirmation" ->
   forall trip cls user total,
     BookingTransaction.context self !! "selected_trip" = Some (VTrip trip) ->
     BookingTransaction.context self !! "travel_class" = Some (VStr cls) ->
     cls ∈ BookingService.VALID_TRAVEL_CLASSES ->
     Auth.current_user w = Some user ->
     BookingService._calculate_total_amount trip cls = Ok total ->
     BookingTransaction.process message (w, self)
     = match booking_insert w (bookings w) (trip_type trip) (id (outbound_flight trip))
               (id <$> return_flight trip) cls (user_id user) total with
       | Ok booking =>
           (Ok ("Great! Your booking is confirmed. Your reference number is: " +:+
                reference booking),
            (set_bookings (bookings w ++ [booking]) w,
             BookingTransaction.set_state BookingStates.COMPLETE self))
       | Raise _ =>
           (Ok "I apologize, but I couldn't complete your booking. Please try again.",
            (w, BookingTransaction.set_state BookingStates.COMPLETE self))
       end) /\
  (intent = "confirmation" ->
   BookingTransaction.context self !! "selected_trip" = Some VNone ->
   BookingTransaction.context self !! "travel_class" = Some VNone ->
   BookingTransaction.process message (w, self)
   = (Ok "I apologize, but I couldn't complete your booking. Please try again.",
      (w, BookingTransaction.set_state BookingStates.COMPLETE self))) /\
  (intent = "cancellation" ->
   BookingTransaction.process message (w, self)
   = (Ok "I've cancelled your booking request. Feel free to start a new booking when you're ready.",
      (w, BookingTransaction.set_state BookingStates.COMPLETE self))) /\
  (intent <> "confirmation" -> intent <> "cancellation" ->
   BookingTransaction.process message (w, self)
   = (Ok "I'm not sure if you want to confirm or cancel the booking. Please let me know clearly - would you like to proceed with this booking?",
      (w, self))).
Proof.
  intros Hst Hauth Hpredict.
  assert (Hh : BookingTransaction.handlers !! BookingTransaction.state self
               = Some BookingTransaction._handle_confirmation) by (by rewrite Hst).
  assert (Hgo : forall r s',
             BookingTransaction._handle_confirmation message (w, self) = (Ok r, s') ->
             BookingTransaction.process message (w, self) = (Ok r, s')).
  { intros r s' Hr. rewrite process_when_authenticated by done.
    by apply (process_internal_ok _ _ _ _ _ _ Hh). }
  assert (Hintent : forall k : string -> M BookingTransaction.St string,
             bind (BookingTransaction.predict message) k (w, self) = k intent (w, self)).
  { intros k. unfold bind, BookingTransaction.predict. by rewrite Hpredict. }
  split; [|split; [|split]].
  - intros -> trip cls user total Htrip Hcls Hvalid Huser Htotal.
    assert (Hbody : BookingTransaction._handle_confirmation message (w, self)
                    = match booking_insert w (bookings w) (trip_type trip)
                              (id (outbound_flight trip)) (id <$> return_flight trip) cls
                              (user_id user) total with
                      | Ok booking =>
                          (Ok ("Great! Your booking is confirmed. Your reference number is: " +:+
                               reference booking),
                           (set_bookings (bookings w ++ [booking]) w,
                            BookingTransaction.set_state BookingStates.COMPLETE self))
                      | Raise _ =>
                          (Ok "I apologize, but I couldn't complete your booking. Please try again.",
                           (w, BookingTransaction.set_state BookingStates.COMPLETE self))
                      end).
    { unfold BookingTransaction._handle_confirmation. rewrite Hintent.
      cbn [String.eqb Ascii.eqb Bool.eqb]. unfold try_except.
      rewrite (bind_ctx_get _ _ _ _ _ Htrip).
      unfold bind at 1. unfold BookingTransaction.current_user_id. rewrite Huser.
      rewrite (bind_ctx_get _ _ _ _ _ Hcls).
      unfold bind at 1. unfold BookingTransaction.create_booking, BookingService.create_booking.
      rewrite bool_decide_eq_true_2 by done.
      unfold bind at 1. rewrite Htotal. cbn [lift_res].
      destruct (booking_insert w _ _ _ _ _ _ _) as [b|e]; reflexivity. }
    destruct (booking_insert w _ _ _ _ _ _ _) as [b|e]; by apply Hgo.
  - intros -> Htrip Hcls. apply Hgo.
    unfold BookingTransaction._handle_confirmation. rewrite Hintent.
    cbn [String.eqb Ascii.eqb Bool.eqb]. unfold try_except.
    rewrite (bind_ctx_get _ _ _ _ _ Htrip).
    unfold bind at 1. unfold BookingTransaction.current_user_id.
    unfold Auth.is_authenticated in Hauth. unfold Auth.current_user.
    destruct (_current_user (auth_service w)) as [u|]; [|discriminate].
    rewrite (bind_ctx_get _ _ _ _ _ Hcls). reflexivity.
  - intros ->. apply Hgo.
    unfold BookingTransaction._handle_confirmation. rewrite Hintent. reflexivity.
  - intros Hno Hnc. apply Hgo.
    unfold BookingTransaction._handle_confirmation. rewrite Hintent.
    destruct (String.eqb_spec intent "confirmation"); [done|].
    destruct (String.eqb_spec intent "cancellation"); [done|]. reflexivity.
Qed.

(** X12 for the user Ann: "yes please" books the selected trip under the
    reference the insert gave, "maybe" changes nothing. *)
Lemma confirmation_outcomes_witness :
  (BookingTransaction.state (Examples.at_confirmation None Examples.with_model)
   = BookingStates.CONFIRMATION /\
   Auth.is_authenticated Examples.world_logged_in = true /\
   IntentClassifier.predict Examples.with_model "yes please" = Ok "confirmation" /\
   BookingService._calculate_total_amount Examples.trip_oneway "ECONOMY"
   = Ok (Decimal.mkDec 12050 (-2)) /\
   (reference <$> bookings
      (BookingTransaction.process "yes please"
         (Examples.world_logged_in, Examples.at_confirmation None Examples.with_model)).2.1)
   = ["AB12CD"]) /\
  (IntentClassifier.predict Examples.with_model "maybe" = Ok "unknown" /\
   (BookingTransaction.process "maybe"
      (Examples.world_logged_in, Examples.at_confirmation None Examples.with_model)).2
   = (Examples.world_logged_in, Examples.at_confirmation None Examples.with_model)).
Proof.
  assert (Hvalid : "ECONOMY" ∈ BookingService.VALID_TRAVEL_CLASSES)
    by (apply (proj1 (bool_decide_eq_true _)); reflexivity).
  split.
  - split; [reflexivity|]. split; [reflexivity|]. split; [reflexivity|].
    split; [reflexivity|].
    rewrite (proj1 (confirmation_outcomes Examples.world_logged_in
                      (Examples.at_confirmation None Examples.with_model)
                      "yes please" "confirmation" eq_refl eq_refl eq_refl)
               eq_refl Examples.trip_oneway "ECONOMY" Examples.ann (Decimal.mkDec 12050 (-2))
               eq_refl eq_refl Hvalid eq_refl eq_refl).
    reflexivity.
  - split; [reflexivity|].
    rewrite (proj2 (proj2 (proj2 (confirmation_outcomes Examples.world_logged_in
                                    (Examples.at_confirmation None Examples.with_model)
                                    "maybe" "unknown" eq_refl eq_refl eq_refl)))
               ltac:(discriminate) ltac:(discriminate)).
    reflexivity.
Defined.



(** The rows of the table, by position: the row of the [i]-th trip is
    numbered [idx + i] and is followed by a separator. *)
Lemma table_rows_by_position row sep (trips : list Trip) cls :
  forall idx rows,
    BookingTransaction.table_rows row sep idx trips cls = Ok rows ->
    length rows = (2 * length trips)%nat /\
    forall (i : nat) trip,
      trips !! i = Some trip ->
      exists r, row (idx + Z.of_nat i) trip cls = Ok r /\
                rows !! (2 * i)%nat = Some r /\
                rows !! (2 * i + 1)%nat = Some sep.
Proof.
  induction trips as [|t rest IH]; intros idx rows Hrows.
  - injection Hrows as <-. split; [reflexivity|]. intros i trip Hi. discriminate Hi.
  - cbn [BookingTransaction.table_rows] in Hrows.
    destruct (row idx t cls) as [r|] eqn:Hr; [|discriminate].
    destruct (BookingTransaction.table_rows row sep (idx + 1) rest cls) as [rs|] eqn:Hrs;
      [|discriminate].
    injection Hrows as <-. destruct (IH _ _ Hrs) as [Hlen Hpos]. split.
    + cbn [length]. rewrite Hlen. lia.
    + intros [|i] trip Hi.
      * injection Hi as <-. exists r. rewrite Z.add_0_r. by split.
      * cbn [lookup list_lookup] in Hi. destruct (Hpos i trip Hi) as (r' & Hr' & H1 & H2).
        exists r'. replace (idx + Z.of_nat (S i)) with (idx + 1 + Z.of_nat i) by lia.
        split; [done|].
        replace (2 * S i)%nat with (S (S (2 * i))) by lia.
        replace (2 * S i + 1)%nat with (S (S (2 * i + 1))) by lia.
        by split.
Qed.



(* ===================================================================== *)
(** * 25. The booking as a state machine *)
(* ===================================================================== *)

(** [process] of a booking never raises. *)
Lemma booking_process_answers (message : string) (s : BookingTransaction.St) :
  exists response s', BookingTransaction.process message s = (Ok response, s').
Proof.
  destruct s as [w self].
  destruct (BookingTransaction.requires_auth self) eqn:Hreq.
  2:{ rewrite process_without_auth_requirement by done. apply process_internal_answers. }
  destruct (Auth.is_authenticated w) eqn:Hauth.
  { rewrite process_when_authenticated by done. apply process_internal_answers. }
  apply requires_auth_iff in Hreq.
  destruct (BookingTransaction.auth_flow self) as [flow|] eqn:Hflow.
  - destruct (paused_step w self flow message Hreq Hauth Hflow)
      as (response & w' & flow' & _ & Hrun & _). rewrite Hrun. by eexists _, _.
  - rewrite (paused_first_call w self message Hreq Hauth Hflow). by eexists _, _.
Qed.

Lemma booking_process_keeps_world (message : string) (w : World) (self : BookingTransaction.t) :
  BookingTransaction.state self <> BookingStates.CONFIRMATION ->
  (BookingTransaction.process message (w, self)).2.1 = w.
Proof.
  intros Hne. rewrite process_without_auth_requirement.
  2:{ unfold BookingTransaction.requires_auth. by apply String.eqb_neq. }
  destruct (BookingTransaction.handlers !! BookingTransaction.state self) as [h|] eqn:Hh.
  - destruct (pure_handler_keeps_world _ h message Hh Hne) as [T HT].
    by destruct (process_internal_moves eq T h message w self Hh HT) as [<- _].
  - unfold BookingTransaction._process_internal. unfold bind at 1.
    unfold BookingTransaction.self_state. cbv beta iota. rewrite Hh. reflexivity.
Qed.

(** Where a booking step can touch the world. *)
Lemma world_changes_only_in_confirmation_parts (w : World) (self : BookingTransaction.t)
    (message : string) :
  (BookingTransaction.state self <> BookingStates.CONFIRMATION ->
   (BookingTransaction.process message (w, self)).2.1 = w) /\
  (BookingTransaction.state self = BookingStates.CONFIRMATION ->
   Auth.is_authenticated w = false ->
   bookings (BookingTransaction.process message (w, self)).2.1 = bookings w) /\
  (BookingTransaction.state self = BookingStates.CONFIRMATION ->
   Auth.is_authenticated w = true ->
   exists rows,
     (BookingTransaction.process message (w, self)).2.1 = set_bookings (bookings w ++ rows) w).
Proof.
  split; [apply booking_process_keeps_world|]. split.
  - intros Hst Hauth.
    destruct (BookingTransaction.auth_flow self) as [flow|] eqn:Hflow.
    + destruct (paused_step w self flow message Hst Hauth Hflow)
        as (response & w' & flow' & _ & Hrun & Hbook & _). by rewrite Hrun.
    + by rewrite (paused_first_call w self message Hst Hauth Hflow).
  - intros Hst Hauth. rewrite process_when_authenticated by done.
    assert (Hh : BookingTransaction.handlers !! BookingTransaction.state self
                 = Some BookingTransaction._handle_confirmation) by (by rewrite Hst).
    by destruct (process_internal_moves booked _ _ message w self Hh
                   (handle_confirmation_moves message)) as [Hw _].
Qed.

(** X14.  Where a booking can touch the world.  In every state but
    CONFIRMATION, [process] leaves the world exactly as it was: users,
    session and bookings.  In CONFIRMATION with nobody logged in the
    booking table is unchanged; in CONFIRMATION with a user logged in the
    only change there can be is rows appended to the booking table. *)
Theorem world_changes_only_in_confirmation (w : World) (self : BookingTransaction.t)
    (message : string) :
  (BookingTransaction.state self <> BookingStates.CONFIRMATION ->
   (BookingTransaction.process message (w, self)).2.1 = w) /\
  (BookingTransaction.state self = BookingStates.CONFIRMATION ->
   Auth.is_authenticated w = false ->
   bookings (BookingTransaction.process message (w, self)).2.1 = bookings w) /\
  (BookingTransaction.state self = BookingStates.CONFIRMATION ->
   Auth.is_authenticated w = true ->
   exists rows,
     (BookingTransaction.process message (w, self)).2.1 = set_bookings (bookings w ++ rows) w).
Proof. apply world_changes_only_in_confirmation_parts. Qed.

(** X14 on a choice of flight, on a confirmation by a guest, and on a
    confirmation by Ann. *)
Lemma world_changes_only_in_confirmation_witness :
  (BookingTransaction.state Examples.at_selection <> BookingStates.CONFIRMATION /\
   (BookingTransaction.process "1" (Examples.world, Examples.at_selection)).2.1
   = Examples.world) /\
  (BookingTransaction.state (Examples.at_confirmation None Examples.with_model)
   = BookingStates.CONFIRMATION /\
   Auth.is_authenticated Examples.world = false /\
   bookings (BookingTransaction.process "yes"
               (Examples.world, Examples.at_confirmation None Examples.with_model)).2.1 = []) /\
  (Auth.is_authenticated Examples.world_logged_in = true /\
   length (bookings (BookingTransaction.process "yes"
                       (Examples.world_logged_in,
                        Examples.at_confirmation None Examples.with_model)).2.1) = 1%nat).
Proof.
  split; [|split].
  - assert (Hne : BookingTransaction.state Examples.at_selection <> BookingStates.CONFIRMATION)
      by discriminate.
    split; [exact Hne|].
    exact (proj1 (world_changes_only_in_confirmation Examples.world Examples.at_selection "1")
             Hne).
  - split; [reflexivity|]. split; [reflexivity|].
    exact (proj1 (proj2 (world_changes_only_in_confirmation Examples.world
                           (Examples.at_confirmation None Examples.with_model) "yes"))
             eq_refl eq_refl).
  - split; [reflexivity|].
    destruct (proj2 (proj2 (world_changes_only_in_confirmation Examples.world_logged_in
                              (Examples.at_confirmation None Examples.with_model) "yes"))
                eq_refl eq_refl) as [rows Hrows].
    reflexivity.
Defined.

(** The tables of states with and without a handler agree. *)
Lemma no_handler_no_transition (st : string) :
  transitions !! st = None ->
  BookingTransaction.handlers !! st = None /\ st <> BookingStates.CONFIRMATION.
Proof.
  unfold transitions, BookingTransaction.handlers. intros H.
  repeat (apply lookup_insert_None in H as [H ?]).
  split; [|done]. by rewrite !lookup_insert_ne.
Qed.

Ltac list_subset :=
  let x := fresh "x" in
  let Hx := fresh "Hx" in
  intros x Hx;
  repeat (apply elem_of_cons in Hx as [->|Hx]; [repeat constructor|]);
  by apply elem_of_nil in Hx.

(** X15.  The transition graph of the booking dialog.  After one
    message the state is one of the successors listed for the state
    before: INIT, ORIGIN and DESTINATION always move on; the later states
    stay, move on to the next step (OUTBOUND_DATE to RETURN_DATE or
    TRAVEL_CLASS) or end in COMPLETE; no step ever leads back.  In
    COMPLETE, and in any state without a handler, [process] answers "An
    error occurred in the booking process." and changes nothing. *)
Theorem booking_state_transitions (w : World) (self : BookingTransaction.t)
    (message : string) :
  match transitions !! BookingTransaction.state self with
  | Some successors =>
      BookingTransaction.state (BookingTransaction.process message (w, self)).2.2 ∈ successors
  | None =>
      BookingTransaction.process message (w, self)
      = (Ok "An error occurred in the booking process.", (w, self))
  end.
Proof.
  destruct (transitions !! BookingTransaction.state self) as [T|] eqn:HT.
  2:{ destruct (no_handler_no_transition _ HT) as [Hh Hne].
      rewrite process_without_auth_requirement.
      2:{ unfold BookingTransaction.requires_auth. by apply String.eqb_neq. }
      unfold BookingTransaction._process_internal. unfold bind at 1.
      unfold BookingTransaction.self_state. cbv beta iota. rewrite Hh. reflexivity. }
  assert (Hstep : forall (RW : relation World) `{!Reflexive RW, !Transitive RW} h targets,
             BookingTransaction.state self <> BookingStates.CONFIRMATION ->
             BookingTransaction.handlers !! BookingTransaction.state self = Some h ->
             preserves (moves RW targets) (h message) ->
             BookingTransaction.state self :: BookingStates.COMPLETE :: targets ⊆ T ->
             BookingTransaction.state (BookingTransaction.process message (w, self)).2.2 ∈ T).
  { intros RW ? ? h targets Hne Hh Hmoves Hsub.
    rewrite process_without_auth_requirement.
    2:{ unfold BookingTransaction.requires_auth. by apply String.eqb_neq. }
    destruct (process_internal_moves RW targets h message w self Hh Hmoves) as [_ [Hs|Hs]];
      apply Hsub; [rewrite Hs; left | by right]. }
  unfold transitions in HT.
  repeat (apply lookup_insert_Some in HT as [[Hst <-]|[_ HT]]; [|]);
    [..|by rewrite lookup_empty in HT].
  - destruct self as [[ctx af paused] clf st]. cbn in Hst. subst st. cbn. left.
  - destruct self as [[ctx af paused] clf st]. cbn in Hst. subst st. cbn. left.
  - destruct self as [[ctx af paused] clf st]. cbn in Hst. subst st. cbn. left.
  - apply (Hstep eq _ _ _ _ ltac:(by rewrite <- Hst) ltac:(by rewrite <- Hst)
             (handle_outbound_date_moves eq message)).
    rewrite <- Hst. list_subset.
  - apply (Hstep eq _ _ _ _ ltac:(by rewrite <- Hst) ltac:(by rewrite <- Hst)
             (handle_return_date_moves eq message)).
    rewrite <- Hst. list_subset.
  - apply (Hstep eq _ _ _ _ ltac:(by rewrite <- Hst) ltac:(by rewrite <- Hst)
             (handle_travel_class_moves eq message)).
    rewrite <- Hst. list_subset.
  - apply (Hstep eq _ _ _ _ ltac:(by rewrite <- Hst) ltac:(by rewrite <- Hst)
             (handle_flight_selection_moves eq message)).
    rewrite <- Hst. list_subset.
  - symmetry in Hst. destruct (Auth.is_authenticated w) eqn:Hauth.
    + rewrite process_when_authenticated by done.
      assert (Hh : BookingTransaction.handlers !! BookingTransaction.state self
                   = Some BookingTransaction._handle_confirmation) by (by rewrite Hst).
      destruct (process_internal_moves booked _ _ message w self Hh
                  (handle_confirmation_moves message)) as [_ [Hs|Hs]]; cbn [snd] in Hs.
      * rewrite Hs, Hst. left.
      * apply elem_of_cons in Hs as [Hs|Hs]; [rewrite Hs; right; left|].
        apply list_elem_of_singleton in Hs. rewrite Hs. right; left.
    + destruct (BookingTransaction.auth_flow self) as [flow|] eqn:Hflow.
      * destruct (paused_step w self flow message Hst Hauth Hflow)
          as (response & w' & flow' & _ & Hrun & _). rewrite Hrun.
        destruct self as [[ctx af paused] clf st]. cbn in Hst. subst st. cbn. left.
      * rewrite (paused_first_call w self message Hst Hauth Hflow).
        destruct self as [[ctx af paused] clf st]. cbn in Hst. subst st. cbn. left.
Qed.

(* ===================================================================== *)
(** * 26. The session controller and the chat loop *)
(* ===================================================================== *)

#[local] Instance grows_reflexive : Reflexive grows.
Proof. intros w. by split. Qed.

#[local] Instance grows_transitive : Transitive grows.
Proof.
  intros w1 w2 w3 [] []. split; try congruence; etransitivity; eassumption.
Qed.

Lemma grows_set_auth_service a w : grows w (set_auth_service a w).
Proof. by split. Qed.

Lemma grows_add_user u w : grows w (set_users (users w ++ [u]) w).
Proof. split; try done. cbn. by apply prefix_app_r. Qed.

Lemma grows_booked w w' : booked w w' -> grows w w'.
Proof. intros [bs ->]. split; try done. cbn. by apply prefix_app_r. Qed.

Lemma login_grows email pw w : grows w (Auth.login email pw w).2.
Proof.
  unfold Auth.login. destruct email as [em|]; [|reflexivity].
  destruct (Auth.find_user em (users w)); [|reflexivity].
  destruct (String.eqb _ _); [apply grows_set_auth_service | reflexivity].
Qed.

Lemma register_grows nm email pw w : grows w (Auth.register nm email pw w).2.
Proof.
  unfold Auth.register.
  destruct email as [em|], pw as [p|]; try destruct (Auth.find_user em (users w));
    try reflexivity.
  cbn [snd]. etransitivity; [apply grows_add_user | apply grows_set_auth_service].
Qed.

(** Every call of the flow leaves a world that has grown at most. *)
Lemma auth_flow_grows (message : string) (w : World) (flow : AuthFlow.t) :
  grows w (AuthFlow.process message (w, flow)).2.1.
Proof.
  destruct flow as [st [act em pw nm]].
  unfold AuthFlow.process. run_m.
  destruct (String.eqb st AuthFlowStates.INIT).
  { unfold AuthFlow._handle_init. destruct (_ || _); reflexivity. }
  destruct (String.eqb st AuthFlowStates.AWAITING_EMAIL); [reflexivity|].
  destruct (String.eqb st AuthFlowStates.AWAITING_PASSWORD).
  { unfold AuthFlow._handle_password. run_m.
    destruct (decide (act = Some "login")); [|reflexivity].
    unfold bind at 1. unfold AuthFlow.auth_login.
    pose proof (login_grows em message w) as Hg.
    destruct (Auth.login em message w) as [[[|] msg] w']; exact Hg. }
  destruct (String.eqb st AuthFlowStates.AWAITING_NAME); [|reflexivity].
  unfold AuthFlow._handle_name. run_m.
  unfold bind at 1. unfold AuthFlow.auth_register.
  pose proof (register_grows message em pw w) as Hg.
  destruct (Auth.register message em pw w) as [[[|] msg] w']; exact Hg.
Qed.

Lemma booking_process_grows (message : string) (w : World) (self : BookingTransaction.t) :
  grows w (BookingTransaction.process message (w, self)).2.1.
Proof.
  destruct (world_changes_only_in_confirmation_parts w self message) as (Hpure & Hflow & Hbook).
  destruct (decide (BookingTransaction.state self = BookingStates.CONFIRMATION)) as [Hst|Hst].
  2:{ rewrite (Hpure Hst). reflexivity. }
  destruct (Auth.is_authenticated w) eqn:Hauth.
  { apply grows_booked. by apply Hbook. }
  destruct (BookingTransaction.auth_flow self) as [flow|] eqn:Haf.
  - destruct (paused_step w self flow message Hst Hauth Haf)
      as (response & w' & flow' & Hproc & Hrun & _).
    rewrite Hrun. cbn [snd fst].
    pose proof (auth_flow_grows message w flow) as Hg. by rewrite Hproc in Hg.
  - rewrite (paused_first_call w self message Hst Hauth Haf). reflexivity.
Qed.

(** A transaction of either kind always answers, and the world grows at
    most. *)
Lemma transaction_process_answers (message : string) (w : World) (tx : Transaction) :
  exists response w' tx',
    TransactionM.process message (w, tx) = (Ok response, (w', tx')) /\ grows w w'.
Proof.
  destruct tx as [b|s]; unfold TransactionM.process.
  - destruct (booking_process_answers message (w, b)) as (response & [w' b'] & Hrun).
    pose proof (booking_process_grows message w b) as Hg.
    rewrite Hrun in *. by eexists _, _, _.
  - unfold StatusTransaction.process.
    destruct (negb _); by eexists _, _, _.
Qed.

Lemma active_transaction_answers (w : World) (cb : FlightBookingChatbot.t)
    (tx : Transaction) (message : string) :
  FlightBookingChatbot.active_transaction cb = Some tx ->
  exists (response : string) (w' : World) (tx' : Transaction),
    TransactionM.process message (w, tx) = (Ok response, (w', tx')) /\
    FlightBookingChatbot.process_message message (w, cb)
    = (Ok response,
       (w', FlightBookingChatbot.set_current_transaction
              (if TransactionM.is_complete tx' then None else Some tx') cb)).
Proof.
  intros Hact.
  destruct (transaction_process_answers message w tx) as (response & w' & tx' & Hrun & _).
  exists response, w', tx'. split; [exact Hrun|].
  by apply forwarded_completion_clears_slot with tx.
Qed.

(** The classes of the factory. *)
Lemma create_transaction_cases (intent : string) (w : World) :
  TransactionFactory.create_transaction intent w
  = if decide (intent = "booking") then
      match model_source w with
      | Ok p =>
          Ok (Some (Booking (BookingTransaction.mk
                               (BaseTransaction.set_context BookingTransaction.initial_context
                                  BaseTransaction.__init__)
                               (IntentClassifier.mk (Some p)) BookingStates.INIT)))
      | Raise e => Raise e
      end
    else if decide (intent = "status") then Ok (Some (Status StatusTransaction.__init__))
    else Ok None.
Proof.
  unfold TransactionFactory.create_transaction, TransactionFactory._transactions.
  destruct (decide (intent = "booking")) as [->|Hb].
  { rewrite lookup_insert_eq. unfold BookingTransaction.__init__, IntentClassifier.__init__.
    by destruct (model_source w). }
  rewrite lookup_insert_ne by done.
  destruct (decide (intent = "status")) as [->|Hs].
  { by rewrite lookup_insert_eq. }
  by rewrite lookup_insert_ne, lookup_empty.
Qed.

Lemma process_message_raises (w : World)
    (cb : FlightBookingChatbot.t) (message : string) (e : Exn)
    (s' : FlightBookingChatbot.St) :
  FlightBookingChatbot.process_message message (w, cb) = (Raise e, s') <->
  FlightBookingChatbot.active_transaction cb = None /\
  (FlightBookingChatbot._get_intent message (w, cb)).1 = Ok "booking" /\
  model_source w = Raise e /\
  s' = (w, cb).
Proof.
  destruct (FlightBookingChatbot.active_transaction cb) as [tx|] eqn:Hact.
  { destruct (active_transaction_answers w cb tx message Hact)
      as (response & w' & tx' & _ & Hrun).
    rewrite Hrun. split; [discriminate | intros [? _]; discriminate]. }
  rewrite (process_message_new w cb message _ Hact
             ltac:(rewrite get_intent_result; reflexivity)).
  rewrite get_intent_result. cbn [fst].
  set (intent := match IntentClassifier.predict _ _ with Ok i => i | Raise _ => "unknown" end).
  rewrite create_transaction_cases.
  destruct (decide (intent = "booking")) as [Hb|Hb].
  - destruct (model_source w) as [p|e0].
    + unfold FlightBookingChatbot.run_transaction.
      destruct (transaction_process_answers message w
                  (Booking (BookingTransaction.mk
                              (BaseTransaction.set_context BookingTransaction.initial_context
                                 BaseTransaction.__init__)
                              (IntentClassifier.mk (Some p)) BookingStates.INIT)))
        as (response & w' & tx' & Hrun & _).
      rewrite Hrun. split; [discriminate | intros (_ & _ & ? & _); discriminate].
    + split.
      * intros [= <- <-]. by rewrite Hb.
      * intros (_ & _ & [= <-] & ->). reflexivity.
  - assert (Hno : Ok (A := string) intent <> Ok "booking") by congruence.
    destruct (decide (intent = "status")).
    + unfold FlightBookingChatbot.run_transaction.
      destruct (transaction_process_answers message w (Status StatusTransaction.__init__))
        as (response & w' & tx' & Hrun & _).
      rewrite Hrun. split; [discriminate | intros (_ & ? & _); done].
    + split; [discriminate | intros (_ & ? & _); done].
Qed.


Lemma process_message_grows (w : World) (cb : FlightBookingChatbot.t) (message : string) :
  grows w (FlightBookingChatbot.process_message message (w, cb)).2.1.
Proof.
  destruct (FlightBookingChatbot.active_transaction cb) as [tx|] eqn:Hact.
  { destruct (transaction_process_answers message w tx) as (response & w' & tx' & Hrun & Hg).
    by rewrite (forwarded_completion_clears_slot w w' cb tx tx' message response Hact Hrun). }
  rewrite (process_message_new w cb message _ Hact
             ltac:(rewrite get_intent_result; reflexivity)).
  destruct (TransactionFactory.create_transaction _ w) as [[tx|]|e]; [|reflexivity..].
  unfold FlightBookingChatbot.run_transaction.
  destruct (transaction_process_answers message w tx) as (response & w' & tx' & Hrun & Hg).
  by rewrite Hrun.
Qed.


(** X18.  A turn only appends.  Whatever the message and the state of
    the chatbot, after [process_message] the user table and the booking
    table start with the rows they had before, in the same order: no row
    is ever removed or changed by the dialog. *)
Theorem turn_only_appends (w : World) (cb : FlightBookingChatbot.t) (message : string) :
  users w `prefix_of` users (FlightBookingChatbot.process_message message (w, cb)).2.1 /\
  bookings w `prefix_of` bookings (FlightBookingChatbot.process_message message (w, cb)).2.1.
Proof. destruct (process_message_grows w cb message). by split. Qed.



(** ** The chat loop *)

Lemma chat_loop_app (pre post : list FlightBookingChatbot.Input)
    (s : FlightBookingChatbot.St) :
  FlightBookingChatbot.chat_loop (pre ++ post) s
  = let '(out, (s', ended)) := FlightBookingChatbot.chat_loop pre s in
    if ended then (out, (s', true))
    else let '(out', r) := FlightBookingChatbot.chat_loop post s' in (out ++ out', r).
Proof.
  revert s. induction pre as [|i pre IH]; intros s.
  - cbn [app FlightBookingChatbot.chat_loop].
    by destruct (FlightBookingChatbot.chat_loop post s) as [out' r].
  - cbn [app FlightBookingChatbot.chat_loop]. destruct i as [text| |].
    + destruct (bool_decide _); [reflexivity|].
      destruct (FlightBookingChatbot.process_message _ s) as [[response|e] [w' self']].
      * rewrite IH. destruct (FlightBookingChatbot.chat_loop pre _) as [out [s2 [|]]];
          [reflexivity|].
        by destruct (FlightBookingChatbot.chat_loop post s2) as [out' r].
      * rewrite IH. destruct (FlightBookingChatbot.chat_loop pre _) as [out [s2 [|]]];
          [reflexivity|].
        by destruct (FlightBookingChatbot.chat_loop post s2) as [out' r].
    + reflexivity.
    + destruct s as [w self]. rewrite IH.
      destruct (FlightBookingChatbot.chat_loop pre _) as [out [s2 [|]]]; [reflexivity|].
      by destruct (FlightBookingChatbot.chat_loop post s2) as [out' r].
Qed.





(* ===================================================================== *)
(** * 27. Prices and trip types *)
(* ===================================================================== *)

Lemma base_trip_price_cases (trip : Trip) :
  TripM._calculate_base_trip_price trip
  = if decide (trip_type trip = "ONEWAY") then
      Ok (Decimal.mul (base_price (outbound_flight trip)) (Decimal.mkDec 10 (-1)))
    else if decide (trip_type trip = "ROUNDTRIP") then
      Ok (Decimal.mul
            (match return_flight trip with
             | Some rf => Decimal.add (base_price (outbound_flight trip)) (base_price rf)
             | None => base_price (outbound_flight trip)
             end) (Decimal.mkDec 9 (-1)))
    else Raise (KeyError (trip_type trip)).
Proof.
  unfold TripM._calculate_base_trip_price, getitem, Rates.TRIP_TYPE_RATES.
  destruct (decide (trip_type trip = "ONEWAY")) as [He|Hone].
  { rewrite He, lookup_insert_eq. by destruct (return_flight trip). }
  rewrite lookup_insert_ne by done.
  destruct (decide (trip_type trip = "ROUNDTRIP")) as [He|Hround].
  { rewrite He, lookup_insert_eq. by destruct (return_flight trip). }
  by rewrite lookup_insert_ne, lookup_empty.
Qed.



(** In cents: nine tenths of the sum, rounded, against the sum of the
    rounded parts. *)
Lemma discount_in_cents (a b rate : Z) :
  0 <= a -> 0 <= b -> rate = 10 \/ rate = 18 \/ rate = 25 ->
  Decimal.div_half_even (9 * (a + b) * rate) 100
  <= Decimal.div_half_even (10 * a * rate) 100 + Decimal.div_half_even (10 * b * rate) 100.
Proof.
  intros Ha Hb Hrate.
  destruct (Z_lt_le_dec (a + b) 6) as [Hsmall|Hlarge].
  - assert (a = 0 \/ a = 1 \/ a = 2 \/ a = 3 \/ a = 4 \/ a = 5) as Has by lia.
    assert (b = 0 \/ b = 1 \/ b = 2 \/ b = 3 \/ b = 4 \/ b = 5) as Hbs by lia.
    repeat (destruct Has as [->|Has]); try subst a;
      repeat (destruct Hbs as [->|Hbs]); try subst b;
      repeat (destruct Hrate as [->|Hrate]); try subst rate;
      vm_compute; discriminate.
  - pose proof (div_half_even_spec (9 * (a + b) * rate) 100 ltac:(lia)) as H1.
    pose proof (div_half_even_spec (10 * a * rate) 100 ltac:(lia)) as H2.
    pose proof (div_half_even_spec (10 * b * rate) 100 ltac:(lia)) as H3.
    cbv zeta in *.
    repeat (destruct Hrate as [->|Hrate]); try subst rate; lia.
Qed.

Lemma div_half_even_scale (k n d : Z) :
  0 < k -> 0 < d -> Decimal.div_half_even (k * n) (k * d) = Decimal.div_half_even n d.
Proof.
  intros Hk Hd. unfold Decimal.div_half_even.
  rewrite Z.div_mul_cancel_l, Zmult_mod_distr_l by lia.
  destruct (Z.ltb_spec (2 * (n mod d)) d), (Z.ltb_spec (2 * (k * (n mod d))) (k * d));
    try nia.
  destruct (Z.ltb_spec d (2 * (n mod d))), (Z.ltb_spec (k * d) (2 * (k * (n mod d))));
    try nia; reflexivity.
Qed.

Lemma div_half_even_exact (k d : Z) : 0 < d -> Decimal.div_half_even (k * d) d = k.
Proof.
  intros Hd. unfold Decimal.div_half_even.
  rewrite Z.div_mul, Z_mod_mult by lia.
  destruct (Z.ltb_spec (2 * 0) d); [done | lia].
Qed.

(** A non-negative amount with at most four decimal places, rounded to
    two: the number of cents. *)
Lemma round_to_cents (c e : Z) :
  0 <= c -> -4 <= e ->
  Decimal.round (Decimal.mkDec c e) 2
  = Decimal.mkDec (Decimal.div_half_even (c * 10 ^ (e + 4)) 100) (-2).
Proof.
  intros Hc He. unfold Decimal.round, Decimal.quantize.
  cbn [Decimal.exponent Decimal.coefficient]. change (- (2)) with (-2).
  destruct (Z.leb_spec (-2) e) as [Hle|Hlt].
  - f_equal. replace (e + 4) with ((e - -2) + 2) by lia.
    rewrite Z.pow_add_r by lia. change (10 ^ 2) with 100.
    rewrite Z.mul_assoc. by rewrite div_half_even_exact.
  - f_equal. rewrite Z.abs_eq by done.
    assert (Hsgn : forall q, 0 < q ->
                             Z.sgn c * Decimal.div_half_even c q
                             = Decimal.div_half_even c q).
    { intros q Hq. destruct (Z.eq_dec c 0) as [->|Hne].
      - by rewrite div_half_even_0.
      - rewrite Z.sgn_pos by lia. lia. }
    rewrite Hsgn by (apply Z.pow_pos_nonneg; lia).
    assert (e = -3 \/ e = -4) as [->| ->] by lia.
    + change (10 ^ (-2 - -3)) with 10. change (10 ^ (-3 + 4)) with 10.
      rewrite <- (div_half_even_scale 10 c 10) by lia. f_equal. lia.
    + change (10 ^ (-2 - -4)) with 100. change (10 ^ (-4 + 4)) with 1. f_equal. lia.
Qed.



(* ===================================================================== *)
(** * 28. The booking service *)
(* ===================================================================== *)

(** ** Booking references *)

Lemma choice_chars (g : Random.t) :
  exists c,
    Random.choice BookingService.chars g
    = (Ok c, Random.mk (Random.outcomes g) (S (Random.taken g))) /\
    c ∈ list_ascii_of_string BookingService.chars.
Proof.
  unfold Random.choice, BookingService.chars. cbn [String.length].
  unfold bind, Random._randbelow.
  set (i := (Random.outcomes g (Random.taken g) mod 36)%nat).
  assert (Hi : (i < 36)%nat) by (apply Nat.mod_upper_bound; discriminate).
  clearbody i.
  do 36 (destruct i as [|i]; [eexists; split; [reflexivity|cbn; repeat constructor]|]).
  lia.
Qed.

Lemma join_choices_spec (n : nat) (g : Random.t) :
  exists s,
    BookingService.join_choices n g
    = (Ok s, Random.mk (Random.outcomes g) (n + Random.taken g)) /\
    String.length s = n /\
    forall c, c ∈ list_ascii_of_string s -> c ∈ list_ascii_of_string BookingService.chars.
Proof.
  revert g. induction n as [|n IH]; intros g.
  - exists EmptyString. destruct g. split; [reflexivity|]. split; [reflexivity|].
    intros c Hc. by apply elem_of_nil in Hc.
  - cbn [BookingService.join_choices]. unfold bind at 1.
    destruct (choice_chars g) as (c & -> & Hc).
    unfold bind at 1.
    destruct (IH (Random.mk (Random.outcomes g) (S (Random.taken g)))) as (s & -> & Hlen & Hs).
    exists (String c s). cbn [Random.outcomes Random.taken ret].
    split; [by rewrite Nat.add_succ_r|]. split; [by cbn; rewrite Hlen|].
    intros x Hx. cbn in Hx. apply elem_of_cons in Hx as [->|Hx]; [exact Hc | by apply Hs].
Qed.

Lemma reference_exists_spec (ref : string) (bs : list BookingInfo) :
  BookingService.reference_exists ref bs = true <-> ref ∈ reference <$> bs.
Proof.
  unfold BookingService.reference_exists. rewrite existsb_exists, list_elem_of_fmap.
  split.
  - intros (b & Hin & Heq). apply String.eqb_eq in Heq. exists b.
    split; [done | by apply list_elem_of_In].
  - intros (b & -> & Hin). exists b. split; [by apply list_elem_of_In | apply String.eqb_refl].
Qed.

(** The [k]-th candidate drawn, and the generator after it. *)
Lemma generate_reference_sound (fuel : nat) (bs : list BookingInfo) (g g' : Random.t)
    (ref : string) :
  BookingService._generate_reference fuel bs g = (Ok (Some ref), g') ->
  String.length ref = BookingService.REFERENCE_LENGTH /\
  (forall c, c ∈ list_ascii_of_string ref -> c ∈ list_ascii_of_string BookingService.chars) /\
  ref ∉ reference <$> bs.
Proof.
  revert g. induction fuel as [|fuel IH]; intros g; [discriminate|].
  cbn [BookingService._generate_reference]. unfold bind at 1.
  destruct (join_choices_spec BookingService.REFERENCE_LENGTH g) as (s & -> & Hlen & Hs).
  destruct (BookingService.reference_exists s bs) eqn:Hex; cbn [negb].
  - apply IH.
  - intros [= <- <-]. split; [done|]. split; [done|].
    intros Hin. apply reference_exists_spec in Hin. congruence.
Qed.

Lemma generate_reference_progress (rounds : nat) :
  forall (fuel : nat) (bs : list BookingInfo) (g : Random.t),
    (forall j, (j < rounds)%nat ->
       exists c, (BookingService.join_choices BookingService.REFERENCE_LENGTH
                    (Random.mk (Random.outcomes g)
                       (BookingService.REFERENCE_LENGTH * j + Random.taken g))).1 = Ok c /\
                 BookingService.reference_exists c bs = true) ->
    forall c,
      (BookingService.join_choices BookingService.REFERENCE_LENGTH
         (Random.mk (Random.outcomes g)
            (BookingService.REFERENCE_LENGTH * rounds + Random.taken g))).1 = Ok c ->
      BookingService.reference_exists c bs = false ->
      (rounds < fuel)%nat ->
      BookingService._generate_reference fuel bs g
      = (Ok (Some c),
         Random.mk (Random.outcomes g)
           (BookingService.REFERENCE_LENGTH * S rounds + Random.taken g)).
Proof.
  induction rounds as [|rounds IH]; intros fuel bs g Hbefore c Hc Hfresh Hfuel.
  - destruct fuel as [|fuel]; [lia|].
    cbn [BookingService._generate_reference]. unfold bind at 1.
    destruct (join_choices_spec BookingService.REFERENCE_LENGTH g) as (s & Hs & _).
    rewrite Nat.mul_0_r in Hc. cbn [Nat.add] in Hc.
    replace (Random.mk (Random.outcomes g) (Random.taken g)) with g in Hc by (by destruct g).
    rewrite Hs in *. cbn [fst] in Hc. injection Hc as ->.
    rewrite Hfresh. cbn [negb ret]. repeat (f_equal; try lia).
  - destruct fuel as [|fuel]; [lia|].
    cbn [BookingService._generate_reference]. unfold bind at 1.
    destruct (join_choices_spec BookingService.REFERENCE_LENGTH g) as (s & Hs & _).
    rewrite Hs.
    destruct (Hbefore 0%nat ltac:(lia)) as (c0 & Hc0 & Hex0).
    rewrite Nat.mul_0_r in Hc0. cbn [Nat.add] in Hc0.
    replace (Random.mk (Random.outcomes g) (Random.taken g)) with g in Hc0 by (by destruct g).
    rewrite Hs in Hc0. cbn [fst] in Hc0. injection Hc0 as ->.
    rewrite Hex0. cbn [negb].
    set (g1 := Random.mk (Random.outcomes g) (BookingService.REFERENCE_LENGTH + Random.taken g)).
    assert (Hrest : forall j, (j < rounds)%nat ->
               exists c, (BookingService.join_choices BookingService.REFERENCE_LENGTH
                            (Random.mk (Random.outcomes g1)
                               (BookingService.REFERENCE_LENGTH * j + Random.taken g1))).1
                         = Ok c /\
                         BookingService.reference_exists c bs = true).
    { intros j Hj. destruct (Hbefore (S j) ltac:(lia)) as (cj & Hcj & Hexj).
      exists cj. split; [|done]. rewrite <- Hcj. cbn [Random.outcomes Random.taken g1].
      repeat (f_equal; try lia). }
    rewrite (IH fuel bs g1 Hrest c); cbn [Random.outcomes Random.taken g1].
    + repeat (f_equal; try lia).
    + rewrite <- Hc. repeat (f_equal; try lia).
    + done.
    + lia.
Qed.

(** X23.  Booking references.  Whenever [_generate_reference] returns,
    the reference has six characters, each an upper-case letter or a
    digit, and is the reference of no booking in the table.  And it does
    return: when the candidates of the first rounds are taken and the
    candidate of the next round is free, the loop returns that candidate
    (given that many rounds), having drawn six characters per round. *)
Theorem generated_reference_is_fresh (bs : list BookingInfo) (g : Random.t) :
  (forall fuel ref g',
      BookingService._generate_reference fuel bs g = (Ok (Some ref), g') ->
      String.length ref = 6%nat /\
      (forall c, c ∈ list_ascii_of_string ref ->
                 c ∈ list_ascii_of_string "ABCDEFGHIJKLMNOPQRSTUVWXYZ0123456789") /\
      ref ∉ reference <$> bs) /\
  (forall rounds candidate,
      (forall j, (j < rounds)%nat ->
         exists c, (BookingService.join_choices 6
                      (Random.mk (Random.outcomes g) (6 * j + Random.taken g))).1 = Ok c /\
                   c ∈ reference <$> bs) ->
      (BookingService.join_choices 6
         (Random.mk (Random.outcomes g) (6 * rounds + Random.taken g))).1 = Ok candidate ->
      candidate ∉ reference <$> bs ->
      forall fuel, (rounds < fuel)%nat ->
        BookingService._generate_reference fuel bs g
        = (Ok (Some candidate),
           Random.mk (Random.outcomes g) (6 * S rounds + Random.taken g))).
Proof.
  split.
  - intros fuel ref g'. apply generate_reference_sound.
  - intros rounds candidate Hbefore Hc Hfresh fuel Hfuel.
    apply generate_reference_progress; try done.
    + intros j Hj. destruct (Hbefore j Hj) as (c & ? & ?). exists c.
      split; [done | by apply reference_exists_spec].
    + destruct (BookingService.reference_exists candidate bs) eqn:Hex; [|done].
      by apply reference_exists_spec in Hex.
Qed.

(** X23 on a generator that counts: the first candidate, ABCDEF, is
    taken, the second, GHIJKL, is returned. *)
Lemma generated_reference_is_fresh_witness :
  (BookingService.join_choices 6 Examples.counting).1 = Ok "ABCDEF" /\
  ("ABCDEF" ∈ reference <$> bookings Examples.world_with_bookings) /\
  (BookingService.join_choices 6 (Random.mk (fun n => n) 6)).1 = Ok "GHIJKL" /\
  ("GHIJKL" ∉ reference <$> bookings Examples.world_with_bookings) /\
  BookingService._generate_reference 2 (bookings Examples.world_with_bookings)
    Examples.counting
  = (Ok (Some "GHIJKL"), Random.mk (fun n => n) 12).
Proof.
  assert (Hin : "ABCDEF" ∈ reference <$> bookings Examples.world_with_bookings)
    by (apply (proj1 (bool_decide_eq_true _)); reflexivity).
  assert (Hout : "GHIJKL" ∉ reference <$> bookings Examples.world_with_bookings)
    by (apply (proj1 (bool_decide_eq_false _)); reflexivity).
  split; [reflexivity|]. split; [exact Hin|]. split; [reflexivity|]. split; [exact Hout|].
  apply (proj2 (generated_reference_is_fresh (bookings Examples.world_with_bookings)
                  Examples.counting) 1%nat "GHIJKL").
  - intros j Hj. assert (j = 0%nat) as -> by lia. exists "ABCDEF". split; [reflexivity|exact Hin].
  - reflexivity.
  - exact Hout.
  - lia.
Defined.

(** ** Looking bookings up and deleting them *)

Lemma find_app {A} (f : A -> bool) (l l' : list A) :
  List.find f (l ++ l')
  = match List.find f l with Some x => Some x | None => List.find f l' end.
Proof. induction l as [|x l IH]; [done|]. cbn. by destruct (f x). Qed.

Lemma find_by_reference_None (ref : string) (bs : list BookingInfo) :
  List.find (fun b => String.eqb (reference b) ref) bs = None <-> ref ∉ reference <$> bs.
Proof.
  induction bs as [|b bs IH]; cbn [List.find fmap list_fmap].
  - split; [intros _; apply not_elem_of_nil | done].
  - rewrite not_elem_of_cons.
    destruct (String.eqb_spec (reference b) ref) as [He|He]; split.
    + discriminate.
    + intros [? _]. congruence.
    + intros H. split; [congruence | by apply IH].
    + intros [_ H]. by apply IH.
Qed.

Lemma create_booking_appends (w w' : World) (trip : PyVal) (uid : Z) (cls : PyVal)
    (booking : BookingInfo) :
  BookingService.create_booking trip uid cls w = (Ok booking, w') ->
  w' = set_bookings (bookings w ++ [booking]) w.
Proof.
  unfold BookingService.create_booking.
  destruct cls as [|c| | | |]; try discriminate.
  destruct (bool_decide _); [|discriminate].
  destruct trip as [| | | |t|]; try discriminate.
  unfold bind, lift_res.
  destruct (BookingService._calculate_total_amount t c); [|discriminate].
  destruct (booking_insert w _ _ _ _ _ _ _) as [b|e]; [|discriminate].
  by intros [= <- <-].
Qed.

(** X24.  A booking made is a booking found.  When [create_booking]
    returns, the booking table is the old one with the new row at its
    end and the user table is unchanged; every reference that was found
    before still finds the same booking; the new reference, being the
    reference of no earlier booking (as [_generate_reference] ensures),
    finds the new booking; and every other reference finds what it found
    before. *)
Theorem created_booking_is_found (w w' : World) (trip : PyVal) (uid : Z) (cls : PyVal)
    (booking : BookingInfo) :
  BookingService.create_booking trip uid cls w = (Ok booking, w') ->
  bookings w' = bookings w ++ [booking] /\
  users w' = users w /\
  (forall ref b,
      BookingService.get_booking_by_reference ref w = Some b ->
      BookingService.get_booking_by_reference ref w' = Some b) /\
  (reference booking ∉ reference <$> bookings w ->
   BookingService.get_booking_by_reference (reference booking) w' = Some booking) /\
  (forall ref,
      ref <> reference booking ->
      BookingService.get_booking_by_reference ref w'
      = BookingService.get_booking_by_reference ref w).
Proof.
  intros Hrun. apply create_booking_appends in Hrun. subst w'.
  unfold BookingService.get_booking_by_reference. cbn [bookings users set_bookings].
  split; [done|]. split; [done|]. split; [|split].
  - intros ref b Hb. by rewrite find_app, Hb.
  - intros Hfresh. apply find_by_reference_None in Hfresh.
    rewrite find_app, Hfresh. cbn. by rewrite String.eqb_refl.
  - intros ref Hne. rewrite find_app.
    destruct (List.find _ (bookings w)); [done|]. cbn.
    destruct (String.eqb_spec (reference booking) ref); [congruence | done].
Qed.

(** X24 on the first booking of Ann. *)
Lemma created_booking_is_found_witness :
  exists booking w',
    BookingService.create_booking (VTrip Examples.trip_oneway) 1 (VStr "ECONOMY")
      Examples.world_logged_in = (Ok booking, w') /\
    reference booking = "AB12CD" /\
    (reference booking ∉ reference <$> bookings Examples.world_logged_in) /\
    BookingService.get_booking_by_reference "AB12CD" w' = Some booking.
Proof.
  destruct (BookingService.create_booking (VTrip Examples.trip_oneway) 1 (VStr "ECONOMY")
              Examples.world_logged_in) as [[booking|e] w'] eqn:Hrun;
    [|discriminate Hrun].
  exists booking, w'. split; [reflexivity|].
  assert (Href : reference booking = "AB12CD").
  { injection Hrun as <- _. reflexivity. }
  assert (Hfresh : reference booking ∉ reference <$> bookings Examples.world_logged_in)
    by apply not_elem_of_nil.
  split; [exact Href|]. split; [exact Hfresh|].
  rewrite <- Href.
  exact (proj1 (proj2 (proj2 (proj2 (created_booking_is_found _ _ _ _ _ _ Hrun)))) Hfresh).
Defined.

Lemma find_Some_elem {A} (f : A -> bool) (l : list A) (x : A) :
  List.find f l = Some x -> x ∈ l /\ f x = true.
Proof. intros H. apply find_some in H as [? ?]. split; [by apply list_elem_of_In | done]. Qed.

Lemma find_None_elem {A} (f : A -> bool) (l : list A) :
  List.find f l = None <-> forall x, x ∈ l -> f x = false.
Proof.
  split.
  - intros H x Hx. apply (find_none f l H). by apply list_elem_of_In.
  - intros H. induction l as [|y l IH]; [done|]. cbn.
    rewrite (H y) by left. apply IH. intros x Hx. apply H. by right.
Qed.

Lemma same_key_same_row (bs : list BookingInfo) (a b : BookingInfo) :
  NoDup (booking_id <$> bs) -> a ∈ bs -> b ∈ bs -> booking_id a = booking_id b -> a = b.
Proof.
  induction bs as [|x bs IH]; intros Hnd Ha Hb Heq; [by apply elem_of_nil in Ha|].
  cbn [fmap list_fmap] in Hnd. apply NoDup_cons in Hnd as [Hx Hnd].
  apply elem_of_cons in Ha as [->|Ha]; apply elem_of_cons in Hb as [->|Hb].
  - done.
  - exfalso. apply Hx. rewrite Heq. by apply list_elem_of_fmap_2.
  - exfalso. apply Hx. rewrite <- Heq. by apply list_elem_of_fmap_2.
  - by apply IH.
Qed.

(** X25.  Only the owner deletes.  When no booking has both the key and
    the user given, [delete_booking] returns [False] and changes
    nothing, so the booking of another user is never removed.  When the
    user owns the booking with that key (keys being unique),
    [delete_booking] returns [True], removes exactly that row and leaves
    every other booking and the users in place; deleting it once more
    returns [False]. *)
Theorem delete_booking_only_by_owner (w : World) (bid uid : Z) :
  ((forall b, b ∈ bookings w -> booking_id b = bid -> booking_user_id b <> uid) ->
   BookingService.delete_booking bid uid w = (false, w)) /\
  (forall b,
      NoDup (booking_id <$> bookings w) ->
      b ∈ bookings w -> booking_id b = bid -> booking_user_id b = uid ->
      exists w',
        BookingService.delete_booking bid uid w = (true, w') /\
        users w' = users w /\
        (forall other, other ∈ bookings w' <-> other ∈ bookings w /\ other <> b) /\
        BookingService.delete_booking bid uid w' = (false, w')).
Proof.
  unfold BookingService.delete_booking. split.
  - intros Hnone.
    rewrite (proj2 (find_None_elem _ _)); [done|].
    intros b Hb. destruct (Z.eqb_spec (booking_id b) bid) as [Hid|]; [|done].
    cbn. apply Z.eqb_neq. by apply Hnone.
  - intros b Hnd Hb Hid Huid.
    destruct (List.find _ (bookings w)) as [found|] eqn:Hfind.
    2:{ rewrite find_None_elem in Hfind. specialize (Hfind b Hb).
        cbn in Hfind. rewrite Hid, Huid, !Z.eqb_refl in Hfind. discriminate. }
    apply find_Some_elem in Hfind as [Hin Hfound].
    apply andb_true_iff in Hfound as [Hfid Hfuid].
    apply Z.eqb_eq in Hfid. apply Z.eqb_eq in Hfuid.
    assert (found = b) as -> by (apply (same_key_same_row (bookings w)); congruence).
    eexists. split; [reflexivity|]. cbn [users bookings set_bookings].
    assert (Hmem : forall other,
               other ∈ filter (fun b0 => booking_id b0 <> booking_id b) (bookings w)
               <-> other ∈ bookings w /\ other <> b).
    { intros other. rewrite list_elem_of_filter. split.
      - intros [Hne Ho]. split; [done | congruence].
      - intros [Ho Hne]. split; [|done]. intros Heq. apply Hne.
        by apply (same_key_same_row (bookings w)). }
    split; [done|]. split; [exact Hmem|].
    rewrite (proj2 (find_None_elem _ _)); [done|].
    intros other Ho. apply Hmem in Ho as [Ho Hne].
    destruct (Z.eqb_spec (booking_id other) bid) as [Hoid|]; [|done].
    exfalso. apply Hne. apply (same_key_same_row (bookings w)); congruence.
Qed.

(** X25 on two bookings of two users: user 1 cannot delete booking 2, and
    deletes booking 1. *)
Lemma delete_booking_only_by_owner_witness :
  BookingService.delete_booking 2 1 Examples.world_with_bookings
  = (false, Examples.world_with_bookings) /\
  NoDup (booking_id <$> bookings Examples.world_with_bookings) /\
  (reference <$> bookings (BookingService.delete_booking 1 1 Examples.world_with_bookings).2)
  = ["QX71PD"].
Proof.
  assert (Hnd : NoDup (booking_id <$> bookings Examples.world_with_bookings))
    by (apply (proj1 (bool_decide_eq_true _)); reflexivity).
  split; [|split; [exact Hnd|]].
  - apply (proj1 (delete_booking_only_by_owner Examples.world_with_bookings 2 1)).
    intros b Hb Hid. cbn in Hb.
    apply elem_of_cons in Hb as [->|Hb]; [discriminate Hid|].
    apply list_elem_of_singleton in Hb as ->. discriminate.
  - destruct (proj2 (delete_booking_only_by_owner Examples.world_with_bookings 1 1)
                (Examples.booking_of 1 "ABCDEF" 1 2) Hnd ltac:(left) eq_refl eq_refl)
      as (w' & Hrun & _).
    reflexivity.
Defined.

(** ** The bookings of a user *)

Lemma datetime_ltb_spec (a b : date * time) :
  datetime_ltb a b = true <->
  year a.1 < year b.1 \/
  (year a.1 = year b.1 /\
   (month a.1 < month b.1 \/
    (month a.1 = month b.1 /\
     (day a.1 < day b.1 \/
      (day a.1 = day b.1 /\
       (hour a.2 < hour b.2 \/ (hour a.2 = hour b.2 /\ minute a.2 < minute b.2))))))).
Proof.
  destruct a as [[y m d] [h mi]], b as [[y' m' d'] [h' mi']].
  unfold datetime_ltb, date_ltb, time_ltb. cbn [fst snd year month day hour minute].
  rewrite !orb_true_iff, !andb_true_iff, !orb_true_iff, !andb_true_iff,
    bool_decide_eq_true, !Z.ltb_lt, !Z.eqb_eq.
  split.
  - intros [H|[[= -> -> ->] H]]; lia.
  - intros H.
    destruct (decide (y = y' /\ m = m' /\ d = d')) as [(-> & -> & ->)|Hne];
      [right; split; [done | lia] | left; lia].
Qed.

#[local] Instance newest_first_total : Total BookingService.newest_first.
Proof.
  intros a b. unfold BookingService.newest_first.
  destruct (datetime_ltb (created_at a) (created_at b)) eqn:Hab; [right | by left].
  apply not_true_iff_false. intros Hba.
  apply datetime_ltb_spec in Hab. apply datetime_ltb_spec in Hba. lia.
Qed.

#[local] Instance newest_first_transitive : Transitive BookingService.newest_first.
Proof.
  intros a b c. unfold BookingService.newest_first.
  rewrite <- !not_true_iff_false, !datetime_ltb_spec. lia.
Qed.

(** X26.  The bookings of a user.  [get_user_bookings] returns the rows
    of the booking table that belong to the user, each as often as the
    table has it and none of another user, ordered so that no booking
    was created before a booking that follows it in the list. *)
Theorem user_bookings_newest_first (w : World) (uid : Z) :
  (forall b, b ∈ BookingService.get_user_bookings uid w <->
             b ∈ bookings w /\ booking_user_id b = uid) /\
  BookingService.get_user_bookings uid w
    ≡ₚ filter (fun b => booking_user_id b = uid) (bookings w) /\
  StronglySorted
    (fun a b => datetime_ltb (created_at a) (created_at b) = false)
    (BookingService.get_user_bookings uid w).
Proof.
  unfold BookingService.get_user_bookings. split; [|split].
  - intros b. rewrite merge_sort_Permutation, list_elem_of_filter. tauto.
  - apply merge_sort_Permutation.
  - apply (StronglySorted_merge_sort BookingService.newest_first); apply _.
Qed.

(* ===================================================================== *)
(** * 29. Dates as text *)
(* ===================================================================== *)

Lemma list_ascii_of_string_app (a b : string) :
  list_ascii_of_string (a ++ b)%string = list_ascii_of_string a ++ list_ascii_of_string b.
Proof.
  induction a as [|c a IH]; [done|].
  change (String c a +:+ b) with (String c (a +:+ b)). cbn. by rewrite IH.
Qed.

(** The four digits of a year, as [isoformat] writes them, read back. *)
Lemma year_text (y : Z) (rest : list ascii) :
  1 <= y <= 9999 ->
  year_matches (list_ascii_of_string (zero_pad 4 y) ++ rest) = [(y, rest)].
Proof.
  intros Hy.
  assert (Hall : forallb
                   (fun n => bool_decide
                               (year_matches (list_ascii_of_string (zero_pad 4 (Z.of_nat n)))
                                = [(Z.of_nat n, [])]))
                   (seq 1 (Z.to_nat 9999)) = true) by (vm_compute; reflexivity).
  rewrite forallb_forall in Hall.
  specialize (Hall (Z.to_nat y)). rewrite in_seq, Z2Nat.id in Hall by lia.
  specialize (Hall ltac:(lia)). apply bool_decide_eq_true in Hall.
  destruct (list_ascii_of_string (zero_pad 4 y)) as [|a [|b [|c [|e l]]]];
    try discriminate.
  cbn [app year_matches] in *.
  destruct (is_digit a && is_digit b && is_digit c && is_digit e); [|discriminate].
  by injection Hall as -> ->.
Qed.

Lemma month_text (m : Z) (rest : list ascii) :
  1 <= m <= 12 ->
  exists others,
    month_matches (list_ascii_of_string (zero_pad 2 m) ++ rest) = (m, rest) :: others.
Proof.
  intros Hm.
  assert (m = 1 \/ m = 2 \/ m = 3 \/ m = 4 \/ m = 5 \/ m = 6 \/ m = 7 \/ m = 8 \/ m = 9 \/
          m = 10 \/ m = 11 \/ m = 12) as Hcases by lia.
  repeat (destruct Hcases as [->|Hcases]); try subst m; by eexists.
Qed.

Lemma day_text (d : Z) :
  1 <= d <= 31 ->
  exists others, day_matches (list_ascii_of_string (zero_pad 2 d)) = (d, []) :: others.
Proof.
  intros Hd.
  assert (Hall : forallb
                   (fun n => match day_matches (list_ascii_of_string (zero_pad 2 (Z.of_nat n))) with
                             | (d', []) :: _ => d' =? Z.of_nat n
                             | _ => false
                             end)
                   (seq 1 31) = true) by (vm_compute; reflexivity).
  rewrite forallb_forall in Hall.
  specialize (Hall (Z.to_nat d)). rewrite in_seq, Z2Nat.id in Hall by lia.
  specialize (Hall ltac:(lia)).
  destruct (day_matches _) as [|[d' [|? ?]] others]; try discriminate.
  apply Z.eqb_eq in Hall. subst d'. by eexists.
Qed.

Lemma days_in_month_bound (y m : Z) : days_in_month y m <= 31.
Proof.
  unfold days_in_month. destruct (m =? 2); [destruct (is_leap y); lia|].
  destruct (_ || _); lia.
Qed.

Lemma strptime_isoformat (d : date) :
  date_ok (year d) (month d) (day d) = true -> strptime_ymd (isoformat d) = Ok d.
Proof.
  destruct d as [y m dd]. cbn [year month day]. intros Hok.
  pose proof Hok as Hrange. unfold date_ok in Hrange.
  rewrite !andb_true_iff, !Z.leb_le in Hrange.
  pose proof (days_in_month_bound y m).
  unfold strptime_ymd, isoformat, ymd_matches. cbn [year month day].
  rewrite !list_ascii_of_string_app. cbn [list_ascii_of_string app].
  rewrite year_text by lia. cbn [mbind list_bind expect_dash Ascii.eqb Bool.eqb].
  destruct (month_text m ("-"%char :: list_ascii_of_string (zero_pad 2 dd)) ltac:(lia))
    as [om ->].
  cbn [mbind list_bind expect_dash Ascii.eqb Bool.eqb app].
  destruct (day_text dd ltac:(lia)) as [od ->].
  cbn [mbind list_bind app mret list_ret]. by rewrite Hok.
Qed.

(** X27.  Dates as text.  For every date of the calendar, the text that
    [str] and [strftime("%Y-%m-%d")] give for it is parsed back to the
    same date by [strptime(..., "%Y-%m-%d")].  So in state OUTBOUND_DATE
    a date that is not in the past, typed as YYYY-MM-DD, is stored as
    that date, and the summary prints back what was typed. *)
Theorem date_text_round_trip (d : date) :
  date_ok (year d) (month d) (day d) = true ->
  strptime_ymd (isoformat d) = Ok d /\
  forall (w : World) (self : BookingTransaction.t),
    BookingTransaction.state self = BookingStates.OUTBOUND_DATE ->
    date_ltb d (today w) = false ->
    exists response self',
      BookingTransaction.process (isoformat d) (w, self) = (Ok response, (w, self')) /\
      BookingTransaction.context self' !! "outbound_date" = Some (VDate d) /\
      PyValM.str (VDate d) = isoformat d.
Proof.
  intros Hok. pose proof (strptime_isoformat d Hok) as Hparse.
  split; [exact Hparse|].
  intros w self Hst Hfut.
  destruct (BookingTransaction.context self !! "trip_type") as [tt|] eqn:Htt.
  - assert (Htt' : BookingTransaction.context
                     (BookingTransaction.set_context
                        (<["outbound_date" := VDate d]> (BookingTransaction.context self)) self)
                   !! "trip_type" = Some tt).
    { by rewrite context_set_context, lookup_insert_ne. }
    destruct (decide (tt = VStr "ROUNDTRIP")) as [Hround|Hround].
    + eexists _, _. split; [|split; [|reflexivity]].
      * apply (process_by_handler w self _ _ BookingTransaction._handle_outbound_date
                 _ _ Hst ltac:(done) eq_refl).
        unfold BookingTransaction._handle_outbound_date, try_except.
        rewrite Hparse, bind_lift_ok, bind_get_today, Hfut, bind_ctx_set.
        rewrite (bind_ctx_get _ _ _ _ _ Htt').
        destruct (decide (tt = VStr "ROUNDTRIP")) as [_|Hno]; [|contradiction].
        rewrite bind_goto. reflexivity.
      * rewrite context_set_state, context_set_context. apply lookup_insert_eq.
    + eexists _, _. split; [|split; [|reflexivity]].
      * apply (process_by_handler w self _ _ BookingTransaction._handle_outbound_date
                 _ _ Hst ltac:(done) eq_refl).
        unfold BookingTransaction._handle_outbound_date, try_except.
        rewrite Hparse, bind_lift_ok, bind_get_today, Hfut, bind_ctx_set.
        rewrite (bind_ctx_get _ _ _ _ _ Htt').
        destruct (decide (tt = VStr "ROUNDTRIP")) as [Hyes|_]; [contradiction|].
        rewrite bind_goto. reflexivity.
      * rewrite context_set_state, context_set_context. apply lookup_insert_eq.
  - assert (Htt' : BookingTransaction.context
                     (BookingTransaction.set_context
                        (<["outbound_date" := VDate d]> (BookingTransaction.context self)) self)
                   !! "trip_type" = None).
    { by rewrite context_set_context, lookup_insert_ne. }
    exists "Sorry, something went wrong. Please start a new booking.",
      (BookingTransaction.set_state BookingStates.COMPLETE
         (BookingTransaction.set_context
            (<["outbound_date" := VDate d]> (BookingTransaction.context self)) self)).
    split; [|split; [|reflexivity]].
    + apply (process_by_handler_raise w self _ _ BookingTransaction._handle_outbound_date
               (KeyError "trip_type") w _ Hst ltac:(done) eq_refl).
      unfold BookingTransaction._handle_outbound_date, try_except.
      rewrite Hparse, bind_lift_ok, bind_get_today, Hfut, bind_ctx_set.
      rewrite (bind_ctx_get_missing _ _ _ _ Htt'). reflexivity.
    + rewrite context_set_state, context_set_context. apply lookup_insert_eq.
Qed.

(** X27 on 29 February 2028. *)
Lemma date_text_round_trip_witness :
  date_ok 2028 2 29 = true /\
  isoformat (mkdate 2028 2 29) = "2028-02-29" /\
  strptime_ymd "2028-02-29" = Ok (mkdate 2028 2 29).
Proof.
  split; [reflexivity|]. split; [reflexivity|].
  exact (proj1 (date_text_round_trip (mkdate 2028 2 29) eq_refl)).
Defined.
